(** * BiomechAI: posture / gait classification, aggregation and reporting

    A shallow embedding of the Convex handlers in [convex/posture] (the second
    document of [src/convex/chat.ts]), [src/convex/gait.ts] and
    [src/convex/reports.ts], and the properties the specification states
    about them.

    Numbers.  A JavaScript [number] is an IEEE 754 binary64 value; it is
    modelled by [spec_float] with precision 53 and maximal exponent 1024,
    the axiom-free specification of floating point of the standard library,
    so [NaN], the infinities and the two zeros are all present.  Counts
    ([array.length]) are [nat] and become numbers through [JS.ofNat] when the
    source divides by them.  Timestamps are values of [Date.now()], integral
    millisecond counts far below 2^53 on which binary64 arithmetic is exact;
    they are modelled by [Z]. *)

From Stdlib Require Import ZArith List String Bool Arith Lia.
From Stdlib Require Import Floats.SpecFloat.
From Stdlib Require Import Sorting.Sorted Sorting.Permutation.
Import ListNotations.

Local Open Scope string_scope.
Local Open Scope list_scope.

(** ** JavaScript numbers *)

Module JS.

Definition number := spec_float.

Definition prec : Z := 53.
Definition emax : Z := 1024.

Definition ofZ (z : Z) : number := binary_normalize prec emax z 0 false.
Definition ofNat (n : nat) : number := ofZ (Z.of_nat n).

Definition add (x y : number) : number := SFadd prec emax x y.
Definition sub (x y : number) : number := SFsub prec emax x y.
Definition mul (x y : number) : number := SFmul prec emax x y.
Definition div (x y : number) : number := SFdiv prec emax x y.

(** [x < y], [x > y], [x <= y], [x >= y]: every comparison with [NaN] is
    false. *)
Definition lt (x y : number) : bool := SFltb x y.
Definition gt (x y : number) : bool := SFltb y x.
Definition le (x y : number) : bool := SFleb x y.
Definition ge (x y : number) : bool := SFleb y x.

(** [Math.abs]. *)
Definition abs (x : number) : number := SFabs x.

(** ToBoolean on a number: [+0], [-0] and [NaN] are falsy. *)
Definition truthy (x : number) : bool :=
  match x with
  | S754_zero _ | S754_nan => false
  | _ => true
  end.

(** ToBoolean on an optional number ([undefined] is falsy). *)
Definition truthyOpt (x : option number) : bool :=
  match x with
  | Some v => truthy v
  | None => false
  end.

(** [x || 0] on an optional number. *)
Definition orZero (x : option number) : number :=
  match x with
  | Some v => if truthy v then v else ofZ 0
  | None => ofZ 0
  end.

(** [Math.round]: the closest integer, ties towards +infinity; [NaN], the
    infinities and the zeros are returned unchanged, and a negative
    argument that rounds to zero gives [-0].  A finite value with a
    non-negative exponent is already integral. *)
Definition round (x : number) : number :=
  match x with
  | S754_finite s m e =>
      if (0 <=? e)%Z then x
      else
        let k := (- e)%Z in
        let sm := if s then Z.neg m else Z.pos m in
        binary_normalize prec emax
          (Z.shiftr (2 * sm + 2 ^ k) (k + 1)) 0 s
  | _ => x
  end.

(** [Number.isFinite]. *)
Definition isFinite (x : number) : bool :=
  match x with
  | S754_zero _ | S754_finite _ _ _ => true
  | _ => false
  end.

Definition isNaN (x : number) : bool :=
  match x with S754_nan => true | _ => false end.

Definition NaN : number := S754_nan.
Definition Infinity : number := S754_infinity false.

(** [array.reduce((sum, s) => sum + f(s), 0)]. *)
Definition sumBy {A : Type} (f : A -> number) (l : list A) : number :=
  fold_left (fun sum s => add sum (f s)) l (ofZ 0).

End JS.

Abbreviation number := JS.number.

(** Decimal literals of the sources denote the nearest binary64 value,
    which correctly rounded division of the two integers yields. *)
Definition lit (z : Z) : number := JS.ofZ z.
Definition lit_0_8 : number := JS.div (lit 8) (lit 10).
Definition lit_1_2 : number := JS.div (lit 12) (lit 10).

(** [array.slice(-n)]: the last [n] elements, the whole array when it is
    shorter. *)
Definition sliceLast {A : Type} (n : nat) (l : list A) : list A :=
  skipn (List.length l - n) l.

(** [array.filter(p).length]. *)
Definition countBy {A : Type} (p : A -> bool) (l : list A) : nat :=
  List.length (filter p l).

(** [Math.round((k / n) * 100)], the rounded percentage of [k] among [n]. *)
Definition roundedPct (k n : nat) : number :=
  JS.round (JS.mul (JS.div (JS.ofNat k) (JS.ofNat n)) (lit 100)).

(** ** Posture classifier ([analyzePosture], second document of chat.ts) *)

Module Posture.

(** The arguments of [analyzePosture]; [v.optional] fields are options. *)
Record Args := {
  a_forwardHeadAngle : number;
  a_shoulderTilt : number;
  a_neckAngle : number;
  a_spineAlignment : number;
  a_duration : number;
  a_sittingPosition : option string;
  a_handFolding : option bool;
  a_kneeling : option bool;
  a_spineAngle : option number;
  a_earToHipAngle : option number;
  a_postureScore : option number;
  a_keypointConfidence : option number;
  a_rawData : option string;
  a_dataPoints : option number
}.

(** A document of the [postureSessions] table. *)
Record Session := {
  userId : string;
  timestamp : Z;
  forwardHeadAngle : number;
  shoulderTilt : number;
  neckAngle : number;
  spineAlignment : number;
  classification : string;
  duration : number;
  sittingPosition : option string;
  handFolding : option bool;
  kneeling : option bool;
  spineAngle : option number;
  earToHipAngle : option number;
  postureScore : option number;
  keypointConfidence : option number;
  recommendations : list string;
  rawData : option string;
  dataPoints : option number
}.

(** The two locals the rule cascade updates: [classification] and the
    [recommendations] array. *)
Record Verdict := {
  label : string;
  advice : list string
}.

Definition push (v : Verdict) (msg : string) : Verdict :=
  {| label := label v; advice := advice v ++ [msg] |}.

Definition setLabel (v : Verdict) (l : string) : Verdict :=
  {| label := l; advice := advice v |}.

(** [classification = classification === "good" ? "fair" : classification]. *)
Definition toFair (v : Verdict) : Verdict :=
  setLabel v (if label v =? "good" then "fair" else label v).

Definition optIs (o : option string) (s : string) : bool :=
  match o with
  | Some x => x =? s
  | None => false
  end.

Definition optTrue (o : option bool) : bool :=
  match o with
  | Some b => b
  | None => false
  end.

(** One statement of the handler body, as a transformer of the locals. *)
Definition Rule := Args -> Verdict -> Verdict.

Definition sittingRule : Rule := fun args v =>
  if optIs (a_sittingPosition args) "hunchback" then
    push (setLabel v "poor")
      "Correct hunchback posture by sitting up straight and pulling shoulders back"
  else if optIs (a_sittingPosition args) "reclined" then
    push (toFair v) "Adjust to a more upright sitting position"
  else v.

Definition handFoldingRule : Rule := fun args v =>
  if optTrue (a_handFolding args) then
    push v "Keep your arms relaxed at your sides for better posture"
  else v.

Definition kneelingRule : Rule := fun args v =>
  if optTrue (a_kneeling args) then
    push v "Sit with both feet flat on the ground for proper posture"
  else v.

Definition forwardHeadRule : Rule := fun args v =>
  if JS.gt (a_forwardHeadAngle args) (lit 15) then
    push (setLabel v "poor")
      "Reduce forward head posture by adjusting monitor height"
  else if JS.gt (a_forwardHeadAngle args) (lit 10) then
    push (toFair v) "Monitor forward head position throughout the day"
  else v.

Definition shoulderRule : Rule := fun args v =>
  if JS.gt (JS.abs (a_shoulderTilt args)) (lit 10) then
    push (setLabel v "poor")
      "Level your shoulders and check workspace ergonomics"
  else v.

Definition neckRule : Rule := fun args v =>
  if JS.gt (a_neckAngle args) (lit 15) then
    push (toFair v) "Maintain neutral neck position"
  else v.

Definition spineRule : Rule := fun args v =>
  if JS.lt (a_spineAlignment args) (lit 70) then
    push (setLabel v "poor") "Improve spinal alignment with back support"
  else if JS.lt (a_spineAlignment args) (lit 85) then
    push (toFair v) "Focus on maintaining good spinal alignment"
  else v.

(** [args.postureScore && args.postureScore < 60]: the left operand is a
    truthiness test, so [undefined], [0], [-0] and [NaN] all skip the
    comparison. *)
Definition scoreBelow (o : option number) (bound : Z) : bool :=
  match o with
  | Some s => JS.truthy s && JS.lt s (lit bound)
  | None => false
  end.

Definition scoreRule : Rule := fun args v =>
  if scoreBelow (a_postureScore args) 60 then
    push (setLabel v "poor") "Overall posture needs significant improvement"
  else if scoreBelow (a_postureScore args) 80 then
    push (toFair v) "Posture is acceptable but can be improved"
  else v.

Definition confidenceRule : Rule := fun args v =>
  if scoreBelow (a_keypointConfidence args) 70 then
    push v "Ensure good lighting and clear view for accurate posture analysis"
  else v.

Definition defaultRule : Rule := fun _ v =>
  if (List.length (advice v) =? 0)%nat then
    push v "Excellent posture! Keep maintaining this good posture"
  else v.

(** The handler body, statement by statement, in source order. *)
Definition rules : list Rule :=
  [ sittingRule; handFoldingRule; kneelingRule; forwardHeadRule;
    shoulderRule; neckRule; spineRule; scoreRule; confidenceRule;
    defaultRule ].

Definition initial : Verdict := {| label := "good"; advice := [] |}.

Definition runRules (args : Args) (rs : list Rule) (v : Verdict) : Verdict :=
  fold_left (fun acc r => r args acc) rs v.

(** The locals after the first [k] statements of the cascade. *)
Definition after (k : nat) (args : Args) : Verdict :=
  runRules args (firstn k rules) initial.

Definition classify (args : Args) : Verdict :=
  runRules args rules initial.

(** [score: classification === "good" ? 90 : classification === "fair" ? 70 : 40]. *)
Definition scoreOf (l : string) : number :=
  if l =? "good" then lit 90 else if l =? "fair" then lit 70 else lit 40.

Record Result := {
  r_sessionId : nat;
  r_classification : string;
  r_recommendations : list string;
  r_score : number
}.

Definition anonymous : string := "anonymous-user".

Definition toSession (now : Z) (args : Args) (v : Verdict) : Session :=
  {| userId := anonymous;
     timestamp := now;
     forwardHeadAngle := a_forwardHeadAngle args;
     shoulderTilt := a_shoulderTilt args;
     neckAngle := a_neckAngle args;
     spineAlignment := a_spineAlignment args;
     classification := label v;
     duration := a_duration args;
     sittingPosition := a_sittingPosition args;
     handFolding := a_handFolding args;
     kneeling := a_kneeling args;
     spineAngle := a_spineAngle args;
     earToHipAngle := a_earToHipAngle args;
     postureScore := a_postureScore args;
     keypointConfidence := a_keypointConfidence args;
     recommendations := advice v;
     rawData := a_rawData args;
     dataPoints := a_dataPoints args |}.

(** The mutation: classify, append the document to the table (the store
    is threaded explicitly; the document id is its position), answer. *)
Definition analyzePosture (now : Z) (args : Args) (table : list Session)
  : Result * list Session :=
  let v := classify args in
  ({| r_sessionId := List.length table;
      r_classification := label v;
      r_recommendations := advice v;
      r_score := scoreOf (label v) |},
   table ++ [toSession now args v]).

(** Severity of a label; the cascade only ever holds the three known
    labels. *)
Definition severity (l : string) : nat :=
  if l =? "good" then 0 else if l =? "fair" then 1 else 2.

Definition knownLabel (l : string) : Prop :=
  l = "good" \/ l = "fair" \/ l = "poor".

(** A sample with the five required fields and no optional one. *)
Definition sample (fha tilt neck spine dur : number) : Args :=
  {| a_forwardHeadAngle := fha; a_shoulderTilt := tilt;
     a_neckAngle := neck; a_spineAlignment := spine; a_duration := dur;
     a_sittingPosition := None; a_handFolding := None; a_kneeling := None;
     a_spineAngle := None; a_earToHipAngle := None;
     a_postureScore := None; a_keypointConfidence := None;
     a_rawData := None; a_dataPoints := None |}.

Definition withScore (args : Args) (s : number) : Args :=
  {| a_forwardHeadAngle := a_forwardHeadAngle args;
     a_shoulderTilt := a_shoulderTilt args;
     a_neckAngle := a_neckAngle args;
     a_spineAlignment := a_spineAlignment args;
     a_duration := a_duration args;
     a_sittingPosition := a_sittingPosition args;
     a_handFolding := a_handFolding args;
     a_kneeling := a_kneeling args;
     a_spineAngle := a_spineAngle args;
     a_earToHipAngle := a_earToHipAngle args;
     a_postureScore := Some s;
     a_keypointConfidence := a_keypointConfidence args;
     a_rawData := a_rawData args;
     a_dataPoints := a_dataPoints args |}.

End Posture.

(** ** Gait classifier ([analyzeGait], gait.ts) *)

Module Gait.

Record Args := {
  a_stepCount : number;
  a_symmetryScore : number;
  a_cadence : number;
  a_strideLength : option number;
  a_gaitSpeed : option number;
  a_leftRightBalance : number;
  a_analysisType : string;
  a_rawDataPath : option string;
  a_stancePhase : option number;
  a_swingPhase : option number;
  a_doubleSupportPhase : option number;
  a_heelStrikeForce : option number;
  a_toeOffForce : option number
}.

(** A document of the [gaitSessions] table. *)
Record Session := {
  userId : string;
  timestamp : Z;
  stepCount : number;
  symmetryScore : number;
  cadence : number;
  strideLength : option number;
  gaitSpeed : option number;
  leftRightBalance : number;
  classification : string;
  analysisType : string;
  rawDataPath : option string;
  stancePhase : option number;
  swingPhase : option number;
  doubleSupportPhase : option number;
  heelStrikeForce : option number;
  toeOffForce : option number;
  recommendations : list string
}.

Record Verdict := {
  label : string;
  advice : list string
}.

Definition push (v : Verdict) (msg : string) : Verdict :=
  {| label := label v; advice := advice v ++ [msg] |}.

Definition setLabel (v : Verdict) (l : string) : Verdict :=
  {| label := l; advice := advice v |}.

Definition symmetryRule (args : Args) (v : Verdict) : Verdict :=
  if JS.lt (a_symmetryScore args) (lit 70) then
    push (setLabel v "asymmetric")
      "Significant gait asymmetry detected - consider consulting a healthcare professional"
  else if JS.lt (a_symmetryScore args) (lit 85) then
    push (setLabel v "irregular")
      "Minor gait irregularities detected - focus on balanced movement"
  else v.

Definition balanceRule (args : Args) (v : Verdict) : Verdict :=
  if JS.gt (JS.abs (JS.sub (a_leftRightBalance args) (lit 50))) (lit 15) then
    push (setLabel v (if label v =? "normal" then "irregular" else label v))
      "Uneven weight distribution between left and right steps"
  else v.

Definition cadenceRule (args : Args) (v : Verdict) : Verdict :=
  if JS.lt (a_cadence args) (lit 100) || JS.gt (a_cadence args) (lit 180) then
    push v "Cadence outside normal range - aim for 120-160 steps per minute"
  else v.

(** [x && (x < lo || x > hi)] on an optional number. *)
Definition outside (o : option number) (lo hi : number) : bool :=
  match o with
  | Some x => JS.truthy x && (JS.lt x lo || JS.gt x hi)
  | None => false
  end.

Definition stanceRule (args : Args) (v : Verdict) : Verdict :=
  if outside (a_stancePhase args) (lit 55) (lit 70) then
    push v "Abnormal stance phase duration - may indicate balance issues"
  else v.

Definition swingRule (args : Args) (v : Verdict) : Verdict :=
  if outside (a_swingPhase args) (lit 25) (lit 40) then
    push v "Abnormal swing phase duration - may indicate mobility limitations"
  else v.

Definition forceRule (args : Args) (v : Verdict) : Verdict :=
  match a_heelStrikeForce args, a_toeOffForce args with
  | Some heel, Some toe =>
      if JS.truthy heel && JS.truthy toe then
        let forceRatio := JS.div heel toe in
        if JS.lt forceRatio lit_0_8 || JS.gt forceRatio lit_1_2 then
          push v "Uneven ground reaction forces - consider gait training"
        else v
      else v
  | _, _ => v
  end.

Definition speedRule (args : Args) (v : Verdict) : Verdict :=
  match a_gaitSpeed args with
  | Some s =>
      if JS.truthy s && JS.lt s lit_0_8 then
        push v "Slow gait speed - consider increasing walking pace gradually"
      else v
  | None => v
  end.

Definition esp32Rules (args : Args) (v : Verdict) : Verdict :=
  if a_analysisType args =? "esp32" then
    speedRule args (forceRule args (swingRule args (stanceRule args v)))
  else v.

Definition defaultRule (v : Verdict) : Verdict :=
  if (List.length (advice v) =? 0)%nat then
    push v "Normal gait pattern detected!"
  else v.

Definition initial : Verdict := {| label := "normal"; advice := [] |}.

Definition classify (args : Args) : Verdict :=
  defaultRule
    (esp32Rules args
       (cadenceRule args (balanceRule args (symmetryRule args initial)))).

Record Result := {
  r_sessionId : nat;
  r_classification : string;
  r_recommendations : list string;
  r_score : number
}.

Definition anonymous : string := "anonymous-user".

Definition toSession (now : Z) (args : Args) (v : Verdict) : Session :=
  {| userId := anonymous;
     timestamp := now;
     stepCount := a_stepCount args;
     symmetryScore := a_symmetryScore args;
     cadence := a_cadence args;
     strideLength := a_strideLength args;
     gaitSpeed := a_gaitSpeed args;
     leftRightBalance := a_leftRightBalance args;
     classification := label v;
     analysisType := a_analysisType args;
     rawDataPath := a_rawDataPath args;
     stancePhase := a_stancePhase args;
     swingPhase := a_swingPhase args;
     doubleSupportPhase := a_doubleSupportPhase args;
     heelStrikeForce := a_heelStrikeForce args;
     toeOffForce := a_toeOffForce args;
     recommendations := advice v |}.

Definition analyzeGait (now : Z) (args : Args) (table : list Session)
  : Result * list Session :=
  let v := classify args in
  ({| r_sessionId := List.length table;
      r_classification := label v;
      r_recommendations := advice v;
      r_score := a_symmetryScore args |},
   table ++ [toSession now args v]).

(** A sample with the five required fields and no optional one. *)
Definition sample (steps sym cad bal : number) (ty : string) : Args :=
  {| a_stepCount := steps; a_symmetryScore := sym; a_cadence := cad;
     a_strideLength := None; a_gaitSpeed := None;
     a_leftRightBalance := bal; a_analysisType := ty;
     a_rawDataPath := None; a_stancePhase := None; a_swingPhase := None;
     a_doubleSupportPhase := None; a_heelStrikeForce := None;
     a_toeOffForce := None |}.

End Gait.

(** ** The clock and the trailing-week windows shared by both aggregators *)

(** [Date.now()]: a handler run reads the clock several times; [clock k] is
    its k-th reading (0-based). *)
Definition Clock := nat -> Z.

Definition monotone (clock : Clock) : Prop :=
  forall j k, (j <= k)%nat -> (clock j <= clock k)%Z.

Definition frozen (now : Z) : Clock := fun _ => now.

(** [24 * 60 * 60 * 1000] milliseconds. *)
Definition DAY : Z := 24 * 60 * 60 * 1000.

(** [weekAgo = Date.now() - 7 * 24 * 60 * 60 * 1000], the first reading. *)
Definition weekAgo (clock : Clock) : Z := (clock 0%nat - 7 * DAY)%Z.

(** [dayStart = Date.now() - i * 24 * 60 * 60 * 1000] in the loop iteration
    with index [i]; the loop counts [i] down from 6, so that iteration makes
    reading number [7 - i]. *)
Definition dayStart (clock : Clock) (i : nat) : Z :=
  (clock (7 - i)%nat - Z.of_nat i * DAY)%Z.

Definition dayEnd (clock : Clock) (i : nat) : Z := (dayStart clock i + DAY)%Z.

(** [s.timestamp >= dayStart && s.timestamp < dayEnd]. *)
Definition inDay (clock : Clock) (i : nat) (ts : Z) : bool :=
  (dayStart clock i <=? ts)%Z && (ts <? dayEnd clock i)%Z.

(** [s.timestamp > weekAgo]. *)
Definition isRecent (clock : Clock) (ts : Z) : bool := (weekAgo clock <? ts)%Z.

(** [for (let i = 6; i >= 0; i--) weeklyTrend.push(entry(i))], started at
    [i] with the entries pushed so far. *)
Fixpoint trendLoop {E : Type} (entry : nat -> E) (i : nat) (acc : list E)
  : list E :=
  let acc' := acc ++ [entry i] in
  match i with
  | O => acc'
  | S j => trendLoop entry j acc'
  end.

(** ** A plain object used as a counter table

    Both aggregations over the sitting positions run
    [obj[k] = (obj[k] || 0) + 1] on an object that starts as [{}], with
    keys taken from the stored documents.  The model keeps the object's own
    properties in creation order and follows the language on the keys that
    are not word-like:
    - reading a key that is not an own property finds the property of that
      name of [Object.prototype], if there is one ([constructor],
      [toString], ...: a function, and for [__proto__] the prototype
      itself); it is truthy, and adding 1 to it gives a string;
    - writing [obj.__proto__] creates no property: the setter ignores a
      value that is not an object;
    - [Object.entries] lists the keys that are array indices first, in
      ascending numeric order, then the other keys in creation order. *)

Module Obj.

(** What a property of the table holds: a count, or (under a name of
    [Object.prototype]) the string the first increment produced, grown by
    a "1" at each later one.  The text of the string is left to the engine
    and is not kept; it is never empty. *)
Inductive value :=
| Count (n : nat)
| Text.

Definition object := list (string * value).

(** The property names of [Object.prototype]. *)
Definition prototypeNames : list string :=
  [ "constructor"; "hasOwnProperty"; "isPrototypeOf"; "propertyIsEnumerable";
    "toLocaleString"; "toString"; "valueOf"; "__proto__";
    "__defineGetter__"; "__defineSetter__"; "__lookupGetter__";
    "__lookupSetter__" ].

Definition inherited (k : string) : bool :=
  existsb (fun name => name =? k) prototypeNames.

(** The own property [k], if there is one. *)
Definition own (k : string) (obj : object) : option value :=
  match find (fun e => fst e =? k) obj with
  | Some e => Some (snd e)
  | None => None
  end.

(** [(obj[k] || 0) + 1]. *)
Definition next (k : string) (obj : object) : value :=
  match own k obj with
  | Some (Count n) => Count (S n)
  | Some Text => Text
  | None => if inherited k then Text else Count 1
  end.

(** [obj[k] = v] for a key other than [__proto__]. *)
Fixpoint set (k : string) (v : value) (obj : object) : object :=
  match obj with
  | [] => [(k, v)]
  | (k', v') :: rest =>
      if k' =? k then (k', v) :: rest else (k', v') :: set k v rest
  end.

(** [obj[k] = (obj[k] || 0) + 1]. *)
Definition bump (k : string) (obj : object) : object :=
  if k =? "__proto__" then obj else set k (next k obj) obj.

(** The array index a key is, if it is one: a canonical numeric string
    below 2^32 - 1. *)
Definition digit (c : Ascii.ascii) : option N :=
  let n := Ascii.N_of_ascii c in
  if (48 <=? n)%N && (n <=? 57)%N then Some (n - 48)%N else None.

Fixpoint digits (s : string) (acc : N) : option N :=
  match s with
  | EmptyString => Some acc
  | String c rest =>
      match digit c with
      | Some d => digits rest (10 * acc + d)%N
      | None => None
      end
  end.

Definition arrayIndex (k : string) : option N :=
  match k with
  | EmptyString => None
  | String c rest =>
      if (Ascii.N_of_ascii c =? 48)%N && negb (String.length rest =? 0)%nat then None
      else match digits k 0 with
           | Some n => if (n <=? 4294967294)%N then Some n else None
           | None => None
           end
  end.

Definition isIndex (e : string * value) : bool :=
  match arrayIndex (fst e) with
  | Some _ => true
  | None => false
  end.

Definition indexOf (e : string * value) : N :=
  match arrayIndex (fst e) with
  | Some i => i
  | None => 0%N
  end.

Fixpoint insertByIndex (e : string * value) (l : object) : object :=
  match l with
  | [] => [e]
  | y :: rest =>
      if (indexOf e <=? indexOf y)%N then e :: l else y :: insertByIndex e rest
  end.

(** [Object.entries(obj)]. *)
Definition entries (obj : object) : object :=
  fold_right insertByIndex [] (filter isIndex obj)
  ++ filter (fun e => negb (isIndex e)) obj.

End Obj.

(** ** Posture aggregator ([getPostureStats]) *)

Module PostureStats.
Import Posture.

Record TrendEntry := {
  date : Z;       (* the instant [dayStart] that [toLocaleDateString] renders *)
  score : number
}.

Record AdvancedStats := {
  sittingPositionStats : Obj.object;
  handFoldingPercentage : number;
  kneelingPercentage : number;
  averagePostureScore : number;
  averageKeypointConfidence : number
}.

(** The returned object; the two fields the empty branch leaves out are
    options. *)
Record Stats := {
  totalSessions : nat;
  averageScore : number;
  goodPosturePercentage : number;
  averageForwardHead : option number;
  improvementRate : option number;
  weeklyTrend : list TrendEntry;
  advancedStats : AdvancedStats
}.

(** [.withIndex("by_user", q => q.eq("userId", userId)).collect()]. *)
Definition collect (table : list Session) : list Session :=
  filter (fun s => userId s =? anonymous) table.

Definition isGood (s : Session) : bool := classification s =? "good".

Definition recentSessions (clock : Clock) (sessions : list Session) :=
  filter (fun s => isRecent clock (timestamp s)) sessions.

Definition daySessions (clock : Clock) (sessions : list Session) (i : nat) :=
  filter (fun s => inDay clock i (timestamp s)) (recentSessions clock sessions).

Definition dayScore (day : list Session) : number :=
  if (0 <? List.length day)%nat then
    JS.mul (JS.div (JS.ofNat (countBy isGood day)) (JS.ofNat (List.length day)))
           (lit 100)
  else lit 0.

Definition trendEntry (clock : Clock) (sessions : list Session) (i : nat)
  : TrendEntry :=
  {| date := dayStart clock i;
     score := JS.round (dayScore (daySessions clock sessions i)) |}.

Definition weeklyTrendOf (clock : Clock) (sessions : list Session)
  : list TrendEntry :=
  trendLoop (trendEntry clock sessions) 6 [].

Definition midPoint (sessions : list Session) : nat :=
  Nat.div (List.length sessions) 2.

Definition firstHalf (sessions : list Session) := firstn (midPoint sessions) sessions.
Definition secondHalf (sessions : list Session) := skipn (midPoint sessions) sessions.

(** [half.length > 0 ? (halfGood / half.length) * 100 : 0]. *)
Definition halfScore (half : list Session) : number :=
  if (0 <? List.length half)%nat then
    JS.mul (JS.div (JS.ofNat (countBy isGood half)) (JS.ofNat (List.length half)))
           (lit 100)
  else lit 0.

Definition firstHalfScore (sessions : list Session) := halfScore (firstHalf sessions).
Definition secondHalfScore (sessions : list Session) := halfScore (secondHalf sessions).

Definition improvementRateOf (sessions : list Session) : number :=
  if (0 <? List.length (firstHalf sessions))%nat
     && (0 <? List.length (secondHalf sessions))%nat then
    JS.mul (JS.div (JS.sub (secondHalfScore sessions) (firstHalfScore sessions))
                   (firstHalfScore sessions))
           (lit 100)
  else lit 0.

Definition definedNumber (o : option number) : bool :=
  match o with Some _ => true | None => false end.

Definition nonEmptyString (o : option string) : option string :=
  match o with
  | Some s => if (String.length s =? 0)%nat then None else Some s
  | None => None
  end.

Definition sittingPositionStatsOf (sessions : list Session) :=
  fold_left
    (fun stats s =>
       match nonEmptyString (sittingPosition s) with
       | Some p => Obj.bump p stats
       | None => stats
       end)
    sessions [].

(** [with.length > 0 ? with.reduce((sum, s) => sum + (f(s) || 0), 0) / with.length : 0]. *)
Definition averageOfDefined (f : Session -> option number)
  (sessions : list Session) : number :=
  let withField := filter (fun s => definedNumber (f s)) sessions in
  if (0 <? List.length withField)%nat then
    JS.div (JS.sumBy (fun s => JS.orZero (f s)) withField)
           (JS.ofNat (List.length withField))
  else lit 0.

Definition emptyStats : Stats :=
  {| totalSessions := 0;
     averageScore := lit 0;
     goodPosturePercentage := lit 0;
     averageForwardHead := None;
     improvementRate := None;
     weeklyTrend := [];
     advancedStats :=
       {| sittingPositionStats := [];
          handFoldingPercentage := lit 0;
          kneelingPercentage := lit 0;
          averagePostureScore := lit 0;
          averageKeypointConfidence := lit 0 |} |}.

(** The handler body once [sessions] has been collected. *)
Definition statsOf (clock : Clock) (sessions : list Session) : Stats :=
  if (List.length sessions =? 0)%nat then emptyStats
  else
    let n := List.length sessions in
    let goodSessions := countBy isGood sessions in
    let averageForwardHeadRaw :=
      JS.div (JS.sumBy forwardHeadAngle sessions) (JS.ofNat n) in
    let handFoldingSessions := countBy (fun s => optTrue (handFolding s)) sessions in
    let kneelingSessions := countBy (fun s => optTrue (kneeling s)) sessions in
    {| totalSessions := n;
       averageScore := roundedPct goodSessions n;
       goodPosturePercentage := roundedPct goodSessions n;
       averageForwardHead :=
         Some (JS.div (JS.round (JS.mul averageForwardHeadRaw (lit 10))) (lit 10));
       improvementRate := Some (JS.round (improvementRateOf sessions));
       weeklyTrend := weeklyTrendOf clock sessions;
       advancedStats :=
         {| sittingPositionStats := sittingPositionStatsOf sessions;
            handFoldingPercentage := roundedPct handFoldingSessions n;
            kneelingPercentage := roundedPct kneelingSessions n;
            averagePostureScore :=
              JS.round (averageOfDefined postureScore sessions);
            averageKeypointConfidence :=
              JS.round (averageOfDefined keypointConfidence sessions) |} |}.

Definition getPostureStats (clock : Clock) (table : list Session) : Stats :=
  statsOf clock (collect table).

End PostureStats.

(** ** Gait aggregator ([getGaitStats]) *)

Module GaitStats.
Import Gait.

Record TrendEntry := {
  date : Z;
  symmetry : number
}.

Record Stats := {
  totalSessions : nat;
  averageSymmetry : number;
  averageCadence : number;
  normalGaitPercentage : number;
  weeklyTrend : list TrendEntry
}.

Definition collect (table : list Session) : list Session :=
  filter (fun s => userId s =? anonymous) table.

Definition isNormal (s : Session) : bool := classification s =? "normal".

Definition recentSessions (clock : Clock) (sessions : list Session) :=
  filter (fun s => isRecent clock (timestamp s)) sessions.

Definition daySessions (clock : Clock) (sessions : list Session) (i : nat) :=
  filter (fun s => inDay clock i (timestamp s)) (recentSessions clock sessions).

Definition daySymmetry (day : list Session) : number :=
  if (0 <? List.length day)%nat then
    JS.div (JS.sumBy symmetryScore day) (JS.ofNat (List.length day))
  else lit 0.

Definition trendEntry (clock : Clock) (sessions : list Session) (i : nat)
  : TrendEntry :=
  {| date := dayStart clock i;
     symmetry := JS.round (daySymmetry (daySessions clock sessions i)) |}.

Definition weeklyTrendOf (clock : Clock) (sessions : list Session)
  : list TrendEntry :=
  trendLoop (trendEntry clock sessions) 6 [].

Definition emptyStats : Stats :=
  {| totalSessions := 0;
     averageSymmetry := lit 0;
     averageCadence := lit 0;
     normalGaitPercentage := lit 0;
     weeklyTrend := [] |}.

Definition statsOf (clock : Clock) (sessions : list Session) : Stats :=
  if (List.length sessions =? 0)%nat then emptyStats
  else
    let n := List.length sessions in
    let normalSessions := countBy isNormal sessions in
    {| totalSessions := n;
       averageSymmetry :=
         JS.round (JS.div (JS.sumBy symmetryScore sessions) (JS.ofNat n));
       averageCadence :=
         JS.round (JS.div (JS.sumBy cadence sessions) (JS.ofNat n));
       normalGaitPercentage := roundedPct normalSessions n;
       weeklyTrend := weeklyTrendOf clock sessions |}.

Definition getGaitStats (clock : Clock) (table : list Session) : Stats :=
  statsOf clock (collect table).

End GaitStats.

(** ** Report composer ([generateReport], reports.ts)

    The [summary] string is the rendering (fixed text, numbers through
    [toFixed(1)]) of the values below; the model keeps the values that are
    rendered and the [recommendations] array, not the text. *)

Module Reports.

Record GenArgs := {
  g_sessionIds : list string;
  g_type : string;
  g_title : string
}.

(** [entries.sort(([,a], [,b]) => b - a)].  Whether [x] stays before [y]:
    the comparator's answer [b - a] on them is not positive.  On two counts
    that is [b <= a]; when one of the values is a string the answer is
    [NaN], which the sort reads as 0. *)
Definition staysBefore (x y : string * Obj.value) : bool :=
  match snd x, snd y with
  | Obj.Count a, Obj.Count b => (b <=? a)%nat
  | _, _ => true
  end.

(** The sort is stable: an insertion sort that keeps an element before the
    later ones it does not have to follow.  (When a value is a string the
    comparator is not consistent and the language leaves the order to the
    engine; the insertion sort is one order it allows.) *)
Fixpoint insertDesc (x : string * Obj.value) (l : Obj.object) : Obj.object :=
  match l with
  | [] => [x]
  | y :: rest =>
      if staysBefore x y then x :: l else y :: insertDesc x rest
  end.

Definition sortDesc (l : Obj.object) : Obj.object :=
  fold_right insertDesc [] l.

(** [s || 'unknown'] on an optional string. *)
Definition orUnknown (o : option string) : string :=
  match o with
  | Some s => if (String.length s =? 0)%nat then "unknown" else s
  | None => "unknown"
  end.

(** [a.slice(0, Math.floor(a.length / 2))] and [a.slice(Math.floor(a.length / 2))]. *)
Definition firstHalf {A : Type} (l : list A) := firstn (Nat.div (List.length l) 2) l.
Definition secondHalf {A : Type} (l : list A) := skipn (Nat.div (List.length l) 2) l.

(** [a.reduce((sum, s) => sum + f(s), 0) / a.length]; [NaN] on an empty
    array. *)
Definition mean {A : Type} (f : A -> number) (l : list A) : number :=
  JS.div (JS.sumBy f l) (JS.ofNat (List.length l)).

(** [level = level === "LOW" ? "MODERATE" : level]. *)
Definition toModerate (level : string) : string :=
  if level =? "LOW" then "MODERATE" else level.

Definition pushIf (c : bool) (msg : string) (l : list string) : list string :=
  if c then l ++ [msg] else l.

Definition lit_0_5 : number := JS.div (lit 1) (lit 2).
Definition lit_0_3 : number := JS.div (lit 3) (lit 10).

(** *** Posture section *)

Record PostureSection := {
  goodSessions : nat;
  fairSessions : nat;
  poorSessions : nat;
  avgForwardHead : number;
  avgShoulderTilt : number;
  avgSpineAlignment : number;
  avgPostureScore : number;
  sittingPositions : Obj.object;
  dominantSittingPosition : string;
  handFoldingSessions : nat;
  kneelingSessions : nat;
  avgKeypointConfidence : number;
  improvementTrend : number;
  sessionsAnalyzed : nat;
  riskLevel : string;
  riskFactors : list string
}.

Definition classIs (c : string) (s : Posture.Session) : bool :=
  Posture.classification s =? c.

(** [postureSessions.filter(s => s.forwardHeadAngle <= 30)]. *)
Definition validSessions (sessions : list Posture.Session) :=
  filter (fun s => JS.le (Posture.forwardHeadAngle s) (lit 30)) sessions.

(** [validSessions.slice(-10)]. *)
Definition recentPosture (table : list Posture.Session) : list Posture.Session :=
  sliceLast 10 (validSessions (PostureStats.collect table)).

Definition sittingPositionsOf (recent : list Posture.Session) : Obj.object :=
  fold_left (fun acc s => Obj.bump (orUnknown (Posture.sittingPosition s)) acc)
            recent [].

(** [Object.entries(sittingPositions).sort(...)[0]?.[0] || 'unknown']. *)
Definition dominantOf (positions : Obj.object) : string :=
  match sortDesc (Obj.entries positions) with
  | e :: _ => orUnknown (Some (fst e))
  | [] => "unknown"
  end.

Definition postureRisk (fh tilt spine : number) (dominant : string)
  : string * list string :=
  let r0 := ("LOW", @nil string) in
  let r1 :=
    if JS.gt fh (lit 15) then ("HIGH", snd r0 ++ ["High forward head posture"])
    else if JS.gt fh (lit 10) then
      (toModerate (fst r0), snd r0 ++ ["Moderate forward head posture"])
    else r0 in
  let r2 :=
    if JS.gt tilt (lit 10) then ("HIGH", snd r1 ++ ["Significant shoulder imbalance"])
    else if JS.gt tilt (lit 5) then
      (toModerate (fst r1), snd r1 ++ ["Minor shoulder imbalance"])
    else r1 in
  let r3 :=
    if JS.lt spine (lit 70) then ("HIGH", snd r2 ++ ["Poor spinal alignment"])
    else if JS.lt spine (lit 80) then
      (toModerate (fst r2), snd r2 ++ ["Suboptimal spinal alignment"])
    else r2 in
  if dominant =? "hunchback" then
    (toModerate (fst r3), snd r3 ++ ["Frequent hunchback posture"])
  else r3.

Definition postureSectionOf (recent : list Posture.Session) : PostureSection :=
  let fh := mean Posture.forwardHeadAngle recent in
  let tilt := mean (fun s => JS.abs (Posture.shoulderTilt s)) recent in
  let spine := mean Posture.spineAlignment recent in
  let positions := sittingPositionsOf recent in
  let dominant := dominantOf positions in
  let score := fun s => JS.orZero (Posture.postureScore s) in
  let risk := postureRisk fh tilt spine dominant in
  {| goodSessions := countBy (classIs "good") recent;
     fairSessions := countBy (classIs "fair") recent;
     poorSessions := countBy (classIs "poor") recent;
     avgForwardHead := fh;
     avgShoulderTilt := tilt;
     avgSpineAlignment := spine;
     avgPostureScore := mean score recent;
     sittingPositions := positions;
     dominantSittingPosition := dominant;
     handFoldingSessions :=
       countBy (fun s => Posture.optTrue (Posture.handFolding s)) recent;
     kneelingSessions :=
       countBy (fun s => Posture.optTrue (Posture.kneeling s)) recent;
     avgKeypointConfidence :=
       mean (fun s => JS.orZero (Posture.keypointConfidence s)) recent;
     improvementTrend :=
       JS.sub (mean score (secondHalf recent)) (mean score (firstHalf recent));
     sessionsAnalyzed := List.length recent;
     riskLevel := fst risk;
     riskFactors := snd risk |}.

Definition postureAdvice (p : PostureSection) (recs : list string) : list string :=
  let n := JS.ofNat (sessionsAnalyzed p) in
  let r1 :=
    if JS.gt (avgForwardHead p) (lit 15) then
      recs ++ ["URGENT: Reduce forward head posture - adjust monitor height to eye level, use ergonomic workstation setup"]
    else if JS.gt (avgForwardHead p) (lit 10) then
      recs ++ ["Monitor forward head position throughout the day - set hourly posture reminders"]
    else recs in
  let r2 := pushIf (JS.gt (avgShoulderTilt p) (lit 10))
    "Address shoulder imbalance - check desk height, keyboard position, and consider shoulder strengthening exercises" r1 in
  let r3 := pushIf (JS.lt (avgSpineAlignment p) (lit 80))
    "Improve spinal alignment - use lumbar support, practice spine-strengthening exercises, maintain neutral spine during work" r2 in
  let r4 := pushIf (dominantSittingPosition p =? "hunchback")
    "Correct hunchback posture - practice chest opening stretches, strengthen upper back muscles, maintain upright sitting" r3 in
  let r5 := pushIf (JS.gt (JS.ofNat (handFoldingSessions p)) (JS.mul n lit_0_5))
    "Reduce hand folding habit - keep arms relaxed at sides, use proper keyboard positioning" r4 in
  let r6 := pushIf (JS.gt (JS.ofNat (kneelingSessions p)) (JS.mul n lit_0_3))
    "Avoid kneeling while sitting - maintain both feet flat on ground for proper posture support" r5 in
  let r7 :=
    if JS.lt (avgPostureScore p) (lit 70) then
      r6 ++ ["Overall posture improvement needed - consider ergonomic assessment, posture training, and regular movement breaks"]
    else if JS.gt (avgPostureScore p) (lit 85) then
      r6 ++ ["Excellent posture maintenance - continue current practices and consider advanced ergonomic optimizations"]
    else r6 in
  let r8 :=
    if JS.lt (improvementTrend p) (lit (-5)) then
      r7 ++ ["Posture declining - review recent changes in workstation or habits, consider professional ergonomic consultation"]
    else if JS.gt (improvementTrend p) (lit 5) then
      r7 ++ ["Great improvement trend - maintain current practices and continue monitoring progress"]
    else r7 in
  pushIf (JS.lt (avgKeypointConfidence p) (lit 70))
    "Improve measurement accuracy - ensure good lighting and clear camera view for more reliable posture analysis" r8.

(** *** Gait section *)

Record GaitSection := {
  normalSessions : nat;
  asymmetricSessions : nat;
  irregularSessions : nat;
  avgSymmetry : number;
  avgCadence : number;
  avgStrideLength : number;
  avgLeftRightBalance : number;
  esp32Sessions : nat;
  avgStancePhase : number;
  avgSwingPhase : number;
  symmetryImprovement : number;
  gaitSessionsAnalyzed : nat;
  gaitRiskLevel : string;
  gaitRiskFactors : list string
}.

Definition gaitClassIs (c : string) (s : Gait.Session) : bool :=
  Gait.classification s =? c.

(** [gaitSessions.slice(-10)]. *)
Definition recentGait (table : list Gait.Session) : list Gait.Session :=
  sliceLast 10 (GaitStats.collect table).

(** [a.filter(s => s.f).reduce((sum, s) => sum + s.f!, 0) / a.filter(s => s.f).length]. *)
Definition meanTruthy (f : Gait.Session -> option number)
  (l : list Gait.Session) : number :=
  let present := filter (fun s => JS.truthyOpt (f s)) l in
  mean (fun s => JS.orZero (f s)) present.

Definition balanceOff (bal : number) : number :=
  JS.abs (JS.sub bal (lit 50)).

Definition gaitRisk (sym bal cad : number) : string * list string :=
  let r0 := ("LOW", @nil string) in
  let r1 :=
    if JS.lt sym (lit 70) then ("HIGH", snd r0 ++ ["Poor gait symmetry"])
    else if JS.lt sym (lit 80) then
      (toModerate (fst r0), snd r0 ++ ["Moderate gait asymmetry"])
    else r0 in
  let r2 :=
    if JS.gt (balanceOff bal) (lit 10) then
      ("HIGH", snd r1 ++ ["Significant left-right imbalance"])
    else if JS.gt (balanceOff bal) (lit 5) then
      (toModerate (fst r1), snd r1 ++ ["Minor left-right imbalance"])
    else r1 in
  if JS.lt cad (lit 100) || JS.gt cad (lit 140) then
    (toModerate (fst r2), snd r2 ++ ["Abnormal cadence pattern"])
  else r2.

Definition gaitSectionOf (recent : list Gait.Session) : GaitSection :=
  let sym := mean Gait.symmetryScore recent in
  let cad := mean Gait.cadence recent in
  let bal := mean Gait.leftRightBalance recent in
  let esp32 := filter (fun s => Gait.analysisType s =? "esp32-wifi") recent in
  let risk := gaitRisk sym bal cad in
  {| normalSessions := countBy (gaitClassIs "normal") recent;
     asymmetricSessions := countBy (gaitClassIs "asymmetric") recent;
     irregularSessions := countBy (gaitClassIs "irregular") recent;
     avgSymmetry := sym;
     avgCadence := cad;
     avgStrideLength := meanTruthy Gait.strideLength recent;
     avgLeftRightBalance := bal;
     esp32Sessions := List.length esp32;
     avgStancePhase := meanTruthy Gait.stancePhase esp32;
     avgSwingPhase := meanTruthy Gait.swingPhase esp32;
     symmetryImprovement :=
       JS.sub (mean Gait.symmetryScore (secondHalf recent))
              (mean Gait.symmetryScore (firstHalf recent));
     gaitSessionsAnalyzed := List.length recent;
     gaitRiskLevel := fst risk;
     gaitRiskFactors := snd risk |}.

Definition gaitAdvice (g : GaitSection) (recs : list string) : list string :=
  let r1 :=
    if JS.lt (avgSymmetry g) (lit 70) then
      recs ++ ["URGENT: Poor gait symmetry detected - consider physical therapy consultation and gait training exercises"]
    else if JS.lt (avgSymmetry g) (lit 80) then
      recs ++ ["Improve gait symmetry - practice balance exercises, single-leg stands, and walking drills"]
    else recs in
  let r2 := pushIf (JS.gt (balanceOff (avgLeftRightBalance g)) (lit 10))
    "Address left-right imbalance - focus on bilateral strengthening exercises and gait symmetry training" r1 in
  let r3 :=
    if JS.lt (avgCadence g) (lit 100) then
      r2 ++ ["Increase walking pace - practice walking with metronome at 110-120 BPM for improved cadence"]
    else if JS.gt (avgCadence g) (lit 140) then
      r2 ++ ["Reduce walking pace - focus on longer strides rather than faster steps for better efficiency"]
    else r2 in
  let r4 := pushIf (normalSessions g <? asymmetricSessions g)%nat
    "Frequent asymmetric gait patterns - consider biomechanical assessment and corrective exercises" r3 in
  let r5 := pushIf (JS.gt (JS.ofNat (irregularSessions g))
                          (JS.mul (JS.ofNat (normalSessions g)) lit_0_5))
    "Address irregular gait patterns - practice consistent walking rhythm and consider balance training" r4 in
  if JS.lt (symmetryImprovement g) (lit (-5)) then
    r5 ++ ["Gait quality declining - review recent changes in activity or footwear, consider professional assessment"]
  else if JS.gt (symmetryImprovement g) (lit 5) then
    r5 ++ ["Excellent gait improvement - maintain current training and continue monitoring progress"]
  else r5.

(** *** The mutation *)

(** What a domain contributes to the summary. *)
Inductive Part (A : Type) :=
| NotRequested            (* the report type leaves the domain out *)
| Placeholder             (* the "No ... sessions available" sentence *)
| Analysed (a : A).
Arguments NotRequested {A}.
Arguments Placeholder {A}.
Arguments Analysed {A} a.

Record Report := {
  userId : string;
  sessionIds : list string;
  type : string;
  title : string;
  posturePart : Part PostureSection;
  gaitPart : Part GaitSection;
  recommendations : list string;
  createdAt : Z
}.

Definition wantsPosture (ty : string) : bool :=
  (ty =? "posture") || (ty =? "combined").

Definition wantsGait (ty : string) : bool :=
  (ty =? "gait") || (ty =? "combined").

Definition posturePartOf (ty : string) (table : list Posture.Session)
  : Part PostureSection :=
  if wantsPosture ty then
    let recent := recentPosture table in
    if (0 <? List.length recent)%nat then Analysed (postureSectionOf recent)
    else Placeholder
  else NotRequested.

Definition gaitPartOf (ty : string) (table : list Gait.Session)
  : Part GaitSection :=
  if wantsGait ty then
    let recent := recentGait table in
    if (0 <? List.length recent)%nat then Analysed (gaitSectionOf recent)
    else Placeholder
  else NotRequested.

Definition adviceOf (p : Part PostureSection) (g : Part GaitSection)
  : list string :=
  let r1 := match p with Analysed s => postureAdvice s [] | _ => [] end in
  let r2 := match g with Analysed s => gaitAdvice s r1 | _ => r1 end in
  if (List.length r2 =? 0)%nat then
    r2 ++ ["Continue maintaining good biomechanical patterns"]
  else r2.

Definition composeReport (clock : Clock) (args : GenArgs)
  (postureTable : list Posture.Session) (gaitTable : list Gait.Session)
  : Report :=
  let p := posturePartOf (g_type args) postureTable in
  let g := gaitPartOf (g_type args) gaitTable in
  {| userId := Posture.anonymous;
     sessionIds := g_sessionIds args;
     type := g_type args;
     title := g_title args;
     posturePart := p;
     gaitPart := g;
     recommendations := adviceOf p g;
     createdAt := clock 1%nat |}.

(** [generateReport]: compose, insert into the [reports] table, return
    the new document's id (its position).  The handler reads the clock
    twice, for the date line of the summary and then for [createdAt]. *)
Definition generateReport (clock : Clock) (args : GenArgs)
  (postureTable : list Posture.Session) (gaitTable : list Gait.Session)
  (reports : list Report) : nat * list Report :=
  (List.length reports,
   reports ++ [composeReport clock args postureTable gaitTable]).

End Reports.

(** * The document store and the remaining handlers

    The handlers above take a table as the list of its documents.  The
    handlers below also delete and look documents up by id, so here a table
    keeps each document with its [_id]; ids are handed out by a counter,
    which stands for the fresh opaque ids of the database. *)

Module Store.

Record Doc (A : Type) := {
  _id : nat;
  value : A
}.
Arguments _id {A} d.
Arguments value {A} d.

Record Table (A : Type) := {
  docs : list (Doc A);     (* in creation order *)
  nextId : nat
}.
Arguments docs {A} t.
Arguments nextId {A} t.

Definition empty {A : Type} : Table A := {| docs := []; nextId := 0 |}.

(** [ctx.db.insert(table, a)]: the new id and the table after. *)
Definition insert {A : Type} (t : Table A) (a : A) : nat * Table A :=
  (nextId t,
   {| docs := docs t ++ [{| _id := nextId t; value := a |}];
      nextId := S (nextId t) |}).

(** [ctx.db.get(id)]. *)
Definition get {A : Type} (t : Table A) (id : nat) : option (Doc A) :=
  find (fun d => (_id d =? id)%nat) (docs t).

(** [ctx.db.delete(id)] for the id of a stored document. *)
Definition delete {A : Type} (t : Table A) (id : nat) : Table A :=
  {| docs := filter (fun d => negb (_id d =? id)%nat) (docs t);
     nextId := nextId t |}.

(** [ctx.db.patch(id, fields)], the fields given as an update of the
    stored value. *)
Definition patch {A : Type} (t : Table A) (id : nat) (update : A -> A) : Table A :=
  {| docs := map (fun d => if (_id d =? id)%nat
                           then {| _id := _id d; value := update (value d) |}
                           else d) (docs t);
     nextId := nextId t |}.

(** [.unique()]: the only document found, [null] when there is none; it
    throws when there are several. *)
Definition unique {A : Type} (found : list (Doc A)) : option (option (Doc A)) :=
  match found with
  | [] => Some None
  | [d] => Some (Some d)
  | _ => None
  end.

(** [for (const d of found) await ctx.db.delete(d._id)]. *)
Definition deleteEach {A : Type} (found : list (Doc A)) (t : Table A) : Table A :=
  fold_left (fun acc d => delete acc (_id d)) found t.

(** The stored documents without their ids, in creation order. *)
Definition values {A : Type} (t : Table A) : list A := map value (docs t).

(** Ids are unique and below the counter. *)
Definition wellFormed {A : Type} (t : Table A) : Prop :=
  NoDup (map _id (docs t)) /\ Forall (fun d => (_id d < nextId t)%nat) (docs t).

(** Index order on a key: ascending by the key, documents with equal keys
    in creation order. *)
Fixpoint insertAsc {A : Type} (key : A -> Z) (x : A) (l : list A) : list A :=
  match l with
  | [] => [x]
  | y :: rest =>
      if (key x <=? key y)%Z then x :: l else y :: insertAsc key x rest
  end.

Definition indexOrder {A : Type} (key : A -> Z) (l : list A) : list A :=
  fold_right (insertAsc key) [] l.

(** [.order("desc")]: the index order reversed. *)
Definition orderDesc {A : Type} (key : A -> Z) (l : list A) : list A :=
  rev (indexOrder key l).

(** The count [.take(n)] accepts: a number that is a non-negative integer. *)
Definition toCount (x : number) : option nat :=
  match x with
  | S754_zero _ => Some 0%nat
  | S754_finite false m e =>
      if (0 <=? e)%Z then Some (Z.to_nat (Z.pos m * 2 ^ e))
      else if (Z.pos m mod 2 ^ (- e) =? 0)%Z
           then Some (Z.to_nat (Z.pos m / 2 ^ (- e)))
           else None
  | _ => None
  end.

(** [q.gt(a, b)] of a database filter, on two numbers.  The database
    compares float64 values in a total order of its own, in which [-0] is
    below [+0] and [NaN] (as JavaScript writes it, with the sign bit clear)
    is above every number, the infinities included. *)
Definition gt (x y : number) : bool :=
  match x, y with
  | S754_nan, S754_nan => false
  | S754_nan, _ => true
  | _, S754_nan => false
  | S754_zero sx, S754_zero sy => negb sx && sy
  | _, _ => JS.gt x y
  end.

(** [x || d] on an optional number. *)
Definition orDefault (x : option number) (d : Z) : number :=
  match x with
  | Some v => if JS.truthy v then v else lit d
  | None => lit d
  end.

(** What a handler answers: a value, or the message of the error thrown. *)
Inductive Outcome (A : Type) :=
| Returned (a : A)
| Thrown (message : string).
Arguments Returned {A} a.
Arguments Thrown {A} message.

End Store.

(** ** Handlers over the store *)

Module Db.
Import Store.

Definition ofUser {A : Type} (user : A -> string) (t : Table A) : list (Doc A) :=
  filter (fun d => user (value d) =? Posture.anonymous) (docs t).

(** [analyzePosture] with the id the database hands out. *)
Definition analyzePosture (now : Z) (args : Posture.Args)
  (t : Table Posture.Session) : Posture.Result * Table Posture.Session :=
  let v := Posture.classify args in
  let inserted := insert t (Posture.toSession now args v) in
  ({| Posture.r_sessionId := fst inserted;
      Posture.r_classification := Posture.label v;
      Posture.r_recommendations := Posture.advice v;
      Posture.r_score := Posture.scoreOf (Posture.label v) |},
   snd inserted).

Definition analyzeGait (now : Z) (args : Gait.Args)
  (t : Table Gait.Session) : Gait.Result * Table Gait.Session :=
  let v := Gait.classify args in
  let inserted := insert t (Gait.toSession now args v) in
  ({| Gait.r_sessionId := fst inserted;
      Gait.r_classification := Gait.label v;
      Gait.r_recommendations := Gait.advice v;
      Gait.r_score := Gait.a_symmetryScore args |},
   snd inserted).

(** [getPostureHistory]:
    [.withIndex("by_user_and_timestamp", ...).order("desc").take(args.limit || 50)];
    [None] when [take] rejects the count. *)
Definition getPostureHistory (limit : option number) (t : Table Posture.Session)
  : option (list (Doc Posture.Session)) :=
  match toCount (orDefault limit 50) with
  | Some n =>
      Some (firstn n (orderDesc (fun d => Posture.timestamp (value d))
                                (ofUser Posture.userId t)))
  | None => None
  end.

Definition getGaitHistory (limit : option number) (t : Table Gait.Session)
  : option (list (Doc Gait.Session)) :=
  match toCount (orDefault limit 50) with
  | Some n =>
      Some (firstn n (orderDesc (fun d => Gait.timestamp (value d))
                                (ofUser Gait.userId t)))
  | None => None
  end.

Definition getPostureStats (clock : Clock) (t : Table Posture.Session) :=
  PostureStats.getPostureStats clock (values t).

Definition getGaitStats (clock : Clock) (t : Table Gait.Session) :=
  GaitStats.getGaitStats clock (values t).

(** [generateReport] with the id the database hands out. *)
Definition generateReport (clock : Clock) (args : Reports.GenArgs)
  (posture : Table Posture.Session) (gait : Table Gait.Session)
  (reports : Table Reports.Report) : nat * Table Reports.Report :=
  insert reports (Reports.composeReport clock args (values posture) (values gait)).

(** [getUserReports]:
    [.withIndex("by_user_and_created", ...).order("desc").take(20)]. *)
Definition getUserReports (reports : Table Reports.Report)
  : list (Doc Reports.Report) :=
  firstn 20 (orderDesc (fun d => Reports.createdAt (value d))
                       (ofUser Reports.userId reports)).

(** [getReport]: [if (!report || report.userId !== userId) throw ...]. *)
Definition getReport (reportId : nat) (reports : Table Reports.Report)
  : Outcome (Doc Reports.Report) :=
  match get reports reportId with
  | Some report =>
      if Reports.userId (value report) =? Posture.anonymous
      then Returned report
      else Thrown "Report not found"
  | None => Thrown "Report not found"
  end.

(** [deleteReport]: the answer ([{ success: true }] is [Returned true]) and
    the table after. *)
Definition deleteReport (reportId : nat) (reports : Table Reports.Report)
  : Outcome bool * Table Reports.Report :=
  match get reports reportId with
  | Some report =>
      if Reports.userId (value report) =? Posture.anonymous
      then (Returned true, delete reports reportId)
      else (Thrown "Report not found or access denied", reports)
  | None => (Thrown "Report not found or access denied", reports)
  end.

(** [.filter((q) => q.gt(q.field("forwardHeadAngle"), 30)).collect()]; the
    comparison is the database's, which a [NaN] angle satisfies. *)
Definition badSessions (t : Table Posture.Session) : list (Doc Posture.Session) :=
  filter (fun d => gt (Posture.forwardHeadAngle (value d)) (lit 30))
         (ofUser Posture.userId t).

(** [cleanupBadPostureData]: [deletedCount] and the table after. *)
Definition cleanupBadPostureData (t : Table Posture.Session)
  : nat * Table Posture.Session :=
  (List.length (badSessions t), deleteEach (badSessions t) t).

Definition deleteAllPostureSessions (t : Table Posture.Session)
  : nat * Table Posture.Session :=
  let sessions := ofUser Posture.userId t in
  (List.length sessions, deleteEach sessions t).

Definition deleteAllGaitSessions (t : Table Gait.Session)
  : nat * Table Gait.Session :=
  let sessions := ofUser Gait.userId t in
  (List.length sessions, deleteEach sessions t).

End Db.

(** ** The ESP32 endpoint ([POST /api/esp32-data], http router) *)

Module Http.
Import Store.

(** A parsed JSON value. *)
#[local] Set Warnings "-register-all".
Inductive json :=
| JNull
| JBool (b : bool)
| JNumber (x : number)
| JString (s : string)
| JArray (items : list json)
| JObject (fields : list (string * json)).

(** [data.key]: [undefined] ([None]) when the value has no such property.
    ([null.key] throws; the handler below treats [JNull] apart.) *)
Definition field (data : json) (key : string) : option json :=
  match data with
  | JObject fields =>
      match find (fun e => fst e =? key) fields with
      | Some e => Some (snd e)
      | None => None
      end
  | _ => None
  end.

(** ToBoolean. *)
Definition truthy (v : option json) : bool :=
  match v with
  | None => false
  | Some JNull => false
  | Some (JBool b) => b
  | Some (JNumber x) => JS.truthy x
  | Some (JString s) => negb (String.length s =? 0)%nat
  | Some (JArray _) => true
  | Some (JObject _) => true
  end.

(** [!data.deviceId || !data.timestamp || !data.acceleration || !data.gyroscope]. *)
Definition missingRequired (data : json) : bool :=
  negb (truthy (field data "deviceId"))
  || negb (truthy (field data "timestamp"))
  || negb (truthy (field data "acceleration"))
  || negb (truthy (field data "gyroscope")).

Inductive Body :=
| Received (result : Gait.Result)   (* success, sessionId, message *)
| Error (error : string).

Record Response := {
  status : nat;
  body : Body
}.

(** The arguments the endpoint passes to [analyzeGait]. *)
Definition uploadArgs (raw : string) : Gait.Args :=
  {| Gait.a_stepCount := lit 0;
     Gait.a_symmetryScore := lit 0;
     Gait.a_cadence := lit 0;
     Gait.a_strideLength := Some (lit 0);
     Gait.a_gaitSpeed := Some (lit 0);
     Gait.a_leftRightBalance := lit 50;
     Gait.a_analysisType := "esp32-wifi";
     Gait.a_rawDataPath := Some raw;
     Gait.a_stancePhase := Some (lit 60);
     Gait.a_swingPhase := Some (lit 40);
     Gait.a_doubleSupportPhase := Some (lit 10);
     Gait.a_heelStrikeForce := Some (lit 0);
     Gait.a_toeOffForce := Some (lit 0) |}.

Section Endpoint.
(** [JSON.parse] ([None]: it throws) and [JSON.stringify]. *)
Variable parse : string -> option json.
Variable stringify : json -> string.

(** The handler: the response and the gait table after.  Whatever is
    thrown inside the [try] is answered with status 500. *)
Definition postEsp32Data (now : Z) (text : string) (t : Table Gait.Session)
  : Response * Table Gait.Session :=
  match parse text with
  | None => ({| status := 500; body := Error "Internal server error" |}, t)
  | Some JNull => ({| status := 500; body := Error "Internal server error" |}, t)
  | Some data =>
      if missingRequired data then
        ({| status := 400; body := Error "Missing required fields" |}, t)
      else
        let done := Db.analyzeGait now (uploadArgs (stringify data)) t in
        ({| status := 200; body := Received (fst done) |}, snd done)
  end.

End Endpoint.

End Http.

(** ** The dashboard totals ([getDashboardStats], users file) *)

Module Dashboard.

Record Stats := {
  totalSessions : nat;
  totalPostureSessions : nat;
  totalGaitSessions : nat;
  totalReports : nat;
  activeUsers : nat;
  recentPostureSessions : nat;
  recentGaitSessions : nat;
  lastActivity : Z
}.

(** [a.length > 0 ? Math.max(...a) : 0] on timestamps. *)
Definition latest (timestamps : list Z) : Z :=
  match timestamps with
  | [] => 0%Z
  | t :: rest => fold_left Z.max rest t
  end.

Definition collectReports (table : list Reports.Report) : list Reports.Report :=
  filter (fun r => Reports.userId r =? Posture.anonymous) table.

Definition getDashboardStats (clock : Clock)
  (postureTable : list Posture.Session) (gaitTable : list Gait.Session)
  (reportTable : list Reports.Report) : Stats :=
  let postureSessions := PostureStats.collect postureTable in
  let gaitSessions := GaitStats.collect gaitTable in
  let reports := collectReports reportTable in
  let recentPosture :=
    filter (fun s => isRecent clock (Posture.timestamp s)) postureSessions in
  let recentGait :=
    filter (fun s => isRecent clock (Gait.timestamp s)) gaitSessions in
  {| totalSessions := List.length postureSessions + List.length gaitSessions;
     totalPostureSessions := List.length postureSessions;
     totalGaitSessions := List.length gaitSessions;
     totalReports := List.length reports;
     activeUsers := 1;
     recentPostureSessions := List.length recentPosture;
     recentGaitSessions := List.length recentGait;
     lastActivity :=
       Z.max (latest (map Posture.timestamp postureSessions))
             (latest (map Gait.timestamp gaitSessions)) |}.

End Dashboard.

(** ** The camera client's posture score ([calculatePostureScore]) *)

Module Client.

(** [Math.min] and [Math.max]: [NaN] when an argument is [NaN]; [-0] is
    below [+0]. *)
Definition min (x y : number) : number :=
  match x, y with
  | S754_nan, _ | _, S754_nan => S754_nan
  | S754_zero sx, S754_zero sy => S754_zero (sx || sy)
  | _, _ => if JS.lt y x then y else x
  end.

Definition max (x y : number) : number :=
  match x, y with
  | S754_nan, _ | _, S754_nan => S754_nan
  | S754_zero sx, S754_zero sy => S754_zero (sx && sy)
  | _, _ => if JS.lt x y then y else x
  end.

(** [if (c) score -= penalty]. *)
Definition deduct (c : bool) (penalty score : number) : number :=
  if c then JS.sub score penalty else score.

Definition calculatePostureScore
  (forwardHead shoulderTilt spineAlignment headTilt : number)
  (sittingPosition : string) : number :=
  let s0 := lit 100 in
  let s1 := deduct (JS.gt forwardHead (lit 10))
              (min (lit 30) (JS.mul (JS.sub forwardHead (lit 10)) (lit 3))) s0 in
  let s2 := deduct (JS.gt shoulderTilt (lit 5))
              (min (lit 20) (JS.mul (JS.sub shoulderTilt (lit 5)) (lit 2))) s1 in
  let s3 := deduct (JS.lt spineAlignment (lit 80))
              (min (lit 25) (JS.mul (JS.sub (lit 80) spineAlignment) Reports.lit_0_5)) s2 in
  let s4 := deduct (JS.gt headTilt (lit 5))
              (min (lit 15) (JS.mul (JS.sub headTilt (lit 5)) (lit 2))) s3 in
  let s5 := if sittingPosition =? "hunchback" then JS.sub s4 (lit 25)
            else if sittingPosition =? "reclined" then JS.sub s4 (lit 15)
            else s4 in
  max (lit 0) (min (lit 100) s5).

End Client.

(** ** The canned chat replies (first document of chat.ts)

    The three generators return long fixed texts into which a few values
    are spliced; a reply is modelled by the text chosen and the values
    spliced in.  [toLowerCase] and the rendering of today's date are taken
    as given. *)

Module Chat.

(** [s.includes(needle)]. *)
Definition includes (s needle : string) : bool :=
  match String.index 0 needle s with
  | Some _ => true
  | None => false
  end.

(** The values of the "personal profile" blocks. *)
Record PostureProfile := {
  pp_totalSessions : nat;
  pp_averageScore : number;
  pp_averageForwardHead : option number;
  pp_improvement : option number   (* ['+' + rate + '%'], or 'Stable' *)
}.

Record GaitProfile := {
  gp_totalSessions : nat;
  gp_averageSymmetry : number;
  gp_averageCadence : number;
  gp_normalGaitPercentage : number
}.

Inductive Reply :=
| TodayIs (date : string)
| Greeting (posture : option (nat * number)) (gait : option (nat * number))
| PostureAnalysis (profile : option PostureProfile)
| GaitAnalysis (profile : option GaitProfile)
| PostureTips (forwardHead : option number)
| GaitTips (symmetry : option number)
| ExercisePrescription
| ErgonomicAssessment
| MovementHealth
| ImprovementPlan
| GeneralHelp.

(** [stats && stats.totalSessions > 0]. *)
Definition hasPosture (stats : option PostureStats.Stats) : option PostureStats.Stats :=
  match stats with
  | Some s => if (0 <? PostureStats.totalSessions s)%nat then Some s else None
  | None => None
  end.

Definition hasGait (stats : option GaitStats.Stats) : option GaitStats.Stats :=
  match stats with
  | Some s => if (0 <? GaitStats.totalSessions s)%nat then Some s else None
  | None => None
  end.

(** [x > y] with [x] possibly [undefined]. *)
Definition optGt (x : option number) (y : number) : bool :=
  match x with
  | Some v => JS.gt v y
  | None => false
  end.

Section Generators.
Variable toLowerCase : string -> string.
Variable today : string.

Definition generateFallbackResponse (userMessage : string)
  (postureStats : option PostureStats.Stats) (gaitStats : option GaitStats.Stats)
  : Reply :=
  let message := toLowerCase userMessage in
  if includes message "posture" || includes message "forward head"
     || includes message "sitting" then
    PostureTips
      match postureStats with
      | Some s =>
          if optGt (PostureStats.averageForwardHead s) (lit 10)
          then PostureStats.averageForwardHead s else None
      | None => None
      end
  else if includes message "gait" || includes message "walking"
          || includes message "symmetry" then
    GaitTips
      match gaitStats with
      | Some s =>
          if JS.lt (GaitStats.averageSymmetry s) (lit 85)
          then Some (GaitStats.averageSymmetry s) else None
      | None => None
      end
  else if includes message "exercise" || includes message "strengthen"
          || includes message "workout" then ExercisePrescription
  else if includes message "ergonomic" || includes message "workspace"
          || includes message "desk" then ErgonomicAssessment
  else if includes message "pain" || includes message "ache"
          || includes message "discomfort" then MovementHealth
  else if includes message "improve" || includes message "better"
          || includes message "tips" then ImprovementPlan
  else GeneralHelp.

Definition generateEnhancedFallbackResponse (userMessage : string)
  (postureStats : option PostureStats.Stats) (gaitStats : option GaitStats.Stats)
  : Reply :=
  let message := toLowerCase userMessage in
  if includes message "posture" || includes message "forward head"
     || includes message "sitting" || includes message "wrong position"
     || includes message "back" then
    PostureAnalysis
      match hasPosture postureStats with
      | Some s =>
          Some {| pp_totalSessions := PostureStats.totalSessions s;
                  pp_averageScore := PostureStats.averageScore s;
                  pp_averageForwardHead := PostureStats.averageForwardHead s;
                  pp_improvement :=
                    if optGt (PostureStats.improvementRate s) (lit 0)
                    then PostureStats.improvementRate s else None |}
      | None => None
      end
  else if includes message "gait" || includes message "walking"
          || includes message "symmetry" || includes message "balance" then
    GaitAnalysis
      match hasGait gaitStats with
      | Some s =>
          Some {| gp_totalSessions := GaitStats.totalSessions s;
                  gp_averageSymmetry := GaitStats.averageSymmetry s;
                  gp_averageCadence := GaitStats.averageCadence s;
                  gp_normalGaitPercentage := GaitStats.normalGaitPercentage s |}
      | None => None
      end
  else generateFallbackResponse userMessage postureStats gaitStats.

Definition generateComprehensiveBiomechanicsResponse (userMessage : string)
  (postureStats : option PostureStats.Stats) (gaitStats : option GaitStats.Stats)
  : Reply :=
  let message := toLowerCase userMessage in
  if includes message "date" || includes message "time"
     || includes message "today" then TodayIs today
  else if includes message "hello" || includes message "hi"
          || includes message "hey" then
    Greeting
      match hasPosture postureStats with
      | Some s => Some (PostureStats.totalSessions s, PostureStats.averageScore s)
      | None => None
      end
      match hasGait gaitStats with
      | Some s => Some (GaitStats.totalSessions s, GaitStats.averageSymmetry s)
      | None => None
      end
  else generateEnhancedFallbackResponse userMessage postureStats gaitStats.

End Generators.

(** The text a reply is built from, without the values spliced in. *)
Definition template (r : Reply) : nat :=
  match r with
  | TodayIs _ => 0
  | Greeting _ _ => 1
  | PostureAnalysis _ => 2
  | GaitAnalysis _ => 3
  | PostureTips _ => 4
  | GaitTips _ => 5
  | ExercisePrescription => 6
  | ErgonomicAssessment => 7
  | MovementHealth => 8
  | ImprovementPlan => 9
  | GeneralHelp => 10
  end.

(** Lower-casing of the ASCII letters. *)
Definition lowerChar (c : Ascii.ascii) : Ascii.ascii :=
  let n := Ascii.nat_of_ascii c in
  if (65 <=? n)%nat && (n <=? 90)%nat then Ascii.ascii_of_nat (n + 32) else c.

Fixpoint asciiLower (s : string) : string :=
  match s with
  | EmptyString => EmptyString
  | String c rest => String (lowerChar c) (asciiLower rest)
  end.

End Chat.

(** ** The user profile ([getUserProfile], [updateUserProfile]) *)

Module Profile.
Import Store.

Record Preferences := {
  darkMode : bool;
  notifications : bool;
  units : string
}.

Record UserProfile := {
  userId : string;
  height : option number;
  weight : option number;
  age : option number;
  activityLevel : option string;
  medicalConditions : option (list string);
  goals : option (list string);
  preferences : Preferences
}.

(** The arguments of [updateUserProfile]; every one of them is optional,
    and an argument that is not passed is absent from [args]. *)
Record Args := {
  a_height : option number;
  a_weight : option number;
  a_age : option number;
  a_activityLevel : option string;
  a_medicalConditions : option (list string);
  a_goals : option (list string);
  a_preferences : option Preferences
}.

Definition defaultPreferences : Preferences :=
  {| darkMode := false; notifications := true; units := "metric" |}.

(** A field of [{...args}]: the argument when it is passed, the stored
    value otherwise. *)
Definition given {A : Type} (arg : option A) (stored : option A) : option A :=
  match arg with
  | Some v => Some v
  | None => stored
  end.

(** [ctx.db.patch(existingProfile._id, {...args})]. *)
Definition patched (args : Args) (p : UserProfile) : UserProfile :=
  {| userId := userId p;
     height := given (a_height args) (height p);
     weight := given (a_weight args) (weight p);
     age := given (a_age args) (age p);
     activityLevel := given (a_activityLevel args) (activityLevel p);
     medicalConditions := given (a_medicalConditions args) (medicalConditions p);
     goals := given (a_goals args) (goals p);
     preferences := match a_preferences args with
                    | Some q => q
                    | None => preferences p
                    end |}.

(** The document inserted when there is no profile yet. *)
Definition created (args : Args) : UserProfile :=
  {| userId := Posture.anonymous;
     height := a_height args;
     weight := a_weight args;
     age := a_age args;
     activityLevel := a_activityLevel args;
     medicalConditions := a_medicalConditions args;
     goals := a_goals args;
     preferences := match a_preferences args with
                    | Some q => q
                    | None => defaultPreferences
                    end |}.

Definition ofUser (t : Table UserProfile) : list (Doc UserProfile) :=
  filter (fun d => userId (value d) =? Posture.anonymous) (docs t).

Definition uniqueError : string := "unique() query returned more than one result".

Definition getUserProfile (t : Table UserProfile)
  : Outcome (option (Doc UserProfile)) :=
  match unique (ofUser t) with
  | Some found => Returned found
  | None => Thrown uniqueError
  end.

Definition updateUserProfile (args : Args) (t : Table UserProfile)
  : Outcome (nat * Table UserProfile) :=
  match unique (ofUser t) with
  | Some (Some existingProfile) =>
      Returned (_id existingProfile, patch t (_id existingProfile) (patched args))
  | Some None => Returned (insert t (created args))
  | None => Thrown uniqueError
  end.

End Profile.

(** ** Posture analysis with the subject's data ([analyzePostureWithSubjectData]) *)

Module Subject.
Import Store.

Inductive ActivityLevel := sedentary | light | moderate | active | very_active.

(** The fields of [SubjectData] the posture analysis reads. *)
Record SubjectData := {
  age : number;
  height : number;
  weight : number;
  activityLevel : ActivityLevel;
  medicalConditions : list string
}.

Record PostureData := {
  d_forwardHeadAngle : option number;
  d_shoulderTilt : option number;
  d_spineAlignment : option number
}.

Record PostureAnalysisResult := {
  forwardHeadAngle : number;
  shoulderTilt : number;
  spineAlignment : number;
  normalizedPostureScore : number;
  riskLevel : string;
  ergonomicScore : number;
  workstationCompatibility : number;
  ageAdjustedScore : number;
  activityBasedScore : number;
  personalizedRecommendations : list string;
  equipmentSuggestions : list string
}.

Definition lit_18_5 : number := JS.div (lit 37) (lit 2).

Definition calculateBMI (height weight : number) : number :=
  let heightInM := JS.div height (lit 100) in
  JS.div weight (JS.mul heightInM heightInM).

Definition activityAdjustments (a : ActivityLevel) : number :=
  match a with
  | sedentary => lit (-10)
  | light => lit (-5)
  | moderate => lit 0
  | active => lit 5
  | very_active => lit 10
  end.

Definition isSedentary (a : ActivityLevel) : bool :=
  match a with sedentary => true | _ => false end.

(** The two pushes onto [personalizedRecommendions], a name that is not
    declared anywhere: evaluating either throws. *)
Definition referenceError : string :=
  "ReferenceError: personalizedRecommendions is not defined".

Definition chinTucks : string :=
  "Focus on chin tucks and neck strengthening exercises".
Definition monitorStand : string := "Consider an ergonomic monitor stand".
Definition shoulderSqueezes : string :=
  "Practice shoulder blade squeezes and stretching".
Definition coreStrength : string := "Core strengthening exercises recommended".
Definition lumbarChair : string := "Ergonomic chair with lumbar support".
Definition postureBreaks : string := "Regular posture breaks every 30 minutes".
Definition antiFatigueMat : string :=
  "Anti-fatigue mat if standing for long periods".
Definition consultProvider : string :=
  "Consult with healthcare provider for posture modifications".
Definition specialEquipment : string :=
  "Specialized ergonomic equipment may be beneficial".
Definition standingDesk : string := "Standing desk or adjustable workstation".

Section Analysis.
Variable toLowerCase : string -> string.

Definition backOrSpine (conditions : list string) : bool :=
  existsb (fun condition =>
             Chat.includes (toLowerCase condition) "back"
             || Chat.includes (toLowerCase condition) "spine") conditions.

Definition riskOf (score : number) : string :=
  if JS.ge score (lit 80) then "low"
  else if JS.ge score (lit 60) then "moderate"
  else if JS.ge score (lit 40) then "high"
  else "critical".

Definition analyzePostureWithSubjectData (postureData : PostureData)
  (subject : SubjectData) : Outcome PostureAnalysisResult :=
  let forwardHeadAngle := JS.orZero (d_forwardHeadAngle postureData) in
  let shoulderTilt := JS.orZero (d_shoulderTilt postureData) in
  let spineAlignment := JS.orZero (d_spineAlignment postureData) in
  let baseScore :=
    Client.max (lit 0)
      (JS.sub (lit 100)
         (JS.add (JS.add (JS.mul forwardHeadAngle (lit 2))
                         (JS.mul (JS.abs shoulderTilt) (lit 3)))
                 (JS.mul (JS.abs spineAlignment) (lit 2)))) in
  let ageAdjustment := if JS.gt (age subject) (lit 50) then lit 5 else lit 0 in
  let bmi := calculateBMI (height subject) (weight subject) in
  let bmiAdjustment :=
    if JS.gt bmi (lit 30) then lit (-5)
    else if JS.lt bmi lit_18_5 then lit (-3) else lit 0 in
  let normalizedPostureScore :=
    Client.max (lit 0)
      (Client.min (lit 100)
         (JS.add (JS.add (JS.add baseScore ageAdjustment)
                         (activityAdjustments (activityLevel subject)))
                 bmiAdjustment)) in
  let ageAdjustedScore := JS.add baseScore ageAdjustment in
  let activityBasedScore :=
    JS.add baseScore (activityAdjustments (activityLevel subject)) in
  let riskLevel := riskOf normalizedPostureScore in
  let ergonomicScore := Client.max (lit 0) (JS.sub normalizedPostureScore (lit 10)) in
  let workstationCompatibility :=
    Client.max (lit 0) (JS.sub normalizedPostureScore (lit 5)) in
  let sedentary := isSedentary (activityLevel subject) in
  let headForward := JS.gt forwardHeadAngle (lit 15) in
  let recs1 := Reports.pushIf headForward chinTucks [] in
  let equip1 := Reports.pushIf (headForward && sedentary) monitorStand [] in
  let tilted := JS.gt (JS.abs shoulderTilt) (lit 5) in
  let recs2 := Reports.pushIf tilted shoulderSqueezes recs1 in
  if tilted && JS.gt (age subject) (lit 40) then Thrown referenceError
  else
    let misaligned := JS.gt (JS.abs spineAlignment) (lit 10) in
    let recs3 := Reports.pushIf misaligned coreStrength recs2 in
    let equip3 := Reports.pushIf (misaligned && sedentary) lumbarChair equip1 in
    let older := JS.gt (age subject) (lit 50) in
    let recs4 := Reports.pushIf older postureBreaks recs3 in
    let equip4 := Reports.pushIf older antiFatigueMat equip3 in
    let medical := backOrSpine (medicalConditions subject) in
    let recs5 := Reports.pushIf medical consultProvider recs4 in
    let equip5 := Reports.pushIf medical specialEquipment equip4 in
    if sedentary then Thrown referenceError
    else
      Returned {| forwardHeadAngle := forwardHeadAngle;
                  shoulderTilt := shoulderTilt;
                  spineAlignment := spineAlignment;
                  normalizedPostureScore := normalizedPostureScore;
                  riskLevel := riskLevel;
                  ergonomicScore := ergonomicScore;
                  workstationCompatibility := workstationCompatibility;
                  ageAdjustedScore := ageAdjustedScore;
                  activityBasedScore := activityBasedScore;
                  personalizedRecommendations := recs5;
                  equipmentSuggestions := equip5 |}.

End Analysis.

End Subject.

(** * Specification-side notions *)

(** The good-classification rate of a list of posture records, as the
    specification words it: count(label = good) / count x 100. *)
Definition goodPercentage (l : list Posture.Session) : number :=
  JS.mul (JS.div (JS.ofNat (countBy PostureStats.isGood l))
                 (JS.ofNat (List.length l)))
         (lit 100).

(** The improvement rate as the specification words it: split at the
    midpoint index floor(n/2), then (second - first) / first x 100. *)
Definition specImprovement (sessions : list Posture.Session) : number :=
  let mid := Nat.div (List.length sessions) 2 in
  let firstPct := goodPercentage (firstn mid sessions) in
  let secondPct := goodPercentage (skipn mid sessions) in
  JS.mul (JS.div (JS.sub secondPct firstPct) firstPct) (lit 100).

Definition isZero (x : number) : bool :=
  match x with S754_zero _ => true | _ => false end.

(** *** The report and the dashboard, as the specification words them *)

(** The count a counter table holds for a key: the own property when it
    is a number, 0 when there is no such property. *)
Definition lookupCount (k : string) (obj : Obj.object) : option nat :=
  match Obj.own k obj with
  | Some (Obj.Count n) => Some n
  | Some Obj.Text => None
  | None => Some 0%nat
  end.

(** A sitting position that is a word like any other: not the name of a
    property of [Object.prototype]. *)
Definition plainKey (k : string) : bool := negb (Obj.inherited k).



(** The number of records that satisfy [p]. *)
Definition howMany {A : Type} (p : A -> bool) (l : list A) : nat :=
  list_sum (map (fun s => if p s then 1%nat else 0%nat) l).

















(** The loop indices in the order the entries are pushed. *)
Definition loopIndices : list nat := [6; 5; 4; 3; 2; 1; 0]%nat.

(** Per-day record counts of the posture and of the gait trend. *)
Definition postureDayCounts (clock : Clock) (sessions : list Posture.Session) :=
  map (fun i => List.length (PostureStats.daySessions clock sessions i)) loopIndices.

Definition gaitDayCounts (clock : Clock) (sessions : list Gait.Session) :=
  map (fun i => List.length (GaitStats.daySessions clock sessions i)) loopIndices.

(** The records of a list whose timestamp falls in the day window of loop
    index [i]. *)
Definition postureOfDay (clock : Clock) (i : nat) (sessions : list Posture.Session) :=
  filter (fun s => inDay clock i (Posture.timestamp s)) sessions.

Definition gaitOfDay (clock : Clock) (i : nat) (sessions : list Gait.Session) :=
  filter (fun s => inDay clock i (Gait.timestamp s)) sessions.

(** Rounded percentage of the records of [day] that satisfy [p], 0 for an
    empty day. *)
Definition pctOrZero {A : Type} (p : A -> bool) (day : list A) : number :=
  match day with
  | [] => lit 0
  | _ => roundedPct (countBy p day) (List.length day)
  end.

(** Rounded mean of [f] over [day], 0 for an empty day. *)
Definition roundedMeanOrZero {A : Type} (f : A -> number) (day : list A) : number :=
  match day with
  | [] => lit 0
  | _ => JS.round (JS.div (JS.sumBy f day) (JS.ofNat (List.length day)))
  end.

(** Claim C4 as stated, for one aggregator run: seven entries, and the
    per-day counts add up to the number of records of the last 7 days. *)
Definition postureTrendCoversWeek (clock : Clock) (table : list Posture.Session) : Prop :=
  let sessions := PostureStats.collect table in
  List.length (PostureStats.weeklyTrend (PostureStats.getPostureStats clock table)) = 7%nat
  /\ list_sum (postureDayCounts clock sessions)
     = List.length (PostureStats.recentSessions clock sessions).

Definition gaitTrendCoversWeek (clock : Clock) (table : list Gait.Session) : Prop :=
  let sessions := GaitStats.collect table in
  List.length (GaitStats.weeklyTrend (GaitStats.getGaitStats clock table)) = 7%nat
  /\ list_sum (gaitDayCounts clock sessions)
     = List.length (GaitStats.recentSessions clock sessions).

(** Claim C5 as stated, for the gait aggregator: entry [k] of the trend
    carries the percentage of the day's records whose classification is
    [goodLabel]. *)
Definition gaitTrendIsGoodPct (goodLabel : string) (clock : Clock)
  (table : list Gait.Session) : Prop :=
  forall k e, nth_error (GaitStats.weeklyTrend (GaitStats.getGaitStats clock table)) k = Some e ->
    GaitStats.symmetry e
    = pctOrZero (fun s => Gait.classification s =? goodLabel)
                (gaitOfDay clock (6 - k) (GaitStats.collect table)).

(** The instants covered by the seven day windows when every clock reading
    is [now]: from six days back up to one day ahead. *)
Definition coveredByWindows (now ts : Z) : bool :=
  (now - 6 * DAY <=? ts)%Z && (ts <? now + DAY)%Z.

(** 1 when the predicate of index [i] accepts [x], else 0. *)
Definition hit {A : Type} (b : nat -> A -> bool) (x : A) (i : nat) : nat :=
  if b i x then 1 else 0.

(** A statement of the posture cascade never lowers the severity of the
    label and keeps it among the three known labels. *)
Definition nonImproving (r : Posture.Rule) : Prop :=
  forall args v, Posture.knownLabel (Posture.label v) ->
    Posture.knownLabel (Posture.label (r args v))
    /\ (Posture.severity (Posture.label v)
        <= Posture.severity (Posture.label (r args v)))%nat.

Create HintDb cascade.

Ltac rule_cases :=
  repeat match goal with
         | |- context [if ?c then _ else _] => destruct c
         end;
  auto with cascade.

(** * Concrete inputs used by the examples below *)

Module Inputs.

(** Forward head 20, shoulder tilt 2, neck 20, spine alignment 80. *)
Definition slouching : Posture.Args :=
  Posture.sample (lit 20) (lit 2) (lit 20) (lit 80) (lit 60).

(** A sample no threshold rule objects to. *)
Definition upright : Posture.Args :=
  Posture.sample (lit 0) (lit 0) (lit 0) (lit 90) (lit 1).

(** The same sample, reporting an overall posture score of 0. *)
Definition uprightScoreZero : Posture.Args := Posture.withScore upright (lit 0).

(** The same sample with scores 45 and 75. *)
Definition uprightScore45 : Posture.Args := Posture.withScore upright (lit 45).
Definition uprightScore75 : Posture.Args := Posture.withScore upright (lit 75).

(** Symmetry 60 with a left-right balance of 90. *)
Definition limping : Gait.Args :=
  Gait.sample (lit 1000) (lit 60) (lit 130) (lit 90) "motion".

(** A stored posture record with the given timestamp, label, forward-head
    angle and optional overall score; the other measurements are
    unremarkable. *)
Definition postureRecord (ts : Z) (cls : string) (fha : number)
  (score : option number) : Posture.Session :=
  {| Posture.userId := Posture.anonymous;
     Posture.timestamp := ts;
     Posture.forwardHeadAngle := fha;
     Posture.shoulderTilt := lit 2;
     Posture.neckAngle := lit 5;
     Posture.spineAlignment := lit 90;
     Posture.classification := cls;
     Posture.duration := lit 60;
     Posture.sittingPosition := None;
     Posture.handFolding := None;
     Posture.kneeling := None;
     Posture.spineAngle := None;
     Posture.earToHipAngle := None;
     Posture.postureScore := score;
     Posture.keypointConfidence := None;
     Posture.recommendations := [];
     Posture.rawData := None;
     Posture.dataPoints := None |}.

(** A stored gait record with the given timestamp, label and symmetry. *)
Definition gaitRecord (ts : Z) (cls : string) (sym : number) : Gait.Session :=
  {| Gait.userId := Gait.anonymous;
     Gait.timestamp := ts;
     Gait.stepCount := lit 1000;
     Gait.symmetryScore := sym;
     Gait.cadence := lit 120;
     Gait.strideLength := None;
     Gait.gaitSpeed := None;
     Gait.leftRightBalance := lit 50;
     Gait.classification := cls;
     Gait.analysisType := "motion";
     Gait.rawDataPath := None;
     Gait.stancePhase := None;
     Gait.swingPhase := None;
     Gait.doubleSupportPhase := None;
     Gait.heelStrikeForce := None;
     Gait.toeOffForce := None;
     Gait.recommendations := [] |}.

(** The instant of the examples: 2025-01-01T00:00:00Z in milliseconds. *)
Definition now : Z := 1735689600000.

(** A good record scored 40 followed by a poor record scored 95. *)
Definition goodThenPoor : list Posture.Session :=
  [ postureRecord (now - 2000) "good" (lit 5) (Some (lit 40));
    postureRecord (now - 1000) "poor" (lit 20) (Some (lit 95)) ].

(** The same two labels with other measurements and no score. *)
Definition goodThenPoorUnscored : list Posture.Session :=
  [ postureRecord (now - 9000) "good" (lit 12) None;
    postureRecord (now - 8000) "poor" (lit 3) None ].

Definition poorThenGood : list Posture.Session :=
  [ postureRecord (now - 2000) "poor" (lit 20) None;
    postureRecord (now - 1000) "good" (lit 5) None ].

Definition poorTwice : list Posture.Session :=
  [ postureRecord (now - 2000) "poor" (lit 20) None;
    postureRecord (now - 1000) "poor" (lit 18) None ].

(** Five good records followed by five poor ones. *)
Definition fiveGoodFivePoor : list Posture.Session :=
  map (fun k => postureRecord (now - 20000 + k) "good" (lit 5) None)
      [0; 1; 2; 3; 4]%Z
  ++ map (fun k => postureRecord (now - 10000 + k) "poor" (lit 20) None)
      [0; 1; 2; 3; 4]%Z.

(** Half a day, and six and a half days, in milliseconds. *)
Definition halfDay : Z := 12 * 60 * 60 * 1000.
Definition sixAndAHalfDays : Z := 13 * halfDay.

(** One posture record, written six and a half days before [now]. *)
Definition stalePosture : list Posture.Session :=
  [ postureRecord (now - sixAndAHalfDays) "good" (lit 5) None ].

(** One gait record, written six and a half days before [now]. *)
Definition staleGait : list Gait.Session :=
  [ gaitRecord (now - sixAndAHalfDays) "normal" (lit 92) ].

(** Posture records six and a half days, one and a half days (two of
    them) and half a day old. *)
Definition postureWeek : list Posture.Session :=
  [ postureRecord (now - sixAndAHalfDays) "good" (lit 5) None;
    postureRecord (now - 3 * halfDay) "good" (lit 5) None;
    postureRecord (now - 3 * halfDay + 1) "poor" (lit 20) None;
    postureRecord (now - halfDay) "fair" (lit 12) None ].

(** Gait records one and a half days (two of them) and half a day old. *)
Definition gaitWeek : list Gait.Session :=
  [ gaitRecord (now - 3 * halfDay) "normal" (lit 90) ;
    gaitRecord (now - 3 * halfDay + 1) "asymmetric" (lit 61);
    gaitRecord (now - halfDay) "normal" (lit 92) ].

(** A single normal gait record with symmetry 92, half a day old. *)
Definition oneNormalGait : list Gait.Session :=
  [ gaitRecord (now - halfDay) "normal" (lit 92) ].





Definition combinedReport : Reports.GenArgs :=
  {| Reports.g_sessionIds := [];
     Reports.g_type := "combined";
     Reports.g_title := "Weekly review" |}.

End Inputs.

(** * Notions and inputs for the further properties *)

(** A list is newest first on [key]: every element's key is at least the
    key of every later element. *)
Definition newestFirst {A : Type} (key : A -> Z) (l : list A) : Prop :=
  StronglySorted (fun a b => (key b <= key a)%Z) l.

Definition postureTime (d : Store.Doc Posture.Session) : Z :=
  Posture.timestamp (Store.value d).

Definition gaitTime (d : Store.Doc Gait.Session) : Z :=
  Gait.timestamp (Store.value d).

Definition reportTime (d : Store.Doc Reports.Report) : Z :=
  Reports.createdAt (Store.value d).

(** The documents [cleanupBadPostureData] looks for: the caller's, with a
    forward-head angle that is a number above 30, or [NaN]. *)
Definition isBad (s : Posture.Session) : bool :=
  (Posture.userId s =? Posture.anonymous)
  && (JS.gt (Posture.forwardHeadAngle s) (lit 30)
      || JS.isNaN (Posture.forwardHeadAngle s)).

(** The triggers of the posture cascade by the severity they ask for. *)
Definition poorTrigger (args : Posture.Args) : bool :=
  Posture.optIs (Posture.a_sittingPosition args) "hunchback"
  || JS.gt (Posture.a_forwardHeadAngle args) (lit 15)
  || JS.gt (JS.abs (Posture.a_shoulderTilt args)) (lit 10)
  || JS.lt (Posture.a_spineAlignment args) (lit 70)
  || Posture.scoreBelow (Posture.a_postureScore args) 60.

Definition fairTrigger (args : Posture.Args) : bool :=
  Posture.optIs (Posture.a_sittingPosition args) "reclined"
  || JS.gt (Posture.a_forwardHeadAngle args) (lit 10)
  || JS.gt (Posture.a_neckAngle args) (lit 15)
  || JS.lt (Posture.a_spineAlignment args) (lit 85)
  || Posture.scoreBelow (Posture.a_postureScore args) 80.

Definition worstLabel (args : Posture.Args) : string :=
  if poorTrigger args then "poor"
  else if fairTrigger args then "fair"
  else "good".

(** The two affirmations the classifiers push when nothing else was. *)
Definition excellentPosture : string :=
  "Excellent posture! Keep maintaining this good posture".

Definition normalGait : string := "Normal gait pattern detected!".

(** The gait label as a function of symmetry and balance. *)
Definition gaitLabelOf (sym bal : number) : string :=
  if JS.lt sym (lit 70) then "asymmetric"
  else if JS.lt sym (lit 85) then "irregular"
  else if JS.gt (JS.abs (JS.sub bal (lit 50))) (lit 15) then "irregular"
  else "normal".

(** A gait sample with its five sensor fields replaced. *)
Definition withSensor (args : Gait.Args)
  (stance swing heel toe speed : option number) : Gait.Args :=
  {| Gait.a_stepCount := Gait.a_stepCount args;
     Gait.a_symmetryScore := Gait.a_symmetryScore args;
     Gait.a_cadence := Gait.a_cadence args;
     Gait.a_strideLength := Gait.a_strideLength args;
     Gait.a_gaitSpeed := speed;
     Gait.a_leftRightBalance := Gait.a_leftRightBalance args;
     Gait.a_analysisType := Gait.a_analysisType args;
     Gait.a_rawDataPath := Gait.a_rawDataPath args;
     Gait.a_stancePhase := stance;
     Gait.a_swingPhase := swing;
     Gait.a_doubleSupportPhase := Gait.a_doubleSupportPhase args;
     Gait.a_heelStrikeForce := heel;
     Gait.a_toeOffForce := toe |}.

(** What the posture cascade keeps true before its last statement: the
    affirmation has not been pushed, and a label other than "good" came
    with a recommendation. *)
Definition corrective (v : Posture.Verdict) : Prop :=
  ~ In excellentPosture (Posture.advice v)
  /\ (Posture.label v <> "good" -> Posture.advice v <> []).

Definition gaitCorrective (v : Gait.Verdict) : Prop :=
  ~ In normalGait (Gait.advice v)
  /\ (Gait.label v <> "normal" -> Gait.advice v <> []).

(** The trend recommendations of the report composer. *)
Definition postureDeclining : string :=
  "Posture declining - review recent changes in workstation or habits, consider professional ergonomic consultation".

Definition postureImproving : string :=
  "Great improvement trend - maintain current practices and continue monitoring progress".

Definition gaitDeclining : string :=
  "Gait quality declining - review recent changes in activity or footwear, consider professional assessment".

Definition gaitImproving : string :=
  "Excellent gait improvement - maintain current training and continue monitoring progress".

Definition keepGoing : string := "Continue maintaining good biomechanical patterns".

Definition knownRisk (level : string) : Prop :=
  level = "LOW" \/ level = "MODERATE" \/ level = "HIGH".

(** One label-changing statement of the posture cascade, on the label
    alone: [poor] forces "poor", else [fair] turns "good" into "fair". *)
Definition labelStep (poor fair : bool) (l : string) : string :=
  if poor then "poor"
  else if fair then (if l =? "good" then "fair" else l)
  else l.

(** Every recommendation the posture part and the gait part of a report
    can push. *)
Definition postureMessages : list string :=
  [ "URGENT: Reduce forward head posture - adjust monitor height to eye level, use ergonomic workstation setup";
    "Monitor forward head position throughout the day - set hourly posture reminders";
    "Address shoulder imbalance - check desk height, keyboard position, and consider shoulder strengthening exercises";
    "Improve spinal alignment - use lumbar support, practice spine-strengthening exercises, maintain neutral spine during work";
    "Correct hunchback posture - practice chest opening stretches, strengthen upper back muscles, maintain upright sitting";
    "Reduce hand folding habit - keep arms relaxed at sides, use proper keyboard positioning";
    "Avoid kneeling while sitting - maintain both feet flat on ground for proper posture support";
    "Overall posture improvement needed - consider ergonomic assessment, posture training, and regular movement breaks";
    "Excellent posture maintenance - continue current practices and consider advanced ergonomic optimizations";
    postureDeclining;
    postureImproving;
    "Improve measurement accuracy - ensure good lighting and clear camera view for more reliable posture analysis" ].

Definition gaitMessages : list string :=
  [ "URGENT: Poor gait symmetry detected - consider physical therapy consultation and gait training exercises";
    "Improve gait symmetry - practice balance exercises, single-leg stands, and walking drills";
    "Address left-right imbalance - focus on bilateral strengthening exercises and gait symmetry training";
    "Increase walking pace - practice walking with metronome at 110-120 BPM for improved cadence";
    "Reduce walking pace - focus on longer strides rather than faster steps for better efficiency";
    "Frequent asymmetric gait patterns - consider biomechanical assessment and corrective exercises";
    "Address irregular gait patterns - practice consistent walking rhythm and consider balance training";
    gaitDeclining;
    gaitImproving ].

(** The recommendations of a list that are not trend recommendations. *)
Definition isTrend (msg : string) : bool :=
  (msg =? postureDeclining) || (msg =? postureImproving)
  || (msg =? gaitDeclining) || (msg =? gaitImproving).

(** The count an entry of a counter table holds (0 for a string). *)
Definition countOf (e : string * Obj.value) : nat :=
  match snd e with
  | Obj.Count n => n
  | Obj.Text => 0
  end.



Module MoreInputs.

(** Three stored posture documents, written 3000, 1000 and 2000
    milliseconds before [Inputs.now]; the second has an angle of 45. *)
Definition postureTable : Store.Table Posture.Session :=
  {| Store.docs :=
       [ {| Store._id := 0;
            Store.value := Inputs.postureRecord (Inputs.now - 3000) "good" (lit 5) None |};
         {| Store._id := 1;
            Store.value := Inputs.postureRecord (Inputs.now - 1000) "poor" (lit 45) None |};
         {| Store._id := 2;
            Store.value := Inputs.postureRecord (Inputs.now - 2000) "fair" (lit 12) None |} ];
     Store.nextId := 3 |}.

(** Two stored posture documents, the second with the angle [NaN]. *)
Definition postureTableWithNaN : Store.Table Posture.Session :=
  {| Store.docs :=
       [ {| Store._id := 0;
            Store.value := Inputs.postureRecord (Inputs.now - 3000) "good" (lit 5) None |};
         {| Store._id := 1;
            Store.value := Inputs.postureRecord (Inputs.now - 1000) "good" JS.NaN None |} ];
     Store.nextId := 2 |}.

Definition gaitTable : Store.Table Gait.Session :=
  {| Store.docs :=
       [ {| Store._id := 0;
            Store.value := Inputs.gaitRecord (Inputs.now - 3000) "normal" (lit 90) |};
         {| Store._id := 1;
            Store.value := Inputs.gaitRecord (Inputs.now - 1000) "asymmetric" (lit 61) |} ];
     Store.nextId := 2 |}.

(** The report table after two reports have been generated. *)
Definition reportTable : Store.Table Reports.Report :=
  snd (Db.generateReport (frozen (Inputs.now + 10)) Inputs.combinedReport
         postureTable gaitTable
         (snd (Db.generateReport (frozen Inputs.now) Inputs.combinedReport
                 postureTable gaitTable Store.empty))).

(** A complete ESP32 payload, and the same with a timestamp of 0. *)
Definition payload : Http.json :=
  Http.JObject
    [ ("deviceId", Http.JString "ankle-left");
      ("timestamp", Http.JNumber (lit 123456));
      ("acceleration", Http.JObject [("x", Http.JNumber (lit 1))]);
      ("gyroscope", Http.JObject [("x", Http.JNumber (lit 2))]) ].

Definition payloadAtZero : Http.json :=
  Http.JObject
    [ ("deviceId", Http.JString "ankle-left");
      ("timestamp", Http.JNumber (lit 0));
      ("acceleration", Http.JObject [("x", Http.JNumber (lit 1))]);
      ("gyroscope", Http.JObject [("x", Http.JNumber (lit 2))]) ].

(** A parser that knows three request texts. *)
Definition parseExample (text : string) : option Http.json :=
  if text =? "complete" then Some payload
  else if text =? "at zero" then Some payloadAtZero
  else if text =? "null" then Some Http.JNull
  else None.

Definition stringifyExample (data : Http.json) : string := "raw".

(** Posture records with the given sitting positions, in order. *)
Definition seated (positions : list (option string)) : list Posture.Session :=
  map (fun p =>
         {| Posture.userId := Posture.anonymous;
            Posture.timestamp := 0;
            Posture.forwardHeadAngle := lit 5;
            Posture.shoulderTilt := lit 2;
            Posture.neckAngle := lit 5;
            Posture.spineAlignment := lit 90;
            Posture.classification := "good";
            Posture.duration := lit 60;
            Posture.sittingPosition := p;
            Posture.handFolding := None;
            Posture.kneeling := None;
            Posture.spineAngle := None;
            Posture.earToHipAngle := None;
            Posture.postureScore := None;
            Posture.keypointConfidence := None;
            Posture.recommendations := [];
            Posture.rawData := None;
            Posture.dataPoints := None |})
      positions.

(** A profile table holding the profile of another user only, and an
    update that passes the height and the age. *)
Definition otherProfile : Profile.UserProfile :=
  {| Profile.userId := "someone-else";
     Profile.height := Some (lit 180);
     Profile.weight := None;
     Profile.age := None;
     Profile.activityLevel := None;
     Profile.medicalConditions := None;
     Profile.goals := None;
     Profile.preferences := Profile.defaultPreferences |}.

Definition profileTable : Store.Table Profile.UserProfile :=
  {| Store.docs := [ {| Store._id := 0%nat; Store.value := otherProfile |} ];
     Store.nextId := 1%nat |}.

Definition profileArgs : Profile.Args :=
  {| Profile.a_height := Some (lit 172);
     Profile.a_weight := None;
     Profile.a_age := Some (lit 34);
     Profile.a_activityLevel := None;
     Profile.a_medicalConditions := None;
     Profile.a_goals := None;
     Profile.a_preferences := None |}.

End MoreInputs.

(** * Theorems *)

(** ** The posture cascade *)

Section PostureCascade.
Import Posture.

Lemma severity_le_2 l : (severity l <= 2)%nat.
Proof.
  unfold severity. destruct (l =? "good"); [lia|]. destruct (l =? "fair"); lia.
Qed.

Lemma known_poor_iff l : knownLabel l -> (severity l = 2%nat <-> l = "poor").
Proof.
  intros [-> | [-> | ->]]; cbn; split; intros H; try reflexivity; discriminate.
Qed.

Lemma push_keeps v msg : label (push v msg) = label v.
Proof. reflexivity. Qed.

Lemma toPoor_ok v msg :
  knownLabel (label (push (setLabel v "poor") msg))
  /\ (severity (label v) <= severity (label (push (setLabel v "poor") msg)))%nat.
Proof.
  cbn. split; [right; right; reflexivity | apply severity_le_2].
Qed.

Lemma toFair_ok v msg : knownLabel (label v) ->
  knownLabel (label (push (toFair v) msg))
  /\ (severity (label v) <= severity (label (push (toFair v) msg)))%nat.
Proof.
  intros [H | [H | H]]; cbn; rewrite H; cbn; split; try lia;
    unfold knownLabel; auto.
Qed.

Lemma keep_ok v : knownLabel (label v) ->
  knownLabel (label v) /\ (severity (label v) <= severity (label v))%nat.
Proof. auto. Qed.

#[local] Hint Resolve toPoor_ok toFair_ok keep_ok : cascade.

Lemma rules_nonImproving : Forall nonImproving rules.
Proof.
  unfold rules.
  repeat (apply Forall_cons; [intros args v Hv |]); [.. | apply Forall_nil].
  all: unfold sittingRule, handFoldingRule, kneelingRule, forwardHeadRule,
         shoulderRule, neckRule, spineRule, scoreRule, confidenceRule,
         defaultRule.
  all: rule_cases.
Qed.

Lemma runRules_app args rs1 rs2 v :
  runRules args (rs1 ++ rs2) v = runRules args rs2 (runRules args rs1 v).
Proof. unfold runRules. apply fold_left_app. Qed.

Lemma runRules_nonImproving args rs : Forall nonImproving rs ->
  forall v, knownLabel (label v) ->
    knownLabel (label (runRules args rs v))
    /\ (severity (label v) <= severity (label (runRules args rs v)))%nat.
Proof.
  induction 1 as [| r rs Hr _ IH]; intros v Hv; cbn.
  - auto.
  - destruct (Hr args v Hv) as [Hk Hs].
    destruct (IH _ Hk) as [Hk' Hs']. fold (runRules args rs (r args v)) in *.
    split; [assumption | lia].
Qed.

Lemma Forall_firstn {A} (P : A -> Prop) n l : Forall P l -> Forall P (firstn n l).
Proof.
  intros H. rewrite <- (firstn_skipn n l) in H.
  apply Forall_app in H. tauto.
Qed.

Lemma Forall_skipn {A} (P : A -> Prop) n l : Forall P l -> Forall P (skipn n l).
Proof.
  intros H. rewrite <- (firstn_skipn n l) in H.
  apply Forall_app in H. tauto.
Qed.

Lemma after_known args k : knownLabel (label (after k args)).
Proof.
  unfold after.
  apply (runRules_nonImproving args (firstn k rules)).
  - apply Forall_firstn, rules_nonImproving.
  - left; reflexivity.
Qed.

Lemma after_split args j k : (j <= k)%nat ->
  after k args = runRules args (skipn j (firstn k rules)) (after j args).
Proof.
  intros Hjk. unfold after.
  rewrite <- runRules_app. f_equal.
  rewrite <- (firstn_skipn j (firstn k rules)) at 1.
  f_equal. rewrite firstn_firstn. f_equal. lia.
Qed.

(** C1.  The posture cascade starts at "good" and every statement of the
    handler leaves the label among good / fair / poor without ever
    lowering its severity: for any two points [j <= k] of the cascade the
    label after [k] statements is at least as severe as after [j], and
    once it is "poor" it stays "poor" up to the classification that is
    stored and returned. *)
Theorem posture_cascade_never_improves (args : Args) (j k : nat) :
  (j <= k)%nat ->
  label (after 0 args) = "good"
  /\ knownLabel (label (after k args))
  /\ (severity (label (after j args)) <= severity (label (after k args)))%nat
  /\ (label (after j args) = "poor" -> label (after k args) = "poor")
  /\ (label (after j args) = "poor" -> label (classify args) = "poor")
  /\ (forall now table,
        r_classification (fst (analyzePosture now args table))
        = label (after (List.length rules) args)).
Proof.
  intros Hjk.
  assert (Hmono : forall a b, (a <= b)%nat ->
            (severity (label (after a args)) <= severity (label (after b args)))%nat).
  { intros a b Hab. rewrite (after_split args a b Hab).
    apply runRules_nonImproving.
    - apply Forall_skipn, Forall_firstn, rules_nonImproving.
    - apply after_known. }
  assert (Hstay : forall a b, (a <= b)%nat ->
            label (after a args) = "poor" -> label (after b args) = "poor").
  { intros a b Hab Hp.
    apply known_poor_iff; [apply after_known|].
    pose proof (Hmono a b Hab) as Hle. rewrite Hp in Hle. cbn in Hle.
    pose proof (severity_le_2 (label (after b args))). lia. }
  assert (Hall : forall n, (List.length rules <= n)%nat -> after n args = classify args).
  { intros n Hn. unfold after, classify. now rewrite firstn_all2. }
  split; [reflexivity |].
  split; [apply after_known |].
  split; [apply Hmono, Hjk |].
  split; [apply Hstay, Hjk |].
  split.
  - intros Hp. rewrite <- (Hall (Nat.max j (List.length rules))) by lia.
    apply (Hstay j); [lia | assumption].
  - intros now table. cbn [analyzePosture fst r_classification].
    now rewrite Hall.
Qed.

End PostureCascade.

(** Witness of C1: the slouching sample is "poor" from the forward-head
    statement (the fourth) on, through all ten statements. *)
Lemma posture_cascade_never_improves_witness :
  (4 <= 10)%nat
  /\ Posture.label (Posture.after 4 Inputs.slouching) = "poor"
  /\ (Posture.label (Posture.after 4 Inputs.slouching) = "poor" ->
      Posture.label (Posture.after 10 Inputs.slouching) = "poor")
  /\ (Posture.severity (Posture.label (Posture.after 4 Inputs.slouching))
      <= Posture.severity (Posture.label (Posture.after 10 Inputs.slouching)))%nat.
Proof.
  split; [lia |].
  split; [reflexivity |].
  destruct (posture_cascade_never_improves Inputs.slouching 4 10)
    as (_ & _ & Hsev & Hstay & _); [lia |].
  split; assumption.
Defined.

(** ** The optional posture score *)

Section PostureScore.
Import Posture.

Lemma confidenceRule_label args v : label (confidenceRule args v) = label v.
Proof. unfold confidenceRule. now destruct scoreBelow. Qed.

Lemma defaultRule_label args v : label (defaultRule args v) = label v.
Proof. unfold defaultRule. now destruct (_ =? _)%nat. Qed.

Lemma classify_scoreRule args :
  label (classify args) = label (scoreRule args (after 7 args)).
Proof.
  unfold classify, after, rules, runRules. cbn [firstn fold_left].
  now rewrite defaultRule_label, confidenceRule_label.
Qed.

(** What the score statement does for a score that is truthy (neither 0
    nor NaN): below 60 the sample is "poor"; from 60 up to 80 it is "fair"
    unless an earlier statement made it "fair" or "poor" already. *)
Lemma posture_score_rule_truthy (args : Args) (s : number) :
  a_postureScore args = Some s ->
  JS.truthy s = true ->
  (JS.lt s (lit 60) = true -> label (classify args) = "poor")
  /\ (JS.lt s (lit 60) = false -> JS.lt s (lit 80) = true ->
      label (after 7 args) <> "poor" ->
      label (classify args) = "fair").
Proof.
  intros Hs Ht. rewrite classify_scoreRule. unfold scoreRule, scoreBelow.
  rewrite Hs, Ht. cbn [andb]. split.
  - intros ->. reflexivity.
  - intros -> -> Hnp.
    destruct (after_known args 7) as [H | [H | H]]; [| | contradiction];
      unfold push, toFair, setLabel; cbn [label]; rewrite H; reflexivity.
Qed.

(** C8 (failing input).  An otherwise flawless sample that supplies the
    overall posture score 0 has a score below 60, yet the truthiness test
    in front of the comparison skips the score statement: the sample is
    classified "good" and congratulated, where the scores 45 and 75 give
    "poor" and "fair". *)
Theorem posture_score_zero_is_skipped :
  a_postureScore Inputs.uprightScoreZero = Some (lit 0)
  /\ JS.lt (lit 0) (lit 60) = true
  /\ classify Inputs.uprightScoreZero
     = {| label := "good";
          advice := ["Excellent posture! Keep maintaining this good posture"] |}
  /\ label (classify Inputs.uprightScore45) = "poor"
  /\ label (classify Inputs.uprightScore75) = "fair".
Proof. repeat split; vm_compute; reflexivity. Qed.

End PostureScore.

(** ** The gait classifier *)

Section GaitClassifier.
Import Gait.

Lemma cadenceRule_label args v : label (cadenceRule args v) = label v.
Proof. unfold cadenceRule. now destruct (_ || _). Qed.

Lemma esp32Rules_label args v : label (esp32Rules args v) = label v.
Proof.
  unfold esp32Rules, speedRule, forceRule, swingRule, stanceRule.
  repeat match goal with
         | |- context [match ?c with _ => _ end] => destruct c; cbn
         end; reflexivity.
Qed.

Lemma gait_defaultRule_label v : label (defaultRule v) = label v.
Proof. unfold defaultRule. now destruct (_ =? _)%nat. Qed.

Lemma classify_label args :
  label (classify args) = label (balanceRule args (symmetryRule args initial)).
Proof.
  unfold classify.
  now rewrite gait_defaultRule_label, esp32Rules_label, cadenceRule_label.
Qed.

(** C2.  A gait sample whose symmetry score is below 70 is classified
    exactly "asymmetric", whatever its other fields: the symmetry
    statement sets the label, the balance statement keeps every label
    other than "normal", and no later statement writes the label. *)
Theorem gait_low_symmetry_is_asymmetric (args : Args) :
  JS.lt (a_symmetryScore args) (lit 70) = true ->
  label (symmetryRule args initial) = "asymmetric"
  /\ label (balanceRule args (symmetryRule args initial)) = "asymmetric"
  /\ label (classify args) = "asymmetric"
  /\ (forall now table,
        r_classification (fst (analyzeGait now args table)) = "asymmetric").
Proof.
  intros Hsym.
  assert (H1 : label (symmetryRule args initial) = "asymmetric").
  { unfold symmetryRule. now rewrite Hsym. }
  assert (H2 : label (balanceRule args (symmetryRule args initial)) = "asymmetric").
  { unfold balanceRule. destruct (JS.gt _ _); cbn; rewrite H1; reflexivity. }
  assert (H3 : label (classify args) = "asymmetric").
  { now rewrite classify_label. }
  split; [exact H1 |]. split; [exact H2 |]. split; [exact H3 |].
  intros now table. exact H3.
Qed.

(** Witness of C2: symmetry 60 with balance 90, so that the balance
    statement fires as well. *)
Lemma gait_low_symmetry_is_asymmetric_witness :
  JS.lt (a_symmetryScore Inputs.limping) (lit 70) = true
  /\ JS.gt (JS.abs (JS.sub (a_leftRightBalance Inputs.limping) (lit 50))) (lit 15) = true
  /\ label (classify Inputs.limping) = "asymmetric".
Proof.
  split; [reflexivity |].
  split; [reflexivity |].
  apply (gait_low_symmetry_is_asymmetric Inputs.limping). reflexivity.
Defined.

(** C9.  The sample with symmetry 92, cadence 130, balance 50 and analysis
    type "motion", any step count and no optional field, is classified
    "normal" with the single recommendation "Normal gait pattern
    detected!". *)
Theorem gait_normal_scenario (steps : number) (now : Z) (table : list Session) :
  let args := sample steps (lit 92) (lit 130) (lit 50) "motion" in
  classify args
  = {| label := "normal"; advice := ["Normal gait pattern detected!"] |}
  /\ r_classification (fst (analyzeGait now args table)) = "normal"
  /\ r_recommendations (fst (analyzeGait now args table))
     = ["Normal gait pattern detected!"].
Proof. repeat split. Qed.

End GaitClassifier.

(** ** The aggregators on an empty record list *)

(** C7.  When no record is collected, both aggregators return the
    all-zero statistics with an empty weekly trend; the handlers are total
    functions, so there is no input on which they raise. *)
Theorem aggregators_on_empty_list (clock : Clock)
  (postureTable : list Posture.Session) (gaitTable : list Gait.Session) :
  PostureStats.collect postureTable = [] ->
  GaitStats.collect gaitTable = [] ->
  PostureStats.getPostureStats clock postureTable
  = {| PostureStats.totalSessions := 0;
       PostureStats.averageScore := S754_zero false;
       PostureStats.goodPosturePercentage := S754_zero false;
       PostureStats.averageForwardHead := None;
       PostureStats.improvementRate := None;
       PostureStats.weeklyTrend := [];
       PostureStats.advancedStats :=
         {| PostureStats.sittingPositionStats := [];
            PostureStats.handFoldingPercentage := S754_zero false;
            PostureStats.kneelingPercentage := S754_zero false;
            PostureStats.averagePostureScore := S754_zero false;
            PostureStats.averageKeypointConfidence := S754_zero false |} |}
  /\ GaitStats.getGaitStats clock gaitTable
     = {| GaitStats.totalSessions := 0;
          GaitStats.averageSymmetry := S754_zero false;
          GaitStats.averageCadence := S754_zero false;
          GaitStats.normalGaitPercentage := S754_zero false;
          GaitStats.weeklyTrend := [] |}.
Proof.
  intros Hp Hg.
  unfold PostureStats.getPostureStats, GaitStats.getGaitStats.
  rewrite Hp, Hg. split; reflexivity.
Qed.

(** Witness of C7: the empty tables. *)
Lemma aggregators_on_empty_list_witness :
  PostureStats.collect [] = []
  /\ GaitStats.collect [] = []
  /\ PostureStats.weeklyTrend (PostureStats.getPostureStats (frozen Inputs.now) []) = []
  /\ GaitStats.weeklyTrend (GaitStats.getGaitStats (frozen Inputs.now) []) = [].
Proof.
  split; [reflexivity |]. split; [reflexivity |].
  destruct (aggregators_on_empty_list (frozen Inputs.now) [] [] eq_refl eq_refl)
    as [Hp Hg].
  rewrite Hp, Hg. split; reflexivity.
Defined.

(** ** averageScore and goodPosturePercentage *)

Section AverageScore.
Import Posture PostureStats.

Lemma countBy_isGood_map (l : list Session) :
  countBy isGood l = countBy (fun c => c =? "good") (map classification l).
Proof.
  unfold countBy, isGood.
  induction l as [| s l IH]; cbn; [reflexivity |].
  destruct (classification s =? "good"); cbn; now rewrite IH.
Qed.

Lemma statsOf_nonempty clock sessions : sessions <> [] ->
  averageScore (statsOf clock sessions)
  = roundedPct (countBy isGood sessions) (List.length sessions)
  /\ goodPosturePercentage (statsOf clock sessions)
     = roundedPct (countBy isGood sessions) (List.length sessions).
Proof.
  intros Hne. unfold statsOf.
  destruct sessions as [| s l]; [contradiction |].
  split; reflexivity.
Qed.

(** C10.  On a non-empty record set [averageScore] and
    [goodPosturePercentage] are the same number, the rounded percentage of
    records labelled "good"; it is determined by the labels alone, so no
    per-record numeric score enters it. *)
Theorem averageScore_is_good_percentage (clock : Clock) (table : list Session) :
  collect table <> [] ->
  averageScore (getPostureStats clock table)
  = goodPosturePercentage (getPostureStats clock table)
  /\ averageScore (getPostureStats clock table)
     = JS.round (JS.mul (JS.div (JS.ofNat (countBy isGood (collect table)))
                                (JS.ofNat (List.length (collect table))))
                        (lit 100))
  /\ (forall clock' table',
        map classification (collect table') = map classification (collect table) ->
        averageScore (getPostureStats clock' table')
        = averageScore (getPostureStats clock table)).
Proof.
  intros Hne. unfold getPostureStats.
  destruct (statsOf_nonempty clock _ Hne) as [Ha Hg].
  split; [now rewrite Ha, Hg |]. split; [exact Ha |].
  intros clock' table' Hmap.
  assert (Hne' : collect table' <> []).
  { intros E. rewrite E in Hmap. cbn in Hmap.
    destruct (collect table); [contradiction | discriminate]. }
  destruct (statsOf_nonempty clock' _ Hne') as [Ha' _].
  rewrite Ha, Ha', !countBy_isGood_map, Hmap.
  rewrite <- (length_map classification (collect table')), Hmap, length_map.
  reflexivity.
Qed.

(** Witness of C10: one good record scored 40 and one poor record scored
    95 give [averageScore] 50, as do two records with the same labels and
    no score at all. *)
Lemma averageScore_is_good_percentage_witness :
  collect Inputs.goodThenPoor <> []
  /\ averageScore (getPostureStats (frozen Inputs.now) Inputs.goodThenPoor) = lit 50
  /\ goodPosturePercentage (getPostureStats (frozen Inputs.now) Inputs.goodThenPoor) = lit 50
  /\ averageScore (getPostureStats (frozen Inputs.now) Inputs.goodThenPoorUnscored) = lit 50.
Proof.
  assert (Hne : collect Inputs.goodThenPoor <> []) by discriminate.
  destruct (averageScore_is_good_percentage (frozen Inputs.now) Inputs.goodThenPoor Hne)
    as (Heq & Hval & Hinv).
  split; [exact Hne |].
  split; [rewrite Hval; reflexivity |].
  split; [rewrite <- Heq, Hval; reflexivity |].
  rewrite (Hinv (frozen Inputs.now) Inputs.goodThenPoorUnscored eq_refl), Hval.
  reflexivity.
Defined.

End AverageScore.

(** ** The improvement rate *)

Section ImprovementRate.
Import Posture PostureStats.

Lemma nonempty_length {A} (l : list A) : l <> [] -> (0 <? List.length l)%nat = true.
Proof. destruct l; [contradiction | reflexivity]. Qed.

Lemma halfScore_nonempty half : half <> [] -> halfScore half = goodPercentage half.
Proof.
  intros H. unfold halfScore. now rewrite (nonempty_length _ H).
Qed.

(** Dividing by a zero of either sign never gives a finite number, and
    neither the multiplication by 100 nor [Math.round] brings it back. *)
Lemma div_by_zero_not_finite (x z : number) : isZero z = true ->
  JS.isFinite (JS.mul (JS.div x z) (lit 100)) = false
  /\ JS.isFinite (JS.round (JS.mul (JS.div x z) (lit 100))) = false.
Proof.
  destruct z as [sz | | |]; try discriminate. intros _.
  destruct x as [sx | sx | | sx m e]; split; reflexivity.
Qed.

(** C3.  When both halves of the collected record list (split at index
    floor(n/2)) are non-empty, the improvement rate is
    (secondHalfPct - firstHalfPct) / firstHalfPct x 100 with each half's
    percentage its good-classification rate, and the returned field is
    [Math.round] of it.  The division is not guarded: when firstHalfPct is
    zero the rate and the returned field are [NaN] or an infinity, not a
    finite default. *)
Theorem improvement_rate_formula (clock : Clock) (table : list Session) :
  firstHalf (collect table) <> [] ->
  secondHalf (collect table) <> [] ->
  firstHalf (collect table)
    = firstn (Nat.div (List.length (collect table)) 2) (collect table)
  /\ secondHalf (collect table)
    = skipn (Nat.div (List.length (collect table)) 2) (collect table)
  /\ improvementRateOf (collect table) = specImprovement (collect table)
  /\ improvementRate (getPostureStats clock table)
     = Some (JS.round (specImprovement (collect table)))
  /\ (isZero (goodPercentage (firstHalf (collect table))) = true ->
      JS.isFinite (specImprovement (collect table)) = false
      /\ JS.isFinite (JS.round (specImprovement (collect table))) = false).
Proof.
  intros H1 H2.
  assert (Hrate : improvementRateOf (collect table) = specImprovement (collect table)).
  { unfold improvementRateOf, firstHalfScore, secondHalfScore.
    rewrite (nonempty_length _ H1), (nonempty_length _ H2).
    now rewrite (halfScore_nonempty _ H1), (halfScore_nonempty _ H2). }
  split; [reflexivity |]. split; [reflexivity |]. split; [exact Hrate |].
  split.
  - unfold getPostureStats, statsOf.
    destruct (collect table) as [| s l] eqn:E; [now contradiction H1 |].
    cbn [List.length Nat.eqb improvementRate]. now rewrite Hrate.
  - intros Hz. unfold specImprovement.
    change (firstn (Nat.div (List.length (collect table)) 2) (collect table))
      with (firstHalf (collect table)).
    now apply div_by_zero_not_finite.
Qed.

(** Witness of C3: a poor record followed by a good one.  The first half's
    percentage is 0, the second half's is 100, and the returned rate is
    +Infinity. *)
Lemma improvement_rate_formula_witness :
  firstHalf (collect Inputs.poorThenGood) <> []
  /\ secondHalf (collect Inputs.poorThenGood) <> []
  /\ isZero (goodPercentage (firstHalf (collect Inputs.poorThenGood))) = true
  /\ improvementRate (getPostureStats (frozen Inputs.now) Inputs.poorThenGood)
     = Some JS.Infinity
  /\ JS.isFinite (JS.round (specImprovement (collect Inputs.poorThenGood))) = false.
Proof.
  assert (H1 : firstHalf (collect Inputs.poorThenGood) <> []) by discriminate.
  assert (H2 : secondHalf (collect Inputs.poorThenGood) <> []) by discriminate.
  destruct (improvement_rate_formula (frozen Inputs.now) Inputs.poorThenGood H1 H2)
    as (_ & _ & _ & Hret & Hzero).
  split; [exact H1 |]. split; [exact H2 |]. split; [reflexivity |].
  split; [rewrite Hret; reflexivity |].
  apply Hzero. reflexivity.
Defined.

(** Two poor records: 0 / 0, the returned rate is [NaN]. *)
Example improvement_rate_nan :
  improvementRate (getPostureStats (frozen Inputs.now) Inputs.poorTwice)
  = Some JS.NaN.
Proof. reflexivity. Qed.

(** Five good records followed by five poor ones: the rate is -100. *)
Example improvement_rate_decline :
  improvementRate (getPostureStats (frozen Inputs.now) Inputs.fiveGoodFivePoor)
  = Some (lit (-100)).
Proof. reflexivity. Qed.

End ImprovementRate.

(** ** The weekly trend *)

Section Windows.
Variable clock : Clock.
Hypothesis clock_monotone : monotone clock.

(** The window of an earlier iteration ends before the window of a later
    one starts. *)
Lemma windows_ordered (i j : nat) : (i < j)%nat ->
  (dayEnd clock j <= dayStart clock i)%Z.
Proof.
  intros Hij. unfold dayEnd, dayStart, DAY.
  assert (H := clock_monotone (7 - j) (7 - i) ltac:(lia)). lia.
Qed.

Lemma windows_disjoint (i j : nat) (ts : Z) : i <> j ->
  inDay clock i ts = true -> inDay clock j ts = true -> False.
Proof.
  unfold inDay. intros Hij Hi Hj.
  apply andb_prop in Hi as [Hi1 Hi2]. apply andb_prop in Hj as [Hj1 Hj2].
  apply Z.leb_le in Hi1, Hj1. apply Z.ltb_lt in Hi2, Hj2.
  destruct (Nat.lt_total i j) as [Hlt | [Heq | Hgt]]; [| contradiction |].
  - pose proof (windows_ordered i j Hlt). lia.
  - pose proof (windows_ordered j i Hgt). lia.
Qed.

(** Every instant of a day window is later than [weekAgo]. *)
Lemma day_is_recent (i : nat) (ts : Z) : (i <= 6)%nat ->
  inDay clock i ts = true -> isRecent clock ts = true.
Proof.
  unfold inDay, isRecent, weekAgo, dayStart, DAY. intros Hi H.
  apply andb_prop in H as [H1 _]. apply Z.leb_le in H1. apply Z.ltb_lt.
  assert (H := clock_monotone 0 (7 - i) ltac:(lia)). lia.
Qed.

End Windows.

Section Counting.
Context {A : Type}.

Lemma filter_implied (p q : A -> bool) (l : list A) :
  (forall x, p x = true -> q x = true) ->
  filter p (filter q l) = filter p l.
Proof.
  intros Himp. induction l as [| x l IH]; cbn; [reflexivity |].
  destruct (q x) eqn:Eq; cbn.
  - now rewrite IH.
  - destruct (p x) eqn:Ep; [| exact IH].
    rewrite (Himp x Ep) in Eq. discriminate.
Qed.

Lemma list_sum_cons (n : nat) (l : list nat) :
  list_sum (n :: l) = (n + list_sum l)%nat.
Proof. reflexivity. Qed.

Lemma list_sum_map_add (f g : nat -> nat) (l : list nat) :
  list_sum (map (fun i => f i + g i)%nat l)
  = (list_sum (map f l) + list_sum (map g l))%nat.
Proof.
  induction l as [| i l IH]; [reflexivity |].
  rewrite !map_cons, !list_sum_cons, IH. lia.
Qed.

Lemma hits_zero (b : nat -> A -> bool) (x : A) (l : list nat) :
  (forall i, In i l -> b i x = false) -> list_sum (map (hit b x) l) = 0%nat.
Proof.
  induction l as [| i l IH]; intros H; [reflexivity |].
  rewrite map_cons, list_sum_cons. unfold hit at 1.
  rewrite (H i (or_introl eq_refl)).
  rewrite IH; [reflexivity |]. intros k Hk. apply H. now right.
Qed.

(** An element is counted by at most one of pairwise exclusive predicates. *)
Lemma hits_at_most_one (b : nat -> A -> bool) (x : A) (l : list nat) :
  NoDup l ->
  (forall i j, i <> j -> b i x = true -> b j x = true -> False) ->
  (list_sum (map (hit b x) l) <= 1)%nat.
Proof.
  intros Hnd Hex. induction Hnd as [| i l Hni Hnd IH]; [cbn; lia |].
  rewrite map_cons, list_sum_cons. unfold hit at 1.
  destruct (b i x) eqn:Ei; [| exact IH].
  rewrite hits_zero; [lia |].
  intros k Hk. destruct (b k x) eqn:Ek; [| reflexivity].
  exfalso. apply (Hex i k); try assumption. intros ->. contradiction.
Qed.

Lemma counts_of_nil (b : nat -> A -> bool) (idx : list nat) :
  list_sum (map (fun i => List.length (filter (b i) [])) idx) = 0%nat.
Proof.
  induction idx as [| i idx IH]; [reflexivity |].
  rewrite map_cons, list_sum_cons, IH. reflexivity.
Qed.

Lemma counts_at_most_length (b : nat -> A -> bool) (idx : list nat) (l : list A) :
  NoDup idx ->
  (forall x i j, i <> j -> b i x = true -> b j x = true -> False) ->
  (list_sum (map (fun i => List.length (filter (b i) l)) idx) <= List.length l)%nat.
Proof.
  intros Hnd Hex. induction l as [| x l IH].
  - rewrite counts_of_nil. cbn. lia.
  - assert (E : map (fun i => List.length (filter (b i) (x :: l))) idx
               = map (fun i => hit b x i + List.length (filter (b i) l))%nat idx).
    { apply map_ext. intros i. cbn. unfold hit. now destruct (b i x). }
    rewrite E, list_sum_map_add.
    pose proof (hits_at_most_one b x idx Hnd (Hex x)). cbn [List.length]. lia.
Qed.

End Counting.

Lemma loopIndices_NoDup : NoDup loopIndices.
Proof.
  unfold loopIndices.
  repeat (constructor; [cbn; intuition discriminate |]). constructor.
Qed.

Lemma loopIndices_nth (k : nat) : (k < 7)%nat ->
  nth_error loopIndices k = Some (6 - k)%nat.
Proof.
  intros Hk. do 7 (destruct k as [| k]; [reflexivity |]). lia.
Qed.

Lemma loopIndices_le (i : nat) : In i loopIndices -> (i <= 6)%nat.
Proof. cbn. intuition lia. Qed.

(** The loop pushes one entry per index, from 6 down to 0. *)
Lemma trendLoop_unrolled {E : Type} (entry : nat -> E) :
  trendLoop entry 6 [] = map entry loopIndices.
Proof. reflexivity. Qed.

Lemma round_zero : JS.round (lit 0) = lit 0.
Proof. reflexivity. Qed.

Lemma frozen_monotone (t : Z) : monotone (frozen t).
Proof. intros j k _. unfold frozen. lia. Qed.

Section PostureTrend.
Import Posture PostureStats.

Lemma posture_trend_nonempty clock table : collect table <> [] ->
  weeklyTrend (getPostureStats clock table)
  = map (trendEntry clock (collect table)) loopIndices.
Proof.
  intros Hne. unfold getPostureStats, statsOf.
  destruct (collect table); [contradiction | reflexivity].
Qed.

Lemma posture_trend_empty clock table : collect table = [] ->
  weeklyTrend (getPostureStats clock table) = [].
Proof. intros E. unfold getPostureStats. now rewrite E. Qed.

Lemma posture_day_counts_bounded clock sessions : monotone clock ->
  (list_sum (postureDayCounts clock sessions)
   <= List.length (recentSessions clock sessions))%nat.
Proof.
  intros Hm. unfold postureDayCounts, daySessions.
  apply (counts_at_most_length (fun i s => inDay clock i (timestamp s))).
  - apply loopIndices_NoDup.
  - intros s i j Hij. apply (windows_disjoint clock Hm i j _ Hij).
Qed.

Lemma posture_daySessions_all clock sessions i : monotone clock -> (i <= 6)%nat ->
  daySessions clock sessions i = postureOfDay clock i sessions.
Proof.
  intros Hm Hi. unfold daySessions, recentSessions, postureOfDay.
  apply filter_implied. intros s. apply (day_is_recent clock Hm i _ Hi).
Qed.

Lemma posture_dayScore_pct day :
  JS.round (dayScore day) = pctOrZero isGood day.
Proof. destruct day; reflexivity. Qed.

End PostureTrend.

Section GaitTrend.
Import Gait GaitStats.

Lemma gait_trend_nonempty clock table : collect table <> [] ->
  weeklyTrend (getGaitStats clock table)
  = map (trendEntry clock (collect table)) loopIndices.
Proof.
  intros Hne. unfold getGaitStats, statsOf.
  destruct (collect table); [contradiction | reflexivity].
Qed.

Lemma gait_trend_empty clock table : collect table = [] ->
  weeklyTrend (getGaitStats clock table) = [].
Proof. intros E. unfold getGaitStats. now rewrite E. Qed.

Lemma gait_day_counts_bounded clock sessions : monotone clock ->
  (list_sum (gaitDayCounts clock sessions)
   <= List.length (recentSessions clock sessions))%nat.
Proof.
  intros Hm. unfold gaitDayCounts, daySessions.
  apply (counts_at_most_length (fun i s => inDay clock i (timestamp s))).
  - apply loopIndices_NoDup.
  - intros s i j Hij. apply (windows_disjoint clock Hm i j _ Hij).
Qed.

Lemma gait_daySessions_all clock sessions i : monotone clock -> (i <= 6)%nat ->
  daySessions clock sessions i = gaitOfDay clock i sessions.
Proof.
  intros Hm Hi. unfold daySessions, recentSessions, gaitOfDay.
  apply filter_implied. intros s. apply (day_is_recent clock Hm i _ Hi).
Qed.

Lemma gait_daySymmetry_mean day :
  JS.round (daySymmetry day) = roundedMeanOrZero symmetryScore day.
Proof. destruct day; reflexivity. Qed.

End GaitTrend.

(** *** What the seven windows cover under a frozen clock *)

Section FrozenWindows.
Variable now : Z.

Ltac window_bounds :=
  unfold inDay, dayEnd, dayStart, frozen, coveredByWindows, DAY in *;
  cbn [Z.of_nat Pos.of_succ_nat Pos.succ] in *;
  rewrite ?andb_true_iff, ?andb_false_iff, ?Z.leb_le, ?Z.ltb_lt,
    ?Z.leb_gt, ?Z.ltb_ge in *;
  lia.

Lemma frozen_window_covers (ts : Z) : coveredByWindows now ts = true ->
  exists i, In i loopIndices /\ inDay (frozen now) i ts = true.
Proof.
  intros H.
  assert (Hb : (now - 6 * DAY <= ts < now + DAY)%Z) by window_bounds.
  clear H.
  destruct (Z_lt_le_dec ts (now - 5 * DAY)) as [H5 | H5];
    [exists 6%nat; split; [cbn; tauto | window_bounds] |].
  destruct (Z_lt_le_dec ts (now - 4 * DAY)) as [H4 | H4];
    [exists 5%nat; split; [cbn; tauto | window_bounds] |].
  destruct (Z_lt_le_dec ts (now - 3 * DAY)) as [H3 | H3];
    [exists 4%nat; split; [cbn; tauto | window_bounds] |].
  destruct (Z_lt_le_dec ts (now - 2 * DAY)) as [H2 | H2];
    [exists 3%nat; split; [cbn; tauto | window_bounds] |].
  destruct (Z_lt_le_dec ts (now - DAY)) as [H1 | H1];
    [exists 2%nat; split; [cbn; tauto | window_bounds] |].
  destruct (Z_lt_le_dec ts now) as [H0 | H0];
    [exists 1%nat; split; [cbn; tauto | window_bounds] |].
  exists 0%nat; split; [cbn; tauto | window_bounds].
Qed.

Lemma frozen_window_outside (ts : Z) (i : nat) : coveredByWindows now ts = false ->
  In i loopIndices -> inDay (frozen now) i ts = false.
Proof.
  intros H Hi. cbn in Hi.
  destruct Hi as [<- | [<- | [<- | [<- | [<- | [<- | [<- | []]]]]]]];
    window_bounds.
Qed.

End FrozenWindows.

Section ExactCounting.
Context {A : Type}.

Lemma hits_at_least_one (b : nat -> A -> bool) (x : A) (l : list nat) (i : nat) :
  In i l -> b i x = true -> (1 <= list_sum (map (hit b x) l))%nat.
Proof.
  induction l as [| k l IH]; intros Hin Hb; [contradiction |].
  rewrite map_cons, list_sum_cons. destruct Hin as [-> | Hin].
  - unfold hit at 1. rewrite Hb. lia.
  - specialize (IH Hin Hb). lia.
Qed.

Lemma counts_exact (b : nat -> A -> bool) (c : A -> bool) (idx : list nat)
  (l : list A) :
  (forall x, list_sum (map (hit b x) idx) = if c x then 1%nat else 0%nat) ->
  list_sum (map (fun i => List.length (filter (b i) l)) idx)
  = List.length (filter c l).
Proof.
  intros Hhit. induction l as [| x l IH].
  - now rewrite counts_of_nil.
  - assert (E : map (fun i => List.length (filter (b i) (x :: l))) idx
               = map (fun i => hit b x i + List.length (filter (b i) l))%nat idx).
    { apply map_ext. intros i. cbn. unfold hit. now destruct (b i x). }
    rewrite E, list_sum_map_add, IH, Hhit. cbn [filter].
    destruct (c x); reflexivity.
Qed.

End ExactCounting.

(** With every clock reading equal to [now], the per-day counts of the
    posture trend add up to the number of collected records from six days
    back up to one day ahead. *)
Lemma posture_day_counts_frozen (now : Z) (sessions : list Posture.Session) :
  list_sum (postureDayCounts (frozen now) sessions)
  = countBy (fun s => coveredByWindows now (Posture.timestamp s)) sessions.
Proof.
  unfold postureDayCounts, PostureStats.daySessions, countBy.
  rewrite (counts_exact (fun i s => inDay (frozen now) i (Posture.timestamp s))
             (fun s => coveredByWindows now (Posture.timestamp s))).
  - unfold PostureStats.recentSessions. apply f_equal, filter_implied.
    intros s Hs. destruct (frozen_window_covers now _ Hs) as (i & Hi & Hin).
    apply (day_is_recent (frozen now) (frozen_monotone now) i);
      [now apply loopIndices_le | assumption].
  - intros s. destruct (coveredByWindows now (Posture.timestamp s)) eqn:Hc.
    + destruct (frozen_window_covers now _ Hc) as (i & Hi & Hin).
      pose proof (hits_at_least_one
                    (fun i s => inDay (frozen now) i (Posture.timestamp s))
                    s loopIndices i Hi Hin).
      pose proof (hits_at_most_one
                    (fun i s => inDay (frozen now) i (Posture.timestamp s))
                    s loopIndices loopIndices_NoDup
                    (fun i j Hij =>
                       windows_disjoint (frozen now) (frozen_monotone now)
                         i j _ Hij)).
      lia.
    + apply hits_zero. intros i Hi. now apply frozen_window_outside.
Qed.

(** C4 (as stated) fails on the empty record set: the early return hands
    back an empty trend, not seven entries. *)
Lemma trend_claim_fails_on_empty :
  ~ postureTrendCoversWeek (frozen Inputs.now) [].
Proof. intros [Hlen _]. discriminate Hlen. Qed.

(** The same for the gait aggregator. *)
Example gait_trend_claim_fails_on_empty :
  ~ gaitTrendCoversWeek (frozen Inputs.now) [].
Proof. intros [Hlen _]. discriminate Hlen. Qed.

(** A record written six and a half days ago is among the records of the
    last 7 days but in none of the seven day windows, which reach from six
    days back to one day ahead. *)
Example trend_misses_the_seventh_day :
  List.length (PostureStats.recentSessions (frozen Inputs.now) Inputs.stalePosture) = 1%nat
  /\ postureDayCounts (frozen Inputs.now) Inputs.stalePosture = [0; 0; 0; 0; 0; 0; 0]%nat
  /\ List.length (GaitStats.recentSessions (frozen Inputs.now) Inputs.staleGait) = 1%nat
  /\ gaitDayCounts (frozen Inputs.now) Inputs.staleGait = [0; 0; 0; 0; 0; 0; 0]%nat
  /\ dayStart (frozen Inputs.now) 6 = (Inputs.now - 6 * DAY)%Z
  /\ dayEnd (frozen Inputs.now) 0 = (Inputs.now + DAY)%Z.
Proof. repeat split; vm_compute; reflexivity. Qed.

(** C4 (amended).  Under a clock that does not run backwards, each
    aggregator returns exactly seven trend entries for a non-empty record
    set, one per iteration of the loop in the order 6, ..., 0, and none
    for an empty one; the per-day record counts add up to at most the
    number of records later than [weekAgo], because no record falls in two
    day windows. *)
Theorem weekly_trend_shape (clock : Clock)
  (postureTable : list Posture.Session) (gaitTable : list Gait.Session) :
  monotone clock ->
  (PostureStats.collect postureTable <> [] ->
     List.length (PostureStats.weeklyTrend
                    (PostureStats.getPostureStats clock postureTable)) = 7%nat
     /\ map PostureStats.date
            (PostureStats.weeklyTrend (PostureStats.getPostureStats clock postureTable))
        = map (dayStart clock) loopIndices)
  /\ (PostureStats.collect postureTable = [] ->
      PostureStats.weeklyTrend (PostureStats.getPostureStats clock postureTable) = [])
  /\ (list_sum (postureDayCounts clock (PostureStats.collect postureTable))
      <= List.length (PostureStats.recentSessions clock
                        (PostureStats.collect postureTable)))%nat
  /\ (GaitStats.collect gaitTable <> [] ->
      List.length (GaitStats.weeklyTrend
                     (GaitStats.getGaitStats clock gaitTable)) = 7%nat
      /\ map GaitStats.date
             (GaitStats.weeklyTrend (GaitStats.getGaitStats clock gaitTable))
         = map (dayStart clock) loopIndices)
  /\ (GaitStats.collect gaitTable = [] ->
      GaitStats.weeklyTrend (GaitStats.getGaitStats clock gaitTable) = [])
  /\ (list_sum (gaitDayCounts clock (GaitStats.collect gaitTable))
      <= List.length (GaitStats.recentSessions clock
                        (GaitStats.collect gaitTable)))%nat.
Proof.
  intros Hm.
  split.
  { intros Hne. rewrite (posture_trend_nonempty clock _ Hne).
    split; [reflexivity |]. now rewrite map_map. }
  split; [apply posture_trend_empty |].
  split; [now apply posture_day_counts_bounded |].
  split.
  { intros Hne. rewrite (gait_trend_nonempty clock _ Hne).
    split; [reflexivity |]. now rewrite map_map. }
  split; [apply gait_trend_empty |].
  now apply gait_day_counts_bounded.
Qed.

(** Witness of C4 (amended): four posture records, of which three fall in
    a day window, and three gait records. *)
Lemma weekly_trend_shape_witness :
  monotone (frozen Inputs.now)
  /\ List.length (PostureStats.weeklyTrend
                    (PostureStats.getPostureStats (frozen Inputs.now) Inputs.postureWeek)) = 7%nat
  /\ postureDayCounts (frozen Inputs.now) (PostureStats.collect Inputs.postureWeek)
     = [0; 0; 0; 0; 2; 1; 0]%nat
  /\ (list_sum (postureDayCounts (frozen Inputs.now) (PostureStats.collect Inputs.postureWeek))
      <= List.length (PostureStats.recentSessions (frozen Inputs.now)
                        (PostureStats.collect Inputs.postureWeek)))%nat
  /\ List.length (GaitStats.weeklyTrend
                    (GaitStats.getGaitStats (frozen Inputs.now) Inputs.gaitWeek)) = 7%nat.
Proof.
  assert (Hm : monotone (frozen Inputs.now)).
  { intros j k _. unfold frozen. lia. }
  destruct (weekly_trend_shape (frozen Inputs.now) Inputs.postureWeek Inputs.gaitWeek Hm)
    as (Hp & _ & Hsum & Hg & _ & _).
  split; [exact Hm |].
  split; [apply Hp; discriminate |].
  split; [vm_compute; reflexivity |].
  split; [exact Hsum |].
  apply Hg. discriminate.
Defined.

(** Among a single record the percentage of any label is 100 or 0. *)
Lemma pct_of_single {A : Type} (p : A -> bool) (x : A) :
  pctOrZero p [x] = lit 100 \/ pctOrZero p [x] = lit 0.
Proof.
  unfold pctOrZero, countBy. cbn [filter].
  destruct (p x); [left | right]; reflexivity.
Qed.

(** C5 (as stated) fails for the gait aggregator: for one normal record
    with symmetry 92 the day's entry carries 92, the mean symmetry, whereas
    the percentage of records with any given label is 0 or 100. *)
Lemma gait_trend_is_not_a_percentage :
  ~ exists goodLabel,
      gaitTrendIsGoodPct goodLabel (frozen Inputs.now) Inputs.oneNormalGait.
Proof.
  intros [goodLabel H].
  specialize (H 5%nat {| GaitStats.date := (Inputs.now - DAY)%Z;
                         GaitStats.symmetry := lit 92 |}).
  assert (Hday : gaitOfDay (frozen Inputs.now) (6 - 5)
                   (GaitStats.collect Inputs.oneNormalGait)
                 = [Inputs.gaitRecord (Inputs.now - Inputs.halfDay) "normal" (lit 92)]).
  { vm_compute. reflexivity. }
  rewrite Hday in H. cbn [GaitStats.symmetry] in H.
  assert (Hentry : lit 92 = pctOrZero (fun s => Gait.classification s =? goodLabel)
                     [Inputs.gaitRecord (Inputs.now - Inputs.halfDay) "normal" (lit 92)]).
  { apply H. vm_compute. reflexivity. }
  destruct (pct_of_single (fun s => Gait.classification s =? goodLabel)
              (Inputs.gaitRecord (Inputs.now - Inputs.halfDay) "normal" (lit 92)))
    as [E | E]; rewrite E in Hentry; vm_compute in Hentry; discriminate Hentry.
Qed.

(** C5 (amended).  Under a clock that does not run backwards and for a
    non-empty record set, entry [k] of the posture trend carries the
    rounded percentage of "good" records among the records whose timestamp
    falls in that entry's day window, 0 when there is none; entry [k] of
    the gait trend carries in [symmetry] the rounded mean symmetry score
    of the window's records, 0 when there is none. *)
Theorem trend_entry_values (clock : Clock)
  (postureTable : list Posture.Session) (gaitTable : list Gait.Session)
  (k : nat) :
  monotone clock ->
  (k < 7)%nat ->
  (PostureStats.collect postureTable <> [] ->
   nth_error (PostureStats.weeklyTrend
                (PostureStats.getPostureStats clock postureTable)) k
   = Some {| PostureStats.date := dayStart clock (6 - k);
             PostureStats.score :=
               pctOrZero PostureStats.isGood
                 (postureOfDay clock (6 - k) (PostureStats.collect postureTable)) |})
  /\ (GaitStats.collect gaitTable <> [] ->
      nth_error (GaitStats.weeklyTrend
                   (GaitStats.getGaitStats clock gaitTable)) k
      = Some {| GaitStats.date := dayStart clock (6 - k);
                GaitStats.symmetry :=
                  roundedMeanOrZero Gait.symmetryScore
                    (gaitOfDay clock (6 - k) (GaitStats.collect gaitTable)) |}).
Proof.
  intros Hm Hk. split; intros Hne.
  - rewrite (posture_trend_nonempty clock _ Hne), nth_error_map,
      (loopIndices_nth k Hk).
    cbn [option_map]. unfold PostureStats.trendEntry.
    rewrite posture_dayScore_pct, posture_daySessions_all by (assumption || lia).
    reflexivity.
  - rewrite (gait_trend_nonempty clock _ Hne), nth_error_map,
      (loopIndices_nth k Hk).
    cbn [option_map]. unfold GaitStats.trendEntry.
    rewrite gait_daySymmetry_mean, gait_daySessions_all by (assumption || lia).
    reflexivity.
Qed.

(** Witness of C5 (amended): the window two iterations before the last
    holds one good and one poor posture record, score 50, and gait records
    with symmetry 90 and 61, mean 75.5, rounded 76. *)
Lemma trend_entry_values_witness :
  monotone (frozen Inputs.now)
  /\ (4 < 7)%nat
  /\ option_map PostureStats.score
       (nth_error (PostureStats.weeklyTrend
                     (PostureStats.getPostureStats (frozen Inputs.now) Inputs.postureWeek)) 4)
     = Some (lit 50)
  /\ option_map GaitStats.symmetry
       (nth_error (GaitStats.weeklyTrend
                     (GaitStats.getGaitStats (frozen Inputs.now) Inputs.gaitWeek)) 4)
     = Some (lit 76).
Proof.
  assert (Hm : monotone (frozen Inputs.now)).
  { intros j k _. unfold frozen. lia. }
  assert (Hk : (4 < 7)%nat) by lia.
  destruct (trend_entry_values (frozen Inputs.now) Inputs.postureWeek Inputs.gaitWeek
              4 Hm Hk) as [Hp Hg].
  split; [exact Hm |]. split; [exact Hk |].
  rewrite Hp, Hg by discriminate.
  split; vm_compute; reflexivity.
Defined.

(** ** The report composer against the dashboard aggregator *)

Section Comparisons.

Lemma SFcompare_antisym (x y : number) :
  SFcompare x y = option_map CompOpp (SFcompare y x).
Proof.
  destruct x as [sx | sx | | sx mx ex], y as [sy | sy | | sy my ey];
    try reflexivity;
    try (destruct sx; reflexivity); try (destruct sy; reflexivity);
    try (destruct sx, sy; reflexivity).
  cbn. destruct sx, sy; cbn; try reflexivity;
    rewrite (Z.compare_antisym ey ex);
    destruct (ey ?= ex)%Z; cbn; try reflexivity;
    rewrite (Pos.compare_cont_antisym my mx Eq); cbn;
    try rewrite CompOpp_involutive; reflexivity.
Qed.

(** [x > y] excludes [x <= y]. *)
Lemma gt_not_le (x y : number) : JS.gt x y = true -> JS.le x y = false.
Proof.
  unfold JS.gt, JS.le, SFltb, SFleb. rewrite (SFcompare_antisym x y).
  destruct (SFcompare y x) as [[| |] |]; cbn; congruence.
Qed.

Lemma le_not_gt (x y : number) : JS.le x y = true -> JS.gt x y = false.
Proof.
  intros H. destruct (JS.gt x y) eqn:E; [| reflexivity].
  rewrite (gt_not_le _ _ E) in H. discriminate.
Qed.

End Comparisons.

Section SliceLast.
Context {A : Type}.




End SliceLast.

Section ReportVersusDashboard.
Import Posture.

Lemma validSessions_spec (l : list Session) :
  Forall (fun s => JS.gt (forwardHeadAngle s) (lit 30) = false) (Reports.validSessions l).
Proof.
  unfold Reports.validSessions. apply Forall_forall. intros s Hs.
  apply filter_In in Hs as [_ Hle]. now apply le_not_gt.
Qed.



Lemma totalSessions_length clock (l : list Session) :
  PostureStats.totalSessions (PostureStats.statsOf clock l) = List.length l.
Proof. unfold PostureStats.statsOf. destruct l; reflexivity. Qed.





Lemma howMany_cons {A : Type} (p : A -> bool) (x : A) (l : list A) :
  howMany p (x :: l) = ((if p x then 1 else 0) + howMany p l)%nat.
Proof. reflexivity. Qed.

Lemma howMany_ext {A : Type} (p q : A -> bool) (l : list A) :
  (forall x, p x = q x) -> howMany p l = howMany q l.
Proof.
  intros H. unfold howMany. f_equal. apply map_ext. intros x. now rewrite H.
Qed.






(** The counter table. *)
Lemma own_set (k k' : string) (v : Obj.value) (obj : Obj.object) :
  Obj.own k (Obj.set k' v obj) = if k' =? k then Some v else Obj.own k obj.
Proof.
  unfold Obj.own. induction obj as [| [a w] obj IH]; cbn [Obj.set find fst snd].
  - rewrite String.eqb_sym. now destruct (k =? k').
  - destruct (String.eqb_spec a k') as [-> | Hne]; cbn [find fst snd].
    + now destruct (k' =? k).
    + destruct (String.eqb_spec a k) as [-> | Hne'].
      * destruct (String.eqb_spec k' k); [congruence | reflexivity].
      * exact IH.
Qed.

Lemma plainKey_not_proto (k : string) : plainKey k = true -> ("__proto__" =? k) = false.
Proof.
  unfold plainKey. intros H. destruct (String.eqb_spec "__proto__" k) as [<- | Hne];
    [discriminate H | reflexivity].
Qed.

Lemma lookupCount_bump (k k' : string) (obj : Obj.object) (n : nat) :
  plainKey k = true ->
  lookupCount k obj = Some n ->
  lookupCount k (Obj.bump k' obj) = Some (if k' =? k then S n else n).
Proof.
  intros Hplain Hn. unfold Obj.bump.
  destruct (String.eqb_spec k' "__proto__") as [-> | Hproto].
  - now rewrite (plainKey_not_proto k Hplain).
  - unfold lookupCount in *. rewrite own_set.
    destruct (String.eqb_spec k' k) as [-> | Hne]; [| exact Hn].
    unfold Obj.next. destruct (Obj.own k obj) as [[m |] |].
    + now injection Hn as ->.
    + discriminate Hn.
    + unfold plainKey in Hplain. apply negb_true_iff in Hplain. rewrite Hplain.
      now injection Hn as <-.
Qed.

Section Tally.
Context {A : Type} (keyOf : A -> option string).

Lemma tally_lookup (k : string) (l : list A) (acc : Obj.object) (n : nat) :
  plainKey k = true ->
  lookupCount k acc = Some n ->
  lookupCount k
    (fold_left (fun acc s => match keyOf s with
                             | Some p => Obj.bump p acc
                             | None => acc
                             end) l acc)
  = Some (n + howMany (fun s => match keyOf s with
                                | Some p => (p =? k)%string
                                | None => false
                                end) l)%nat.
Proof.
  intros Hplain. revert acc n.
  induction l as [| s l IH]; intros acc n Hn; cbn [fold_left].
  - unfold howMany. cbn. now rewrite Nat.add_0_r.
  - rewrite howMany_cons. destruct (keyOf s) as [p |].
    + rewrite (IH _ _ (lookupCount_bump k p acc n Hplain Hn)).
      f_equal. destruct (p =? k); lia.
    + rewrite (IH _ _ Hn). f_equal.
Qed.

End Tally.


Lemma sittingPositionStats_count (sessions : list Session) (k : string) :
  plainKey k = true -> k <> EmptyString ->
  lookupCount k (PostureStats.sittingPositionStatsOf sessions)
  = Some (howMany (fun s => match sittingPosition s with
                            | Some p => p =? k
                            | None => false
                            end) sessions).
Proof.
  intros Hplain Hk. unfold PostureStats.sittingPositionStatsOf.
  rewrite (tally_lookup (fun s => PostureStats.nonEmptyString (sittingPosition s))
             k sessions [] 0 Hplain eq_refl).
  cbn [Nat.add]. f_equal. unfold howMany. f_equal. apply map_ext. intros s.
  unfold PostureStats.nonEmptyString. destruct (sittingPosition s) as [p |];
    [| reflexivity].
  destruct p as [| c p]; cbn [String.length Nat.eqb]; [| reflexivity].
  destruct (String.eqb_spec EmptyString k); [congruence | reflexivity].
Qed.








End ReportVersusDashboard.

(** * Further properties of the handlers *)

(** ** The store *)

Section ListFacts.
Context {X : Type}.

Lemma filter_filter_and (p q : X -> bool) (l : list X) :
  filter p (filter q l) = filter (fun x => q x && p x) l.
Proof.
  induction l as [| x l IH]; cbn; [reflexivity |].
  destruct (q x); cbn; [destruct (p x) |]; now rewrite IH.
Qed.

Lemma NoDup_map_filter {Y : Type} (f : X -> Y) (p : X -> bool) (l : list X) :
  NoDup (map f l) -> NoDup (map f (filter p l)).
Proof.
  induction l as [| x l IH]; cbn; intros H; [constructor |].
  inversion H as [| ? ? Hnin Hnd]; subst.
  destruct (p x); cbn; [constructor |]; auto.
  intros Hin. apply Hnin. apply in_map_iff in Hin as (y & Hy & Hin).
  apply filter_In in Hin as [Hin _]. rewrite <- Hy. now apply in_map.
Qed.

Lemma find_app_first (p : X -> bool) (l1 l2 : list X) :
  find p (l1 ++ l2)
  = match find p l1 with Some x => Some x | None => find p l2 end.
Proof.
  induction l1 as [| x l1 IH]; cbn; [reflexivity |].
  destruct (p x); [reflexivity | exact IH].
Qed.

Lemma filter_true (l : list X) : filter (fun _ => true) l = l.
Proof. induction l as [| x l IH]; cbn; [reflexivity | now rewrite IH]. Qed.

End ListFacts.

Section StoreFacts.
Import Store.
Context {A : Type}.

Lemma same_id_same_doc (l : list (Doc A)) (a b : Doc A) :
  NoDup (map _id l) -> In a l -> In b l -> _id a = _id b -> a = b.
Proof.
  induction l as [| x l IH]; cbn; intros Hnd Ha Hb Hid; [contradiction |].
  inversion Hnd as [| ? ? Hnin Hnd']; subst.
  destruct Ha as [-> | Ha], Hb as [-> | Hb]; auto.
  - exfalso. apply Hnin. rewrite Hid. now apply in_map.
  - exfalso. apply Hnin. rewrite <- Hid. now apply in_map.
Qed.

Lemma empty_wellFormed : wellFormed (@empty A).
Proof. split; constructor. Qed.

Lemma insert_wellFormed (t : Table A) (a : A) :
  wellFormed t -> wellFormed (snd (insert t a)).
Proof.
  intros [Hnd Hlt]. split; cbn.
  - rewrite map_app. cbn.
    apply NoDup_app; [assumption | constructor; [intros [] | constructor] |].
    intros i Hi [<- | []]. apply in_map_iff in Hi as (d & Hd & Hin).
    rewrite Forall_forall in Hlt. specialize (Hlt d Hin). lia.
  - apply Forall_app. split.
    + eapply Forall_impl; [| exact Hlt]. cbn. intros d Hd. lia.
    + constructor; [cbn; lia | constructor].
Qed.

Lemma delete_wellFormed (t : Table A) (id : nat) :
  wellFormed t -> wellFormed (delete t id).
Proof.
  intros [Hnd Hlt]. split; cbn.
  - now apply NoDup_map_filter.
  - rewrite Forall_forall in *. intros d Hd.
    apply filter_In in Hd as [Hd _]. auto.
Qed.

Lemma deleteEach_wellFormed (found : list (Doc A)) (t : Table A) :
  wellFormed t -> wellFormed (deleteEach found t).
Proof.
  revert t. induction found as [| f found IH]; intros t Hwf; cbn; [assumption |].
  apply IH. now apply delete_wellFormed.
Qed.

(** A loop of deletions removes the documents whose id is the id of one
    of the documents found. *)
Lemma deleteEach_docs (found : list (Doc A)) (t : Table A) :
  docs (deleteEach found t)
  = filter (fun d => negb (existsb (fun f => (_id f =? _id d)%nat) found)) (docs t).
Proof.
  revert t. induction found as [| f found IH]; intros t.
  - cbn. now rewrite filter_true.
  - change (deleteEach (f :: found) t) with (deleteEach found (delete t (_id f))).
    rewrite IH. cbn [delete docs existsb]. rewrite filter_filter_and.
    apply filter_ext. intros d. rewrite negb_orb, (Nat.eqb_sym (_id f)).
    reflexivity.
Qed.

Lemma deleteEach_nextId (found : list (Doc A)) (t : Table A) :
  nextId (deleteEach found t) = nextId t.
Proof.
  revert t. induction found as [| f found IH]; intros t; [reflexivity |].
  change (deleteEach (f :: found) t) with (deleteEach found (delete t (_id f))).
  now rewrite IH.
Qed.

(** With unique ids, deleting the documents selected by [p] leaves exactly
    the documents [p] rejects. *)
Lemma deleteEach_selected (p : Doc A -> bool) (t : Table A) :
  NoDup (map _id (docs t)) ->
  docs (deleteEach (filter p (docs t)) t) = filter (fun d => negb (p d)) (docs t).
Proof.
  intros Hnd. rewrite deleteEach_docs. apply filter_ext_in. intros d Hd.
  f_equal. destruct (p d) eqn:Hp.
  - apply existsb_exists. exists d. split; [now apply filter_In |].
    apply Nat.eqb_refl.
  - destruct (existsb _ _) eqn:He; [| reflexivity].
    apply existsb_exists in He as (f & Hf & Hid).
    apply filter_In in Hf as [Hf Hpf]. apply Nat.eqb_eq in Hid.
    rewrite (same_id_same_doc _ f d Hnd Hf Hd Hid) in Hpf. congruence.
Qed.

Lemma get_insert_new (t : Table A) (a : A) :
  wellFormed t ->
  get (snd (insert t a)) (fst (insert t a)) = Some {| _id := nextId t; value := a |}.
Proof.
  intros [_ Hlt]. unfold get. cbn. rewrite find_app_first.
  assert (Hnone : find (fun d => (_id d =? nextId t)%nat) (docs t) = None).
  { rewrite Forall_forall in Hlt.
    destruct (find _ (docs t)) as [d |] eqn:E; [| reflexivity].
    apply find_some in E as [Hin Heq]. apply Nat.eqb_eq in Heq.
    specialize (Hlt d Hin). lia. }
  rewrite Hnone. cbn. now rewrite Nat.eqb_refl.
Qed.

Lemma get_insert_old (t : Table A) (a : A) (id : nat) :
  id <> nextId t -> get (snd (insert t a)) id = get t id.
Proof.
  intros Hne. unfold get. cbn. rewrite find_app_first.
  destruct (find _ (docs t)); [reflexivity |].
  cbn. destruct (Nat.eqb_spec (nextId t) id); [congruence | reflexivity].
Qed.

Lemma get_delete_same (t : Table A) (id : nat) : get (delete t id) id = None.
Proof.
  unfold get. cbn.
  destruct (find _ _) as [d |] eqn:E; [| reflexivity].
  apply find_some in E as [Hin Heq]. apply filter_In in Hin as [_ Hne].
  rewrite Heq in Hne. discriminate.
Qed.

Lemma get_delete_other (t : Table A) (id id' : nat) :
  id' <> id -> get (delete t id) id' = get t id'.
Proof.
  intros Hne. unfold get. cbn.
  induction (docs t) as [| d l IH]; cbn; [reflexivity |].
  destruct (Nat.eqb_spec (_id d) id) as [E | E]; cbn.
  - destruct (Nat.eqb_spec (_id d) id'); [congruence | exact IH].
  - destruct (_id d =? id')%nat; [reflexivity | exact IH].
Qed.

Lemma get_In (t : Table A) (id : nat) (d : Doc A) :
  get t id = Some d -> In d (docs t) /\ _id d = id.
Proof.
  unfold get. intros H. apply find_some in H as [Hin Heq].
  split; [assumption | now apply Nat.eqb_eq].
Qed.

End StoreFacts.

(** ** Index order *)

Section IndexOrder.
Import Store.
Context {A : Type}.
Variable key : A -> Z.

Lemma insertAsc_perm (x : A) (l : list A) :
  Permutation (insertAsc key x l) (x :: l).
Proof.
  induction l as [| y l IH]; cbn; [reflexivity |].
  destruct (key x <=? key y)%Z; [reflexivity |].
  rewrite IH. apply perm_swap.
Qed.

Lemma indexOrder_perm (l : list A) : Permutation (indexOrder key l) l.
Proof.
  induction l as [| x l IH]; cbn; [reflexivity |].
  rewrite insertAsc_perm. now constructor.
Qed.

Lemma insertAsc_sorted (x : A) (l : list A) :
  StronglySorted (fun a b => (key a <= key b)%Z) l ->
  StronglySorted (fun a b => (key a <= key b)%Z) (insertAsc key x l).
Proof.
  induction 1 as [| y l Hs IH Hall]; cbn; [repeat constructor |].
  destruct (Z.leb_spec (key x) (key y)) as [Hle | Hgt].
  - constructor; [now constructor |].
    constructor; [assumption |].
    eapply Forall_impl; [| exact Hall]. cbn. intros z Hz. lia.
  - constructor; [assumption |].
    apply (Permutation_Forall (Permutation_sym (insertAsc_perm x l))).
    constructor; [lia | assumption].
Qed.

Lemma indexOrder_sorted (l : list A) :
  StronglySorted (fun a b => (key a <= key b)%Z) (indexOrder key l).
Proof.
  induction l as [| x l IH]; cbn; [constructor |].
  now apply insertAsc_sorted.
Qed.

Lemma sorted_snoc (R : A -> A -> Prop) (l : list A) (x : A) :
  StronglySorted R l -> Forall (fun y => R y x) l -> StronglySorted R (l ++ [x]).
Proof.
  induction 1 as [| y l Hs IH Hall]; cbn; intros Hx; [repeat constructor |].
  inversion Hx as [| ? ? Hyx Hlx]; subst.
  constructor; [auto |].
  apply Forall_app. split; [assumption | now repeat constructor].
Qed.

Lemma sorted_rev (R : A -> A -> Prop) (l : list A) :
  StronglySorted R l -> StronglySorted (fun a b => R b a) (rev l).
Proof.
  induction 1 as [| y l Hs IH Hall]; cbn; [constructor |].
  apply sorted_snoc; [assumption |].
  apply Forall_forall. intros z Hz. apply in_rev in Hz.
  rewrite Forall_forall in Hall. auto.
Qed.

Lemma orderDesc_newestFirst (l : list A) : newestFirst key (orderDesc key l).
Proof. unfold newestFirst, orderDesc. apply sorted_rev, indexOrder_sorted. Qed.

Lemma orderDesc_perm (l : list A) : Permutation (orderDesc key l) l.
Proof.
  unfold orderDesc. rewrite <- Permutation_rev. apply indexOrder_perm.
Qed.

Lemma sorted_firstn (R : A -> A -> Prop) (n : nat) (l : list A) :
  StronglySorted R l -> StronglySorted R (firstn n l).
Proof.
  intros H. revert n. induction H as [| y l Hs IH Hall]; intros [| n]; cbn;
    try constructor; auto.
  now apply Forall_firstn.
Qed.

Lemma sorted_app_cross (R : A -> A -> Prop) (l1 l2 : list A) (a b : A) :
  StronglySorted R (l1 ++ l2) -> In a l1 -> In b l2 -> R a b.
Proof.
  induction l1 as [| y l1 IH]; cbn; intros Hs Ha Hb; [contradiction |].
  inversion Hs as [| ? ? Hs' Hall]; subst.
  destruct Ha as [-> | Ha]; [| now apply IH].
  rewrite Forall_forall in Hall. apply Hall, in_or_app. now right.
Qed.

Lemma insertAsc_snoc (a x : A) (l : list A) : (key a <= key x)%Z ->
  insertAsc key a (l ++ [x]) = insertAsc key a l ++ [x].
Proof.
  intros Hax. induction l as [| y l IH]; cbn.
  - destruct (Z.leb_spec (key a) (key x)); [reflexivity | lia].
  - destruct (key a <=? key y)%Z; [reflexivity | now rewrite IH].
Qed.

Lemma indexOrder_snoc (l : list A) (x : A) :
  (forall y, In y l -> (key y <= key x)%Z) ->
  indexOrder key (l ++ [x]) = indexOrder key l ++ [x].
Proof.
  induction l as [| a l IH]; intros H; [reflexivity |].
  change (indexOrder key ((a :: l) ++ [x]))
    with (insertAsc key a (indexOrder key (l ++ [x]))).
  rewrite IH by (intros y Hy; apply H; now right).
  apply insertAsc_snoc, H. now left.
Qed.

(** A document whose key is at least every stored key comes first when it
    is inserted last. *)
Lemma orderDesc_snoc (l : list A) (x : A) :
  (forall y, In y l -> (key y <= key x)%Z) ->
  orderDesc key (l ++ [x]) = x :: orderDesc key l.
Proof.
  intros H. unfold orderDesc. rewrite (indexOrder_snoc l x H), rev_app_distr.
  reflexivity.
Qed.

(** The first [n] of the descending order: as many as asked for or as
    there are, newest first, taken from the list, and no element left out
    is newer than one taken. *)
Lemma top_spec (n : nat) (l : list A) :
  List.length (firstn n (orderDesc key l)) = Nat.min n (List.length l)
  /\ newestFirst key (firstn n (orderDesc key l))
  /\ (forall d, In d (firstn n (orderDesc key l)) -> In d l)
  /\ (forall d d', In d l -> ~ In d (firstn n (orderDesc key l)) ->
        In d' (firstn n (orderDesc key l)) -> (key d <= key d')%Z).
Proof.
  split.
  { rewrite length_firstn, (Permutation_length (orderDesc_perm l)). reflexivity. }
  split.
  { apply sorted_firstn, orderDesc_newestFirst. }
  split.
  { intros d Hd. apply (Permutation_in d (orderDesc_perm l)).
    rewrite <- (firstn_skipn n (orderDesc key l)). apply in_or_app. now left. }
  intros d d' Hd Hout Hin.
  assert (Hall : In d (orderDesc key l)).
  { apply (Permutation_in d (Permutation_sym (orderDesc_perm l))), Hd. }
  rewrite <- (firstn_skipn n (orderDesc key l)) in Hall.
  apply in_app_or in Hall as [Hl | Hr]; [contradiction |].
  pose proof (orderDesc_newestFirst l) as Hs. unfold newestFirst in Hs.
  rewrite <- (firstn_skipn n (orderDesc key l)) in Hs.
  exact (sorted_app_cross _ _ _ d' d Hs Hin Hr).
Qed.

End IndexOrder.

(** ** The history queries *)

Section History.
Import Store.

Lemma ofUser_In {A : Type} (user : A -> string) (t : Table A) (d : Doc A) :
  In d (Db.ofUser user t) <-> In d (docs t) /\ user (value d) = Posture.anonymous.
Proof.
  unfold Db.ofUser. rewrite filter_In, String.eqb_eq. reflexivity.
Qed.

(** X1.  When the history queries answer, each answer holds the asked-for
    number of the caller's documents (all of them when there are fewer),
    newest first, and no document left out is newer than one returned. *)
Theorem history_newest_first
  (limit : option number) (t : Table Posture.Session) (l : list (Doc Posture.Session))
  (limit' : option number) (t' : Table Gait.Session) (l' : list (Doc Gait.Session)) :
  Db.getPostureHistory limit t = Some l ->
  Db.getGaitHistory limit' t' = Some l' ->
  (exists n, toCount (orDefault limit 50) = Some n
     /\ List.length l = Nat.min n (List.length (Db.ofUser Posture.userId t)))
  /\ newestFirst postureTime l
  /\ (forall d, In d l ->
        In d (docs t) /\ Posture.userId (value d) = Posture.anonymous)
  /\ (forall d d', In d (Db.ofUser Posture.userId t) -> ~ In d l -> In d' l ->
        (postureTime d <= postureTime d')%Z)
  /\ (exists n, toCount (orDefault limit' 50) = Some n
        /\ List.length l' = Nat.min n (List.length (Db.ofUser Gait.userId t')))
  /\ newestFirst gaitTime l'
  /\ (forall d, In d l' ->
        In d (docs t') /\ Gait.userId (value d) = Gait.anonymous)
  /\ (forall d d', In d (Db.ofUser Gait.userId t') -> ~ In d l' -> In d' l' ->
        (gaitTime d <= gaitTime d')%Z).
Proof.
  unfold Db.getPostureHistory, Db.getGaitHistory. intros Hp Hg.
  destruct (toCount (orDefault limit 50)) as [n |]; [| discriminate].
  destruct (toCount (orDefault limit' 50)) as [n' |]; [| discriminate].
  injection Hp as <-. injection Hg as <-.
  destruct (top_spec (fun d => Posture.timestamp (value d)) n
              (Db.ofUser Posture.userId t)) as (Hlen & Hsort & Hin & Htop).
  destruct (top_spec (fun d => Gait.timestamp (value d)) n'
              (Db.ofUser Gait.userId t')) as (Hlen' & Hsort' & Hin' & Htop').
  split; [exists n; auto |]. split; [exact Hsort |].
  split; [intros d Hd; now apply ofUser_In, Hin |].
  split; [exact Htop |].
  split; [exists n'; auto |]. split; [exact Hsort' |].
  split; [intros d Hd; now apply (ofUser_In Gait.userId), Hin' |].
  exact Htop'.
Qed.

(** Witness of X1: of three posture documents the two newest, and both
    gait documents when ten are asked for. *)
Lemma history_newest_first_witness :
  Db.getPostureHistory (Some (lit 2)) MoreInputs.postureTable
  = Some [ {| _id := 1;
              value := Inputs.postureRecord (Inputs.now - 1000) "poor" (lit 45) None |};
           {| _id := 2;
              value := Inputs.postureRecord (Inputs.now - 2000) "fair" (lit 12) None |} ]
  /\ Db.getGaitHistory (Some (lit 10)) MoreInputs.gaitTable
     = Some [ {| _id := 1;
                 value := Inputs.gaitRecord (Inputs.now - 1000) "asymmetric" (lit 61) |};
              {| _id := 0;
                 value := Inputs.gaitRecord (Inputs.now - 3000) "normal" (lit 90) |} ]
  /\ newestFirst postureTime
       [ {| _id := 1;
            value := Inputs.postureRecord (Inputs.now - 1000) "poor" (lit 45) None |};
         {| _id := 2;
            value := Inputs.postureRecord (Inputs.now - 2000) "fair" (lit 12) None |} ].
Proof.
  assert (Hp : Db.getPostureHistory (Some (lit 2)) MoreInputs.postureTable
               = Some [ {| _id := 1;
                           value := Inputs.postureRecord (Inputs.now - 1000) "poor" (lit 45) None |};
                        {| _id := 2;
                           value := Inputs.postureRecord (Inputs.now - 2000) "fair" (lit 12) None |} ])
    by (vm_compute; reflexivity).
  assert (Hg : Db.getGaitHistory (Some (lit 10)) MoreInputs.gaitTable
               = Some [ {| _id := 1;
                           value := Inputs.gaitRecord (Inputs.now - 1000) "asymmetric" (lit 61) |};
                        {| _id := 0;
                           value := Inputs.gaitRecord (Inputs.now - 3000) "normal" (lit 90) |} ])
    by (vm_compute; reflexivity).
  split; [exact Hp |]. split; [exact Hg |].
  exact (proj1 (proj2 (history_newest_first _ _ _ _ _ _ Hp Hg))).
Defined.

(** X2.  A limit that is absent, zero or [NaN] is replaced by 50: asking
    for zero documents returns up to fifty. *)
Theorem history_default_limit
  (t : Table Posture.Session) (t' : Table Gait.Session) (sign : bool) :
  Db.getPostureHistory None t
  = Some (firstn 50 (orderDesc postureTime (Db.ofUser Posture.userId t)))
  /\ Db.getPostureHistory (Some (S754_zero sign)) t = Db.getPostureHistory None t
  /\ Db.getPostureHistory (Some JS.NaN) t = Db.getPostureHistory None t
  /\ Db.getGaitHistory None t'
     = Some (firstn 50 (orderDesc gaitTime (Db.ofUser Gait.userId t')))
  /\ Db.getGaitHistory (Some (S754_zero sign)) t' = Db.getGaitHistory None t'
  /\ Db.getGaitHistory (Some JS.NaN) t' = Db.getGaitHistory None t'.
Proof. repeat split. Qed.

End History.

(** ** Storing a sample and reading it back *)

Section RoundTrip.
Import Store.

Lemma count_one : toCount (orDefault (Some (lit 1)) 50) = Some 1%nat.
Proof. reflexivity. Qed.

(** X3.  [analyzePosture] stores one document under the returned id; its
    classification and recommendations are those of the classifier on the
    sample and those returned; when no stored document of the caller is
    later than [now] it is the first document of the history query; the
    documents stored before are untouched. *)
Theorem analyzePosture_round_trip (now : Z) (args : Posture.Args)
  (t : Table Posture.Session) :
  wellFormed t ->
  (forall d, In d (Db.ofUser Posture.userId t) -> (postureTime d <= now)%Z) ->
  exists doc,
    get (snd (Db.analyzePosture now args t))
        (Posture.r_sessionId (fst (Db.analyzePosture now args t))) = Some doc
    /\ Posture.classification (value doc) = Posture.label (Posture.classify args)
    /\ Posture.recommendations (value doc) = Posture.advice (Posture.classify args)
    /\ Posture.r_classification (fst (Db.analyzePosture now args t))
       = Posture.classification (value doc)
    /\ Posture.r_recommendations (fst (Db.analyzePosture now args t))
       = Posture.recommendations (value doc)
    /\ Posture.timestamp (value doc) = now
    /\ Db.getPostureHistory (Some (lit 1)) (snd (Db.analyzePosture now args t))
       = Some [doc]
    /\ (forall id, id <> Posture.r_sessionId (fst (Db.analyzePosture now args t)) ->
          get (snd (Db.analyzePosture now args t)) id = get t id)
    /\ values (snd (Db.analyzePosture now args t))
       = snd (Posture.analyzePosture now args (values t))
    /\ wellFormed (snd (Db.analyzePosture now args t)).
Proof.
  intros Hwf Hnow.
  set (s := Posture.toSession now args (Posture.classify args)).
  exists {| _id := nextId t; value := s |}.
  change (snd (Db.analyzePosture now args t)) with (snd (insert t s)).
  change (Posture.r_sessionId (fst (Db.analyzePosture now args t)))
    with (fst (insert t s)).
  split; [now apply get_insert_new |].
  do 5 (split; [reflexivity |]).
  split.
  { unfold Db.getPostureHistory. rewrite count_one. f_equal.
    assert (E : Db.ofUser Posture.userId (snd (insert t s))
                = Db.ofUser Posture.userId t ++ [{| _id := nextId t; value := s |}]).
    { unfold Db.ofUser. cbn [insert snd docs]. now rewrite filter_app. }
    rewrite E, orderDesc_snoc; [reflexivity |].
    intros y Hy. apply Hnow, Hy. }
  split; [intros id Hid; now apply get_insert_old |].
  split.
  { unfold values. cbn [insert snd docs]. now rewrite map_app. }
  now apply insert_wellFormed.
Qed.

(** Witness of X3: the slouching sample stored into the three-document
    table comes back first, classified "poor". *)
Lemma analyzePosture_round_trip_witness :
  wellFormed MoreInputs.postureTable
  /\ (forall d, In d (Db.ofUser Posture.userId MoreInputs.postureTable) ->
        (postureTime d <= Inputs.now)%Z)
  /\ exists doc,
       Db.getPostureHistory (Some (lit 1))
         (snd (Db.analyzePosture Inputs.now Inputs.slouching MoreInputs.postureTable))
       = Some [doc]
       /\ Posture.classification (value doc) = "poor".
Proof.
  assert (Hwf : wellFormed MoreInputs.postureTable).
  { split; cbn; repeat constructor; cbn; intuition discriminate. }
  assert (Hnow : forall d, In d (Db.ofUser Posture.userId MoreInputs.postureTable) ->
                   (postureTime d <= Inputs.now)%Z).
  { cbn. intros d [<- | [<- | [<- | []]]]; vm_compute; discriminate. }
  split; [exact Hwf |]. split; [exact Hnow |].
  destruct (analyzePosture_round_trip Inputs.now Inputs.slouching
              MoreInputs.postureTable Hwf Hnow)
    as (doc & _ & Hcls & _ & _ & _ & _ & Hhist & _).
  exists doc. split; [exact Hhist |]. rewrite Hcls. reflexivity.
Defined.

(** X4.  The same for [analyzeGait] and the gait history. *)
Theorem analyzeGait_round_trip (now : Z) (args : Gait.Args)
  (t : Table Gait.Session) :
  wellFormed t ->
  (forall d, In d (Db.ofUser Gait.userId t) -> (gaitTime d <= now)%Z) ->
  exists doc,
    get (snd (Db.analyzeGait now args t))
        (Gait.r_sessionId (fst (Db.analyzeGait now args t))) = Some doc
    /\ Gait.classification (value doc) = Gait.label (Gait.classify args)
    /\ Gait.recommendations (value doc) = Gait.advice (Gait.classify args)
    /\ Gait.r_classification (fst (Db.analyzeGait now args t))
       = Gait.classification (value doc)
    /\ Gait.r_recommendations (fst (Db.analyzeGait now args t))
       = Gait.recommendations (value doc)
    /\ Gait.r_score (fst (Db.analyzeGait now args t))
       = Gait.symmetryScore (value doc)
    /\ Gait.timestamp (value doc) = now
    /\ Db.getGaitHistory (Some (lit 1)) (snd (Db.analyzeGait now args t))
       = Some [doc]
    /\ (forall id, id <> Gait.r_sessionId (fst (Db.analyzeGait now args t)) ->
          get (snd (Db.analyzeGait now args t)) id = get t id)
    /\ values (snd (Db.analyzeGait now args t))
       = snd (Gait.analyzeGait now args (values t))
    /\ wellFormed (snd (Db.analyzeGait now args t)).
Proof.
  intros Hwf Hnow.
  set (s := Gait.toSession now args (Gait.classify args)).
  exists {| _id := nextId t; value := s |}.
  change (snd (Db.analyzeGait now args t)) with (snd (insert t s)).
  change (Gait.r_sessionId (fst (Db.analyzeGait now args t)))
    with (fst (insert t s)).
  split; [now apply get_insert_new |].
  do 6 (split; [reflexivity |]).
  split.
  { unfold Db.getGaitHistory. rewrite count_one. f_equal.
    assert (E : Db.ofUser Gait.userId (snd (insert t s))
                = Db.ofUser Gait.userId t ++ [{| _id := nextId t; value := s |}]).
    { unfold Db.ofUser. cbn [insert snd docs]. now rewrite filter_app. }
    rewrite E, orderDesc_snoc; [reflexivity |].
    intros y Hy. apply Hnow, Hy. }
  split; [intros id Hid; now apply get_insert_old |].
  split.
  { unfold values. cbn [insert snd docs]. now rewrite map_app. }
  now apply insert_wellFormed.
Qed.

(** Witness of X4: the limping sample stored into the two-document table. *)
Lemma analyzeGait_round_trip_witness :
  wellFormed MoreInputs.gaitTable
  /\ (forall d, In d (Db.ofUser Gait.userId MoreInputs.gaitTable) ->
        (gaitTime d <= Inputs.now)%Z)
  /\ exists doc,
       Db.getGaitHistory (Some (lit 1))
         (snd (Db.analyzeGait Inputs.now Inputs.limping MoreInputs.gaitTable))
       = Some [doc]
       /\ Gait.classification (value doc) = "asymmetric".
Proof.
  assert (Hwf : wellFormed MoreInputs.gaitTable).
  { split; cbn; repeat constructor; cbn; intuition discriminate. }
  assert (Hnow : forall d, In d (Db.ofUser Gait.userId MoreInputs.gaitTable) ->
                   (gaitTime d <= Inputs.now)%Z).
  { cbn. intros d [<- | [<- | []]]; vm_compute; discriminate. }
  split; [exact Hwf |]. split; [exact Hnow |].
  destruct (analyzeGait_round_trip Inputs.now Inputs.limping
              MoreInputs.gaitTable Hwf Hnow)
    as (doc & _ & Hcls & _ & _ & _ & _ & _ & Hhist & _).
  exists doc. split; [exact Hhist |]. rewrite Hcls. reflexivity.
Defined.

End RoundTrip.

(** ** Bulk deletion *)

Section BulkDelete.
Import Store.

Lemma filter_map_commute {A B : Type} (f : A -> B) (p : B -> bool) (l : list A) :
  filter p (map f l) = map f (filter (fun x => p (f x)) l).
Proof.
  induction l as [| x l IH]; cbn; [reflexivity |].
  destruct (p (f x)); cbn; now rewrite IH.
Qed.

Lemma filter_none {A : Type} (p : A -> bool) (l : list A) :
  (forall x, In x l -> p x = false) -> filter p l = [].
Proof.
  induction l as [| x l IH]; cbn; intros H; [reflexivity |].
  rewrite (H x (or_introl eq_refl)). apply IH. intros y Hy. apply H. now right.
Qed.

Lemma filter_split_length {A : Type} (p : A -> bool) (l : list A) :
  List.length l
  = (List.length (filter p l) + List.length (filter (fun x => negb (p x)) l))%nat.
Proof.
  induction l as [| x l IH]; cbn; [reflexivity |].
  destruct (p x); cbn; lia.
Qed.

(** Above 30 in the database's order: a number above 30, or [NaN]. *)
Lemma gt_30 (x : number) :
  Store.gt x (lit 30) = JS.gt x (lit 30) || JS.isNaN x.
Proof.
  remember (lit 30) as h eqn:Eh. vm_compute in Eh. subst h.
  destruct x as [sx | sx | | sx m e]; cbn [Store.gt JS.isNaN];
    try (now rewrite orb_false_r); reflexivity.
Qed.

Lemma badSessions_filter (t : Table Posture.Session) :
  Db.badSessions t = filter (fun d => isBad (value d)) (docs t).
Proof.
  unfold Db.badSessions, Db.ofUser, isBad. rewrite filter_filter_and.
  apply filter_ext. intros d. now rewrite gt_30.
Qed.

Lemma cleanup_docs (t : Table Posture.Session) : wellFormed t ->
  docs (snd (Db.cleanupBadPostureData t))
  = filter (fun d => negb (isBad (value d))) (docs t).
Proof.
  intros [Hnd _]. cbn [Db.cleanupBadPostureData snd].
  rewrite badSessions_filter. now apply deleteEach_selected.
Qed.

Lemma cleanup_values (t : Table Posture.Session) : wellFormed t ->
  values (snd (Db.cleanupBadPostureData t))
  = filter (fun s => negb (isBad s)) (values t).
Proof.
  intros Hwf. unfold values. rewrite (cleanup_docs t Hwf).
  now rewrite filter_map_commute.
Qed.

(** The records the report works on are blind to the cleanup. *)
Lemma recentPosture_after_cleanup (l : list Posture.Session) :
  Reports.recentPosture (filter (fun s => negb (isBad s)) l) = Reports.recentPosture l.
Proof.
  unfold Reports.recentPosture, Reports.validSessions, PostureStats.collect.
  f_equal. rewrite !filter_filter_and. apply filter_ext. intros s.
  unfold isBad.
  destruct (Posture.userId s =? Posture.anonymous); cbn [andb negb];
    [| reflexivity].
  destruct (JS.gt (Posture.forwardHeadAngle s) (lit 30)) eqn:Hgt;
    cbn [andb negb orb].
  - now rewrite (gt_not_le _ _ Hgt).
  - destruct (Posture.forwardHeadAngle s); reflexivity.
Qed.

(** X5.  On a table with unique ids [cleanupBadPostureData] deletes
    exactly the caller's documents whose forward-head angle is above 30 in
    the order of the database, that is a number above 30 or [NaN], and
    reports their number; running it again deletes nothing; the dashboard
    total drops by the reported number, while every report composed
    afterwards is the report composed before. *)
Theorem cleanup_removes_exactly_the_bad (t : Table Posture.Session) :
  wellFormed t ->
  docs (snd (Db.cleanupBadPostureData t))
  = filter (fun d => negb (isBad (value d))) (docs t)
  /\ (forall d, In d (docs t) ->
        (In d (docs (snd (Db.cleanupBadPostureData t)))
         <-> ~ (Posture.userId (value d) = Posture.anonymous
                /\ (JS.gt (Posture.forwardHeadAngle (value d)) (lit 30) = true
                    \/ Posture.forwardHeadAngle (value d) = JS.NaN))))
  /\ (fst (Db.cleanupBadPostureData t)
      + List.length (docs (snd (Db.cleanupBadPostureData t))))%nat
     = List.length (docs t)
  /\ Db.cleanupBadPostureData (snd (Db.cleanupBadPostureData t))
     = (0%nat, snd (Db.cleanupBadPostureData t))
  /\ wellFormed (snd (Db.cleanupBadPostureData t))
  /\ (forall clock,
        PostureStats.totalSessions (Db.getPostureStats clock t)
        = (fst (Db.cleanupBadPostureData t)
           + PostureStats.totalSessions
               (Db.getPostureStats clock (snd (Db.cleanupBadPostureData t))))%nat)
  /\ (forall clock args gait,
        Reports.composeReport clock args
          (values (snd (Db.cleanupBadPostureData t))) gait
        = Reports.composeReport clock args (values t) gait).
Proof.
  intros Hwf.
  pose proof (cleanup_docs t Hwf) as Hdocs.
  assert (Hcount : fst (Db.cleanupBadPostureData t)
                   = List.length (filter (fun d => isBad (value d)) (docs t))).
  { cbn [Db.cleanupBadPostureData fst]. now rewrite badSessions_filter. }
  split; [exact Hdocs |].
  split.
  { intros d Hd. rewrite Hdocs, filter_In, negb_true_iff. unfold isBad.
    rewrite andb_false_iff, orb_false_iff.
    destruct (String.eqb_spec (Posture.userId (value d)) Posture.anonymous) as [E | E];
      destruct (JS.gt (Posture.forwardHeadAngle (value d)) (lit 30));
      destruct (Posture.forwardHeadAngle (value d)) as [sx | sx | | sx m e];
      cbn [JS.isNaN]; unfold JS.NaN;
      intuition (try discriminate; try congruence). }
  split.
  { rewrite Hcount, Hdocs.
    symmetry. apply (filter_split_length (fun d => isBad (value d))). }
  split.
  { set (t' := snd (Db.cleanupBadPostureData t)) in *.
    assert (Hnone : Db.badSessions t' = []).
    { rewrite badSessions_filter, Hdocs. apply filter_none.
      intros d Hd. apply filter_In in Hd as [_ Hd].
      now apply negb_true_iff in Hd. }
    unfold Db.cleanupBadPostureData. rewrite Hnone. reflexivity. }
  split; [now apply deleteEach_wellFormed |].
  split.
  { intros clock. unfold Db.getPostureStats, PostureStats.getPostureStats.
    rewrite !totalSessions_length.
    assert (Hcollect : forall u : Table Posture.Session,
              List.length (PostureStats.collect (values u))
              = List.length (Db.ofUser Posture.userId u)).
    { intros u. unfold PostureStats.collect, values, Db.ofUser.
      now rewrite filter_map_commute, length_map. }
    rewrite !Hcollect.
    rewrite (filter_split_length
               (fun d => Store.gt (Posture.forwardHeadAngle (value d)) (lit 30))
               (Db.ofUser Posture.userId t)).
    f_equal.
    unfold Db.ofUser. rewrite Hdocs, !filter_filter_and.
    f_equal. apply filter_ext. intros d. unfold isBad. rewrite gt_30.
    destruct (Posture.userId (value d) =? Posture.anonymous),
             (JS.gt (Posture.forwardHeadAngle (value d)) (lit 30)
              || JS.isNaN (Posture.forwardHeadAngle (value d))); reflexivity. }
  intros clock args gait.
  unfold Reports.composeReport, Reports.posturePartOf.
  now rewrite (cleanup_values t Hwf), recentPosture_after_cleanup.
Qed.

(** Witness of X5: of the three stored documents the one with an angle of
    45 is deleted. *)
Lemma cleanup_removes_exactly_the_bad_witness :
  wellFormed MoreInputs.postureTable
  /\ fst (Db.cleanupBadPostureData MoreInputs.postureTable) = 1%nat
  /\ map _id (docs (snd (Db.cleanupBadPostureData MoreInputs.postureTable)))
     = [0; 2]%nat
  /\ Db.cleanupBadPostureData (snd (Db.cleanupBadPostureData MoreInputs.postureTable))
     = (0%nat, snd (Db.cleanupBadPostureData MoreInputs.postureTable)).
Proof.
  assert (Hwf : wellFormed MoreInputs.postureTable).
  { split; cbn; repeat constructor; cbn; intuition discriminate. }
  destruct (cleanup_removes_exactly_the_bad MoreInputs.postureTable Hwf)
    as (Hdocs & _ & _ & Hidem & _).
  split; [exact Hwf |]. split; [reflexivity |].
  split; [rewrite Hdocs; reflexivity | exact Hidem].
Defined.

(** A document whose angle is [NaN] is deleted as well, although
    [NaN > 30] is false in the handlers. *)
Example cleanup_deletes_a_nan_angle :
  JS.gt JS.NaN (lit 30) = false
  /\ fst (Db.cleanupBadPostureData MoreInputs.postureTableWithNaN) = 1%nat
  /\ map _id (docs (snd (Db.cleanupBadPostureData MoreInputs.postureTableWithNaN)))
     = [0]%nat.
Proof. vm_compute. repeat split. Qed.

Lemma deleteAll_docs {A : Type} (user : A -> string) (t : Table A) :
  wellFormed t ->
  docs (deleteEach (Db.ofUser user t) t)
  = filter (fun d => negb (user (value d) =? Posture.anonymous)) (docs t).
Proof. intros [Hnd _]. unfold Db.ofUser. now apply deleteEach_selected. Qed.

Lemma ofUser_after_deleteAll {A : Type} (user : A -> string) (t : Table A) :
  wellFormed t -> Db.ofUser user (deleteEach (Db.ofUser user t) t) = [].
Proof.
  intros Hwf. unfold Db.ofUser at 1. rewrite (deleteAll_docs user t Hwf).
  apply filter_none. intros d Hd. apply filter_In in Hd as [_ Hd].
  now apply negb_true_iff in Hd.
Qed.

(** X6.  On tables with unique ids the two wipe mutations report the
    number of documents the dashboard counted, leave nothing of the caller
    behind, so that both aggregators answer with the empty statistics and
    the history queries with no document, and keep every document of
    another user. *)
Theorem deleteAll_leaves_nothing (clock : Clock)
  (t : Table Posture.Session) (g : Table Gait.Session) :
  wellFormed t -> wellFormed g ->
  fst (Db.deleteAllPostureSessions t)
  = PostureStats.totalSessions (Db.getPostureStats clock t)
  /\ Db.getPostureStats clock (snd (Db.deleteAllPostureSessions t))
     = PostureStats.emptyStats
  /\ Db.getPostureHistory None (snd (Db.deleteAllPostureSessions t)) = Some []
  /\ docs (snd (Db.deleteAllPostureSessions t))
     = filter (fun d => negb (Posture.userId (value d) =? Posture.anonymous)) (docs t)
  /\ fst (Db.deleteAllGaitSessions g)
     = GaitStats.totalSessions (Db.getGaitStats clock g)
  /\ Db.getGaitStats clock (snd (Db.deleteAllGaitSessions g)) = GaitStats.emptyStats
  /\ Db.getGaitHistory None (snd (Db.deleteAllGaitSessions g)) = Some []
  /\ docs (snd (Db.deleteAllGaitSessions g))
     = filter (fun d => negb (Gait.userId (value d) =? Gait.anonymous)) (docs g).
Proof.
  intros Hwt Hwg.
  assert (Hcollect : forall u : Table Posture.Session,
            PostureStats.collect (values u) = map value (Db.ofUser Posture.userId u)).
  { intros u. unfold PostureStats.collect, values, Db.ofUser.
    apply filter_map_commute. }
  assert (Hcollect' : forall u : Table Gait.Session,
            GaitStats.collect (values u) = map value (Db.ofUser Gait.userId u)).
  { intros u. unfold GaitStats.collect, values, Db.ofUser.
    apply filter_map_commute. }
  split.
  { unfold Db.getPostureStats, PostureStats.getPostureStats.
    rewrite totalSessions_length, Hcollect, length_map. reflexivity. }
  split.
  { unfold Db.getPostureStats, PostureStats.getPostureStats.
    cbn [Db.deleteAllPostureSessions snd].
    now rewrite Hcollect, (ofUser_after_deleteAll Posture.userId t Hwt). }
  split.
  { unfold Db.getPostureHistory. cbn [Db.deleteAllPostureSessions snd].
    now rewrite (ofUser_after_deleteAll Posture.userId t Hwt). }
  split; [now apply (deleteAll_docs Posture.userId) |].
  split.
  { unfold Db.getGaitStats, GaitStats.getGaitStats, GaitStats.statsOf.
    rewrite Hcollect'. cbn [Db.deleteAllGaitSessions fst].
    rewrite <- (length_map value (Db.ofUser Gait.userId g)).
    now destruct (map value (Db.ofUser Gait.userId g)). }
  split.
  { unfold Db.getGaitStats, GaitStats.getGaitStats.
    cbn [Db.deleteAllGaitSessions snd].
    now rewrite Hcollect', (ofUser_after_deleteAll Gait.userId g Hwg). }
  split.
  { unfold Db.getGaitHistory. cbn [Db.deleteAllGaitSessions snd].
    now rewrite (ofUser_after_deleteAll Gait.userId g Hwg). }
  now apply (deleteAll_docs Gait.userId).
Qed.

(** Witness of X6: the example tables lose all three and both documents. *)
Lemma deleteAll_leaves_nothing_witness :
  wellFormed MoreInputs.postureTable
  /\ wellFormed MoreInputs.gaitTable
  /\ fst (Db.deleteAllPostureSessions MoreInputs.postureTable) = 3%nat
  /\ PostureStats.weeklyTrend
       (Db.getPostureStats (frozen Inputs.now)
          (snd (Db.deleteAllPostureSessions MoreInputs.postureTable))) = []
  /\ docs (snd (Db.deleteAllGaitSessions MoreInputs.gaitTable)) = [].
Proof.
  assert (Hwt : wellFormed MoreInputs.postureTable).
  { split; cbn; repeat constructor; cbn; intuition discriminate. }
  assert (Hwg : wellFormed MoreInputs.gaitTable).
  { split; cbn; repeat constructor; cbn; intuition discriminate. }
  destruct (deleteAll_leaves_nothing (frozen Inputs.now)
              MoreInputs.postureTable MoreInputs.gaitTable Hwt Hwg)
    as (_ & Hstats & _ & _ & _ & _ & _ & Hdocs).
  split; [exact Hwt |]. split; [exact Hwg |]. split; [reflexivity |].
  split; [rewrite Hstats; reflexivity | rewrite Hdocs; reflexivity].
Defined.

End BulkDelete.

(** ** Stored reports *)

Section StoredReports.
Import Store.

Lemma count_twenty_bound {A : Type} (l : list A) :
  (List.length (firstn 20 l) <= 20)%nat.
Proof. rewrite length_firstn. lia. Qed.

(** X7.  A report generated into a table with unique ids is returned by
    [getReport] under the id [generateReport] answered, with the composed
    content; lookups of other ids are unaffected; and when no stored
    report of the caller is later, the new report heads [getUserReports]. *)
Theorem generateReport_then_getReport (clock : Clock) (args : Reports.GenArgs)
  (posture : Table Posture.Session) (gait : Table Gait.Session)
  (reports : Table Reports.Report) :
  wellFormed reports ->
  (forall d, In d (Db.ofUser Reports.userId reports) -> (reportTime d <= clock 1%nat)%Z) ->
  Db.getReport (fst (Db.generateReport clock args posture gait reports))
               (snd (Db.generateReport clock args posture gait reports))
  = Returned {| _id := fst (Db.generateReport clock args posture gait reports);
                value := Reports.composeReport clock args (values posture) (values gait) |}
  /\ (forall id, id <> fst (Db.generateReport clock args posture gait reports) ->
        Db.getReport id (snd (Db.generateReport clock args posture gait reports))
        = Db.getReport id reports)
  /\ (exists rest,
        Db.getUserReports (snd (Db.generateReport clock args posture gait reports))
        = {| _id := fst (Db.generateReport clock args posture gait reports);
             value := Reports.composeReport clock args (values posture) (values gait) |}
          :: rest)
  /\ wellFormed (snd (Db.generateReport clock args posture gait reports)).
Proof.
  intros Hwf Hlate. unfold Db.generateReport.
  set (r := Reports.composeReport clock args (values posture) (values gait)).
  split.
  { unfold Db.getReport. rewrite (get_insert_new reports r Hwf). reflexivity. }
  split.
  { intros id Hid. unfold Db.getReport. now rewrite get_insert_old. }
  split.
  { unfold Db.getUserReports.
    assert (E : Db.ofUser Reports.userId (snd (insert reports r))
                = Db.ofUser Reports.userId reports
                  ++ [{| _id := nextId reports; value := r |}]).
    { unfold Db.ofUser. cbn [insert snd docs]. now rewrite filter_app. }
    rewrite E, orderDesc_snoc.
    - eexists. reflexivity.
    - intros y Hy. apply Hlate, Hy. }
  now apply insert_wellFormed.
Qed.

(** Witness of X7: a third report generated into the two-report table. *)
Lemma generateReport_then_getReport_witness :
  wellFormed MoreInputs.reportTable
  /\ (forall d, In d (Db.ofUser Reports.userId MoreInputs.reportTable) ->
        (reportTime d <= frozen (Inputs.now + 20) 1%nat)%Z)
  /\ fst (Db.generateReport (frozen (Inputs.now + 20)) Inputs.combinedReport
            MoreInputs.postureTable MoreInputs.gaitTable MoreInputs.reportTable) = 2%nat
  /\ exists doc,
       Db.getReport 2 (snd (Db.generateReport (frozen (Inputs.now + 20))
                              Inputs.combinedReport MoreInputs.postureTable
                              MoreInputs.gaitTable MoreInputs.reportTable))
       = Returned doc
       /\ Reports.createdAt (value doc) = (Inputs.now + 20)%Z.
Proof.
  assert (Hwf : wellFormed MoreInputs.reportTable).
  { split; cbn; repeat constructor; cbn; intuition discriminate. }
  assert (Hlate : forall d, In d (Db.ofUser Reports.userId MoreInputs.reportTable) ->
                    (reportTime d <= frozen (Inputs.now + 20) 1%nat)%Z).
  { cbn. intros d [<- | [<- | []]]; vm_compute; discriminate. }
  destruct (generateReport_then_getReport (frozen (Inputs.now + 20))
              Inputs.combinedReport MoreInputs.postureTable MoreInputs.gaitTable
              MoreInputs.reportTable Hwf Hlate) as (Hget & _).
  split; [exact Hwf |]. split; [exact Hlate |]. split; [reflexivity |].
  eexists. split; [exact Hget | reflexivity].
Defined.

(** X8.  [getUserReports] answers with at most twenty reports of the
    caller, newest first, and no report of the caller left out is newer
    than one returned. *)
Theorem getUserReports_newest_twenty (reports : Table Reports.Report) :
  (List.length (Db.getUserReports reports) <= 20)%nat
  /\ List.length (Db.getUserReports reports)
     = Nat.min 20 (List.length (Db.ofUser Reports.userId reports))
  /\ newestFirst reportTime (Db.getUserReports reports)
  /\ (forall d, In d (Db.getUserReports reports) ->
        In d (docs reports) /\ Reports.userId (value d) = Posture.anonymous)
  /\ (forall d d', In d (Db.ofUser Reports.userId reports) ->
        ~ In d (Db.getUserReports reports) -> In d' (Db.getUserReports reports) ->
        (reportTime d <= reportTime d')%Z).
Proof.
  unfold Db.getUserReports.
  destruct (top_spec (fun d => Reports.createdAt (value d)) 20
              (Db.ofUser Reports.userId reports)) as (Hlen & Hsort & Hin & Htop).
  split; [apply count_twenty_bound |].
  split; [exact Hlen |]. split; [exact Hsort |].
  split; [intros d Hd; now apply ofUser_In, Hin | exact Htop].
Qed.

(** X9.  [deleteReport] succeeds exactly when [getReport] would return the
    report.  After a success the report is gone, a second deletion is
    refused, and every other report is looked up as before; a refused
    deletion leaves the table as it was. *)
Theorem deleteReport_spec (reportId : nat) (reports : Table Reports.Report) :
  (forall doc, Db.getReport reportId reports = Returned doc ->
     fst (Db.deleteReport reportId reports) = Returned true
     /\ Db.getReport reportId (snd (Db.deleteReport reportId reports))
        = Thrown "Report not found"
     /\ fst (Db.deleteReport reportId (snd (Db.deleteReport reportId reports)))
        = Thrown "Report not found or access denied"
     /\ (forall id, id <> reportId ->
           Db.getReport id (snd (Db.deleteReport reportId reports))
           = Db.getReport id reports)
     /\ ~ In doc (docs (snd (Db.deleteReport reportId reports))))
  /\ (forall message, Db.getReport reportId reports = Thrown message ->
        Db.deleteReport reportId reports
        = (Thrown "Report not found or access denied", reports)).
Proof.
  unfold Db.getReport, Db.deleteReport. split.
  - intros doc Hget.
    destruct (get reports reportId) as [r |] eqn:E; [| discriminate].
    destruct (Reports.userId (value r) =? Posture.anonymous); [| discriminate].
    injection Hget as ->. cbn [fst snd].
    rewrite get_delete_same. cbn [fst].
    split; [reflexivity |]. split; [reflexivity |]. split; [reflexivity |].
    split.
    + intros id Hid. now rewrite get_delete_other.
    + cbn. intros Hin. apply filter_In in Hin as [_ Hne].
      apply get_In in E as [_ Hid]. rewrite Hid, Nat.eqb_refl in Hne.
      discriminate.
  - intros message Hget.
    destruct (get reports reportId) as [r |]; [| reflexivity].
    destruct (Reports.userId (value r) =? Posture.anonymous);
      [discriminate | reflexivity].
Qed.

End StoredReports.

(** ** The classifiers as decision tables *)

Section PostureTable.
Import Posture.

Lemma sittingRule_label args v :
  label (sittingRule args v)
  = labelStep (optIs (a_sittingPosition args) "hunchback")
              (optIs (a_sittingPosition args) "reclined") (label v).
Proof.
  unfold sittingRule, labelStep.
  destruct (optIs _ "hunchback"); [reflexivity |].
  destruct (optIs _ "reclined"); reflexivity.
Qed.

Lemma handFoldingRule_label args v : label (handFoldingRule args v) = label v.
Proof. unfold handFoldingRule. now destruct (optTrue _). Qed.

Lemma kneelingRule_label args v : label (kneelingRule args v) = label v.
Proof. unfold kneelingRule. now destruct (optTrue _). Qed.

Lemma forwardHeadRule_label args v :
  label (forwardHeadRule args v)
  = labelStep (JS.gt (a_forwardHeadAngle args) (lit 15))
              (JS.gt (a_forwardHeadAngle args) (lit 10)) (label v).
Proof.
  unfold forwardHeadRule, labelStep.
  destruct (JS.gt _ (lit 15)); [reflexivity |].
  destruct (JS.gt _ (lit 10)); reflexivity.
Qed.

Lemma shoulderRule_label args v :
  label (shoulderRule args v)
  = labelStep (JS.gt (JS.abs (a_shoulderTilt args)) (lit 10)) false (label v).
Proof. unfold shoulderRule, labelStep. now destruct (JS.gt _ _). Qed.

Lemma neckRule_label args v :
  label (neckRule args v)
  = labelStep false (JS.gt (a_neckAngle args) (lit 15)) (label v).
Proof. unfold neckRule, labelStep. now destruct (JS.gt _ _). Qed.

Lemma spineRule_label args v :
  label (spineRule args v)
  = labelStep (JS.lt (a_spineAlignment args) (lit 70))
              (JS.lt (a_spineAlignment args) (lit 85)) (label v).
Proof.
  unfold spineRule, labelStep.
  destruct (JS.lt _ (lit 70)); [reflexivity |].
  destruct (JS.lt _ (lit 85)); reflexivity.
Qed.

Lemma scoreRule_label args v :
  label (scoreRule args v)
  = labelStep (scoreBelow (a_postureScore args) 60)
              (scoreBelow (a_postureScore args) 80) (label v).
Proof.
  unfold scoreRule, labelStep.
  destruct (scoreBelow _ 60); [reflexivity |].
  destruct (scoreBelow _ 80); reflexivity.
Qed.

(** Six steps from "good" end at the worst severity asked for. *)
Lemma labelSteps_worst (p1 f1 p2 f2 p3 f4 p5 f5 p6 f6 : bool) :
  labelStep p6 f6
    (labelStep p5 f5
       (labelStep false f4
          (labelStep p3 false (labelStep p2 f2 (labelStep p1 f1 "good")))))
  = if (p1 || p2 || p3 || p5 || p6)%bool then "poor"
    else if (f1 || f2 || f4 || f5 || f6)%bool then "fair"
    else "good".
Proof.
  destruct p1, p2, p3, p5, p6; try reflexivity;
    destruct f1, f2, f4, f5, f6; reflexivity.
Qed.

(** X10.  The posture label does not depend on the order of the rules: it
    is "poor" when any poor trigger holds, else "fair" when any fair
    trigger holds, else "good"; hand folding, kneeling and the keypoint
    confidence never enter it.  The returned score is 40, 70 or 90
    accordingly. *)
Theorem posture_label_is_worst_trigger (args : Args) (now : Z) (table : list Session) :
  label (classify args) = worstLabel args
  /\ r_classification (fst (analyzePosture now args table)) = worstLabel args
  /\ r_score (fst (analyzePosture now args table))
     = (if poorTrigger args then lit 40
        else if fairTrigger args then lit 70 else lit 90).
Proof.
  assert (H : label (classify args) = worstLabel args).
  { rewrite classify_scoreRule.
    unfold after, rules, runRules. cbn [firstn fold_left].
    rewrite scoreRule_label, spineRule_label, neckRule_label, shoulderRule_label,
      forwardHeadRule_label, kneelingRule_label, handFoldingRule_label,
      sittingRule_label.
    change (label initial) with "good".
    rewrite labelSteps_worst. reflexivity. }
  split; [exact H |]. split; [exact H |].
  cbn [analyzePosture fst r_score]. rewrite H. unfold worstLabel.
  destruct (poorTrigger args); [reflexivity |].
  destruct (fairTrigger args); reflexivity.
Qed.

End PostureTable.

Section PostureAdvice.
Import Posture.

Lemma corrective_push (v v' : Verdict) (msg : string) :
  advice v' = advice v ++ [msg] -> msg <> excellentPosture ->
  ~ In excellentPosture (advice v) -> corrective v'.
Proof.
  intros E Hmsg Hnot. unfold corrective. rewrite E. split.
  - intros Hin. apply in_app_or in Hin as [Hin | [Hin | []]]; auto.
  - intros _ Hnil. now apply app_eq_nil in Hnil as [_ Hnil].
Qed.

Ltac keeps_corrective :=
  match goal with
  | Hc : corrective ?v |- corrective ?v => exact Hc
  | Hc : corrective ?v |- corrective (push ?w ?m) =>
      apply (corrective_push v (push w m) m eq_refl);
      [unfold excellentPosture; discriminate | exact (proj1 Hc)]
  end.

Lemma rules_keep_corrective :
  Forall (fun r : Rule => forall args v, corrective v -> corrective (r args v))
         (firstn 9 rules).
Proof.
  cbn [firstn rules].
  repeat (apply Forall_cons; [intros args v Hc |]); [.. | apply Forall_nil].
  all: unfold sittingRule, handFoldingRule, kneelingRule, forwardHeadRule,
         shoulderRule, neckRule, spineRule, scoreRule, confidenceRule.
  all: repeat match goal with
              | |- context [if ?c then _ else _] => destruct c
              end; keeps_corrective.
Qed.

Lemma runRules_corrective args rs :
  Forall (fun r : Rule => forall args v, corrective v -> corrective (r args v)) rs ->
  forall v, corrective v -> corrective (runRules args rs v).
Proof.
  induction 1 as [| r rs Hr _ IH]; intros v Hv; cbn; [assumption |].
  apply IH, Hr, Hv.
Qed.

Lemma before_default_corrective args : corrective (after 9 args).
Proof.
  apply runRules_corrective; [apply rules_keep_corrective |].
  split; [intros [] | intros H; now contradiction H].
Qed.

Lemma classify_default args : classify args = defaultRule args (after 9 args).
Proof. reflexivity. Qed.

(** X11.  [analyzePosture] never returns an empty recommendation list.
    The affirmation "Excellent posture! ..." is only ever the sole
    recommendation, it is pushed exactly when no rule pushed anything, and
    then the sample is "good"; a sample that is not "good" always carries a
    recommendation other than the affirmation. *)
Theorem posture_recommendations (args : Args) :
  advice (classify args) <> []
  /\ (In excellentPosture (advice (classify args)) ->
      advice (classify args) = [excellentPosture]
      /\ label (classify args) = "good"
      /\ advice (after 9 args) = [])
  /\ (advice (after 9 args) = [] -> advice (classify args) = [excellentPosture])
  /\ (label (classify args) <> "good" ->
      ~ In excellentPosture (advice (classify args))
      /\ exists msg, In msg (advice (classify args))).
Proof.
  destruct (before_default_corrective args) as [Hnot Hlab].
  rewrite classify_default. unfold defaultRule.
  destruct (advice (after 9 args)) as [| m ms] eqn:E; cbn [List.length Nat.eqb].
  - cbn [push advice label]. rewrite E. cbn [app].
    assert (Hgood : label (after 9 args) = "good").
    { destruct (String.eqb_spec (label (after 9 args)) "good") as [H | H];
        [exact H | exfalso; now apply (Hlab H)]. }
    split; [discriminate |].
    split; [intros _; repeat split; assumption |].
    split; [reflexivity |].
    intros H. contradiction.
  - rewrite E.
    split; [discriminate |].
    split; [intros Hin; contradiction |].
    split; [discriminate |].
    intros _. split; [assumption | exists m; now left].
Qed.

End PostureAdvice.

Section GaitTable.
Import Gait.

Lemma gaitCorrective_push (v v' : Verdict) (msg : string) :
  advice v' = advice v ++ [msg] -> msg <> normalGait ->
  ~ In normalGait (advice v) -> gaitCorrective v'.
Proof.
  intros E Hmsg Hnot. unfold gaitCorrective. rewrite E. split.
  - intros Hin. apply in_app_or in Hin as [Hin | [Hin | []]]; auto.
  - intros _ Hnil. now apply app_eq_nil in Hnil as [_ Hnil].
Qed.

Ltac keeps_gaitCorrective :=
  match goal with
  | Hc : gaitCorrective ?v |- gaitCorrective ?v => exact Hc
  | Hc : gaitCorrective ?v |- gaitCorrective (push ?w ?m) =>
      apply (gaitCorrective_push v (push w m) m eq_refl);
      [unfold normalGait; discriminate | exact (proj1 Hc)]
  end.

Ltac gait_step rule :=
  match goal with
  | Hc : gaitCorrective ?v |- gaitCorrective (rule ?args ?v) =>
      unfold rule;
      repeat match goal with
             | |- context [match ?c with _ => _ end] => destruct c
             end; keeps_gaitCorrective
  end.

Lemma before_gait_default_corrective args :
  gaitCorrective
    (esp32Rules args (cadenceRule args (balanceRule args (symmetryRule args initial)))).
Proof.
  assert (H0 : gaitCorrective initial).
  { split; [intros [] | intros H; now contradiction H]. }
  assert (H1 : gaitCorrective (symmetryRule args initial)) by gait_step symmetryRule.
  assert (H2 : gaitCorrective (balanceRule args (symmetryRule args initial)))
    by gait_step balanceRule.
  assert (H3 : gaitCorrective
                 (cadenceRule args (balanceRule args (symmetryRule args initial))))
    by gait_step cadenceRule.
  set (v3 := cadenceRule args (balanceRule args (symmetryRule args initial))) in *.
  unfold esp32Rules. destruct (a_analysisType args =? "esp32"); [| exact H3].
  assert (H4 : gaitCorrective (stanceRule args v3)) by gait_step stanceRule.
  assert (H5 : gaitCorrective (swingRule args (stanceRule args v3)))
    by gait_step swingRule.
  assert (H6 : gaitCorrective (forceRule args (swingRule args (stanceRule args v3))))
    by gait_step forceRule.
  gait_step speedRule.
Qed.

(** X12.  The gait label is a function of the symmetry score and the
    left-right balance alone.  [analyzeGait] never returns an empty
    recommendation list; "Normal gait pattern detected!" is only ever the
    sole recommendation and then the sample is "normal", and a sample that
    is not "normal" always carries another recommendation. *)
Theorem gait_label_and_recommendations (args : Args) :
  label (classify args)
  = gaitLabelOf (a_symmetryScore args) (a_leftRightBalance args)
  /\ advice (classify args) <> []
  /\ (In normalGait (advice (classify args)) ->
      advice (classify args) = [normalGait] /\ label (classify args) = "normal")
  /\ (label (classify args) <> "normal" ->
      ~ In normalGait (advice (classify args))
      /\ exists msg, In msg (advice (classify args))).
Proof.
  split.
  { rewrite classify_label. unfold balanceRule, symmetryRule, gaitLabelOf.
    destruct (JS.lt (a_symmetryScore args) (lit 70));
      [destruct (JS.gt _ _); reflexivity |].
    destruct (JS.lt (a_symmetryScore args) (lit 85));
      destruct (JS.gt _ _); reflexivity. }
  destruct (before_gait_default_corrective args) as [Hnot Hlab].
  unfold classify, defaultRule.
  set (w := esp32Rules args
              (cadenceRule args (balanceRule args (symmetryRule args initial)))) in *.
  destruct (advice w) as [| m ms] eqn:E; cbn [List.length Nat.eqb].
  - cbn [push advice label]. rewrite E. cbn [app].
    assert (Hnormal : label w = "normal").
    { destruct (String.eqb_spec (label w) "normal") as [H | H];
        [exact H | exfalso; now apply (Hlab H)]. }
    split; [discriminate |].
    split; [intros _; split; [reflexivity | assumption] |].
    intros H. contradiction.
  - rewrite E.
    split; [discriminate |].
    split; [intros Hin; contradiction |].
    intros _. split; [assumption | exists m; now left].
Qed.

(** X13.  Unless the analysis type is exactly "esp32", the stance, swing,
    force and speed fields never influence the result: the sample is
    classified and advised as if they were absent.  This holds for the
    type "esp32-wifi". *)
Theorem sensor_fields_need_type_esp32 (args : Args)
  (stance swing heel toe speed : option number) :
  a_analysisType args <> "esp32" ->
  classify (withSensor args stance swing heel toe speed)
  = classify (withSensor args None None None None None)
  /\ classify args
     = defaultRule (cadenceRule args (balanceRule args (symmetryRule args initial))).
Proof.
  intros Hty. apply String.eqb_neq in Hty.
  unfold classify, esp32Rules. cbn [withSensor a_analysisType]. rewrite Hty.
  split; reflexivity.
Qed.

(** Witness of X13: a sample of type "esp32-wifi" with a stance phase of
    20 gets the same result as without it; with type "esp32" the stance
    phase is objected to. *)
Lemma sensor_fields_need_type_esp32_witness :
  a_analysisType (sample (lit 1000) (lit 92) (lit 130) (lit 50) "esp32-wifi") <> "esp32"
  /\ classify (withSensor (sample (lit 1000) (lit 92) (lit 130) (lit 50) "esp32-wifi")
                 (Some (lit 20)) None None None None)
     = {| label := "normal"; advice := [normalGait] |}
  /\ advice (classify (withSensor (sample (lit 1000) (lit 92) (lit 130) (lit 50) "esp32")
                         (Some (lit 20)) None None None None))
     = ["Abnormal stance phase duration - may indicate balance issues"].
Proof.
  assert (Hty : a_analysisType (sample (lit 1000) (lit 92) (lit 130) (lit 50) "esp32-wifi")
                <> "esp32") by discriminate.
  split; [exact Hty |].
  split; [| reflexivity].
  rewrite (proj1 (sensor_fields_need_type_esp32 _ (Some (lit 20)) None None None None Hty)).
  reflexivity.
Defined.

End GaitTable.

(** ** The ESP32 endpoint *)

Section Esp32Endpoint.
Import Store Http.
Variable parse : string -> option json.
Variable stringify : json -> string.

Lemma upload_verdict (raw : string) :
  Gait.classify (uploadArgs raw)
  = {| Gait.label := "asymmetric";
       Gait.advice :=
         [ "Significant gait asymmetry detected - consider consulting a healthcare professional";
           "Cadence outside normal range - aim for 120-160 steps per minute" ] |}.
Proof. reflexivity. Qed.

(** X14.  The endpoint answers 200, 400 or 500.  It answers 200 exactly
    when the body parses to a value other than [null] whose deviceId,
    timestamp, acceleration and gyroscope are all truthy, and only then
    does it write: one gait document of type "esp32-wifi" with symmetry 0,
    classified "asymmetric", whatever the payload holds.  Otherwise the
    table is left as it was. *)
Theorem esp32_upload (now : Z) (text : string) (t : Table Gait.Session) :
  let answer := postEsp32Data parse stringify now text t in
  (status (fst answer) = 200%nat
   \/ status (fst answer) = 400%nat
   \/ status (fst answer) = 500%nat)
  /\ (status (fst answer) = 200%nat <->
      exists data, parse text = Some data /\ data <> JNull
                   /\ missingRequired data = false)
  /\ (status (fst answer) <> 200%nat -> snd answer = t)
  /\ (status (fst answer) = 200%nat ->
      exists data doc,
        parse text = Some data
        /\ docs (snd answer) = docs t ++ [doc]
        /\ body (fst answer)
           = Received (fst (Db.analyzeGait now (uploadArgs (stringify data)) t))
        /\ Gait.classification (value doc) = "asymmetric"
        /\ Gait.symmetryScore (value doc) = lit 0
        /\ Gait.analysisType (value doc) = "esp32-wifi"
        /\ Gait.rawDataPath (value doc) = Some (stringify data)
        /\ List.length (Gait.recommendations (value doc)) = 2%nat).
Proof.
  unfold postEsp32Data.
  destruct (parse text) as [data |] eqn:Hparse.
  2:{ cbn. split; [auto |]. split.
      - split; [discriminate | intros (d & Hd & _); discriminate].
      - split; [reflexivity | discriminate]. }
  assert (Hnull : data = JNull \/ data <> JNull).
  { destruct data; (now left) || (right; discriminate). }
  destruct Hnull as [-> | Hnn].
  { cbn. split; [auto |]. split.
    - split; [discriminate |].
      intros (d & Hd & Hne & _). injection Hd as <-. now contradiction Hne.
    - split; [reflexivity | discriminate]. }
  assert (Hbody : match data with
                  | JNull => ({| status := 500; body := Error "Internal server error" |}, t)
                  | _ => if missingRequired data
                         then ({| status := 400; body := Error "Missing required fields" |}, t)
                         else ({| status := 200;
                                  body := Received (fst (Db.analyzeGait now (uploadArgs (stringify data)) t)) |},
                               snd (Db.analyzeGait now (uploadArgs (stringify data)) t))
                  end
                  = if missingRequired data
                    then ({| status := 400; body := Error "Missing required fields" |}, t)
                    else ({| status := 200;
                             body := Received (fst (Db.analyzeGait now (uploadArgs (stringify data)) t)) |},
                          snd (Db.analyzeGait now (uploadArgs (stringify data)) t))).
  { destruct data; reflexivity || now contradiction Hnn. }
  cbv zeta. rewrite Hbody. clear Hbody.
  destruct (missingRequired data) eqn:Hmiss; cbn [fst snd status body].
  - split; [auto |]. split.
    + split; [discriminate |].
      intros (d & Hd & _ & Hm). injection Hd as <-. congruence.
    + split; [reflexivity | discriminate].
  - split; [auto |]. split.
    + split; [intros _; exists data; auto | reflexivity].
    + split; [intros H; now contradiction H |].
      intros _. exists data.
      exists {| _id := nextId t;
                value := Gait.toSession now (uploadArgs (stringify data))
                           (Gait.classify (uploadArgs (stringify data))) |}.
      split; [reflexivity |]. split; [reflexivity |]. split; [reflexivity |].
      cbn [value Gait.toSession Gait.classification Gait.symmetryScore
             Gait.analysisType Gait.rawDataPath Gait.recommendations].
      rewrite upload_verdict.
      repeat split.
Qed.

End Esp32Endpoint.

(** The endpoint on three request bodies: a complete payload is stored, a
    payload whose timestamp is 0 is refused as incomplete, and the body
    [null] is answered with 500. *)
Example esp32_upload_examples :
  Http.status (fst (Http.postEsp32Data MoreInputs.parseExample MoreInputs.stringifyExample
                      Inputs.now "complete" MoreInputs.gaitTable)) = 200%nat
  /\ Http.status (fst (Http.postEsp32Data MoreInputs.parseExample MoreInputs.stringifyExample
                         Inputs.now "at zero" MoreInputs.gaitTable)) = 400%nat
  /\ Http.status (fst (Http.postEsp32Data MoreInputs.parseExample MoreInputs.stringifyExample
                         Inputs.now "null" MoreInputs.gaitTable)) = 500%nat
  /\ Http.status (fst (Http.postEsp32Data MoreInputs.parseExample MoreInputs.stringifyExample
                         Inputs.now "{" MoreInputs.gaitTable)) = 500%nat.
Proof. repeat split. Qed.

(** ** The report composer *)

Section ReportRisk.
Import Reports.

Lemma postureRisk_spec (fh tilt spine : number) (dominant : string) :
  let level := fst (postureRisk fh tilt spine dominant) in
  let factors := snd (postureRisk fh tilt spine dominant) in
  let high := JS.gt fh (lit 15) || JS.gt tilt (lit 10) || JS.lt spine (lit 70) in
  let moderate := JS.gt fh (lit 10) || JS.gt tilt (lit 5) || JS.lt spine (lit 80)
                  || (dominant =? "hunchback") in
  knownRisk level
  /\ (level = "LOW" <-> factors = [])
  /\ (level = "HIGH" <-> high = true)
  /\ (level = "MODERATE" <-> high = false /\ moderate = true)
  /\ (In "Frequent hunchback posture" factors <-> dominant = "hunchback")
  /\ (dominant = "hunchback" -> level <> "LOW")
  /\ (high = false -> JS.gt fh (lit 10) = false -> JS.gt tilt (lit 5) = false ->
      JS.lt spine (lit 80) = false -> dominant = "hunchback" ->
      level = "MODERATE" /\ factors = ["Frequent hunchback posture"]).
Proof.
  cbv zeta. unfold postureRisk, knownRisk. cbv zeta.
  assert (Hdom : dominant = "hunchback" <-> (dominant =? "hunchback") = true)
    by (symmetry; apply String.eqb_eq).
  revert Hdom.
  generalize (JS.gt fh (lit 15)) (JS.gt fh (lit 10)) (JS.gt tilt (lit 10))
    (JS.gt tilt (lit 5)) (JS.lt spine (lit 70)) (JS.lt spine (lit 80))
    (dominant =? "hunchback").
  intros b1 b2 b3 b4 b5 b6 b7 Hdom. rewrite Hdom. clear Hdom.
  destruct b1, b3, b5; cbn [fst snd toModerate orb]; destruct b2, b4, b6, b7;
    cbn -[lit];
    repeat match goal with
           | |- _ /\ _ => split
           | |- _ <-> _ => split
           end;
    try tauto; try reflexivity; try discriminate;
    intros; try discriminate; try reflexivity; try tauto;
    intuition (try discriminate; try congruence).
Qed.

Lemma gaitRisk_spec (sym bal cad : number) :
  let level := fst (gaitRisk sym bal cad) in
  let factors := snd (gaitRisk sym bal cad) in
  let high := JS.lt sym (lit 70) || JS.gt (balanceOff bal) (lit 10) in
  let abnormal := JS.lt cad (lit 100) || JS.gt cad (lit 140) in
  let moderate := JS.lt sym (lit 80) || JS.gt (balanceOff bal) (lit 5) || abnormal in
  knownRisk level
  /\ (level = "LOW" <-> factors = [])
  /\ (level = "HIGH" <-> high = true)
  /\ (level = "MODERATE" <-> high = false /\ moderate = true)
  /\ (In "Abnormal cadence pattern" factors <-> abnormal = true)
  /\ (abnormal = true -> level <> "LOW")
  /\ (high = false -> JS.lt sym (lit 80) = false ->
      JS.gt (balanceOff bal) (lit 5) = false -> abnormal = true ->
      level = "MODERATE" /\ factors = ["Abnormal cadence pattern"]).
Proof.
  cbv zeta. unfold gaitRisk, knownRisk. cbv zeta.
  generalize (JS.lt sym (lit 70)) (JS.lt sym (lit 80))
    (JS.gt (balanceOff bal) (lit 10)) (JS.gt (balanceOff bal) (lit 5))
    (JS.lt cad (lit 100) || JS.gt cad (lit 140))%bool.
  intros b1 b2 b3 b4 b5.
  destruct b1, b3; cbn [fst snd toModerate orb]; destruct b2, b4, b5;
    cbn -[lit];
    repeat match goal with
           | |- _ /\ _ => split
           | |- _ <-> _ => split
           end;
    try tauto; try reflexivity; try discriminate;
    intros; try discriminate; try reflexivity; try tauto;
    intuition (try discriminate; try congruence).
Qed.

(** X15.  In both parts of a report the risk level is LOW, MODERATE or
    HIGH.  It is LOW exactly when no risk factor is listed.  It is HIGH
    exactly when an average crosses a HIGH threshold (posture: forward
    head above 15, shoulder tilt above 10, spine alignment below 70; gait:
    symmetry below 70, balance more than 10 off 50).  It is MODERATE
    exactly when no HIGH threshold is crossed and a MODERATE trigger holds
    (posture: forward head above 10, shoulder tilt above 5, spine
    alignment below 80, dominant position hunchback; gait: symmetry below
    80, balance more than 5 off 50, cadence below 100 or above 140).  The
    factor "Frequent hunchback posture" is listed exactly when the
    dominant position is hunchback, "Abnormal cadence pattern" exactly
    when the cadence is abnormal; either of them rules out LOW, and alone
    it gives MODERATE with that single factor. *)
Theorem risk_level_matches_factors
  (recent : list Posture.Session) (recentG : list Gait.Session) :
  let p := postureSectionOf recent in
  let g := gaitSectionOf recentG in
  let high := JS.gt (avgForwardHead p) (lit 15) || JS.gt (avgShoulderTilt p) (lit 10)
              || JS.lt (avgSpineAlignment p) (lit 70) in
  let moderate := JS.gt (avgForwardHead p) (lit 10) || JS.gt (avgShoulderTilt p) (lit 5)
                  || JS.lt (avgSpineAlignment p) (lit 80)
                  || (dominantSittingPosition p =? "hunchback") in
  let highG := JS.lt (avgSymmetry g) (lit 70)
               || JS.gt (balanceOff (avgLeftRightBalance g)) (lit 10) in
  let abnormal := JS.lt (avgCadence g) (lit 100) || JS.gt (avgCadence g) (lit 140) in
  let moderateG := JS.lt (avgSymmetry g) (lit 80)
                   || JS.gt (balanceOff (avgLeftRightBalance g)) (lit 5)
                   || abnormal in
  (knownRisk (riskLevel p)
   /\ (riskLevel p = "LOW" <-> riskFactors p = [])
   /\ (riskLevel p = "HIGH" <-> high = true)
   /\ (riskLevel p = "MODERATE" <-> high = false /\ moderate = true)
   /\ (In "Frequent hunchback posture" (riskFactors p)
       <-> dominantSittingPosition p = "hunchback")
   /\ (dominantSittingPosition p = "hunchback" -> riskLevel p <> "LOW")
   /\ (high = false -> JS.gt (avgForwardHead p) (lit 10) = false ->
       JS.gt (avgShoulderTilt p) (lit 5) = false ->
       JS.lt (avgSpineAlignment p) (lit 80) = false ->
       dominantSittingPosition p = "hunchback" ->
       riskLevel p = "MODERATE" /\ riskFactors p = ["Frequent hunchback posture"]))
  /\ (knownRisk (gaitRiskLevel g)
      /\ (gaitRiskLevel g = "LOW" <-> gaitRiskFactors g = [])
      /\ (gaitRiskLevel g = "HIGH" <-> highG = true)
      /\ (gaitRiskLevel g = "MODERATE" <-> highG = false /\ moderateG = true)
      /\ (In "Abnormal cadence pattern" (gaitRiskFactors g) <-> abnormal = true)
      /\ (abnormal = true -> gaitRiskLevel g <> "LOW")
      /\ (highG = false -> JS.lt (avgSymmetry g) (lit 80) = false ->
          JS.gt (balanceOff (avgLeftRightBalance g)) (lit 5) = false ->
          abnormal = true ->
          gaitRiskLevel g = "MODERATE"
          /\ gaitRiskFactors g = ["Abnormal cadence pattern"])).
Proof.
  cbv zeta. split.
  - exact (postureRisk_spec _ _ _ _).
  - exact (gaitRisk_spec _ _ _).
Qed.

End ReportRisk.

Section ReportAdvice.
Import Reports.

Lemma in_pushIf (x : string) (c : bool) (msg : string) (l : list string) :
  In x (pushIf c msg l) -> x = msg \/ In x l.
Proof.
  unfold pushIf. destruct c; [| now right].
  intros H. apply in_app_or in H as [H | [H | []]]; auto.
Qed.

Lemma in_either (x : string) (c c' : bool) (m m' : string) (l : list string) :
  In x (if c then l ++ [m] else if c' then l ++ [m'] else l) ->
  x = m \/ x = m' \/ In x l.
Proof.
  destruct c; [| destruct c'];
    intros H; try (apply in_app_or in H as [H | [H | []]]); auto.
Qed.

Ltac peel H :=
  repeat first
    [ apply in_pushIf in H as [H | H]; [subst; cbn; tauto |]
    | apply in_either in H as [H | [H | H]]; [subst; cbn; tauto | subst; cbn; tauto |] ].

(** Whatever the posture part pushes is one of its twelve messages. *)
Lemma postureAdvice_messages (p : PostureSection) (recs : list string) (x : string) :
  In x (postureAdvice p recs) -> In x postureMessages \/ In x recs.
Proof.
  unfold postureAdvice. cbv zeta. intros H. peel H. now right.
Qed.

Lemma gaitAdvice_messages (g : GaitSection) (recs : list string) (x : string) :
  In x (gaitAdvice g recs) -> In x gaitMessages \/ In x recs.
Proof.
  unfold gaitAdvice. cbv zeta. intros H. peel H. now right.
Qed.

Lemma sub_nan (x : number) : JS.sub x JS.NaN = JS.NaN.
Proof. destruct x; reflexivity. Qed.

Lemma mean_nil {A : Type} (f : A -> number) : mean f [] = JS.NaN.
Proof. reflexivity. Qed.

Ltac peel_no_trend H :=
  repeat first
    [ apply in_pushIf in H as [H | H]; [subst; reflexivity |]
    | apply in_either in H as [H | [H | H]]; [subst; reflexivity | subst; reflexivity |] ].

(** With a [NaN] trend the posture part pushes no trend message. *)
Lemma postureAdvice_nan_trend (p : PostureSection) (x : string) :
  improvementTrend p = JS.NaN -> In x (postureAdvice p []) -> isTrend x = false.
Proof.
  unfold postureAdvice. cbv zeta. intros Htrend. rewrite Htrend.
  change (JS.lt JS.NaN (lit (-5))) with false.
  change (JS.gt JS.NaN (lit 5)) with false.
  cbv iota. intros H. peel_no_trend H. contradiction.
Qed.

Lemma gaitAdvice_nan_trend (g : GaitSection) (recs : list string) (x : string) :
  symmetryImprovement g = JS.NaN ->
  In x (gaitAdvice g recs) -> isTrend x = false \/ In x recs.
Proof.
  unfold gaitAdvice. cbv zeta. intros Htrend. rewrite Htrend.
  change (JS.lt JS.NaN (lit (-5))) with false.
  change (JS.gt JS.NaN (lit 5)) with false.
  cbv iota. intros H.
  repeat first
    [ apply in_pushIf in H as [H | H]; [subst; left; reflexivity |]
    | apply in_either in H as [H | [H | H]];
      [subst; left; reflexivity | subst; left; reflexivity |] ].
  now right.
Qed.

(** X16.  When exactly one record is analysed the first half is empty, the
    division 0 / 0 is not guarded, and the trend of the part is [NaN]; no
    trend recommendation (declining or improving) is then made, for either
    domain. *)
Theorem single_record_trend_is_nan (s : Posture.Session) (g : Gait.Session) :
  improvementTrend (postureSectionOf [s]) = JS.NaN
  /\ (forall x, In x (postureAdvice (postureSectionOf [s]) []) -> isTrend x = false)
  /\ symmetryImprovement (gaitSectionOf [g]) = JS.NaN
  /\ (forall x, In x (gaitAdvice (gaitSectionOf [g]) []) -> isTrend x = false).
Proof.
  assert (Hp : improvementTrend (postureSectionOf [s]) = JS.NaN).
  { cbn [postureSectionOf improvementTrend].
    change (firstHalf [s]) with (@nil Posture.Session).
    rewrite mean_nil. apply sub_nan. }
  assert (Hg : symmetryImprovement (gaitSectionOf [g]) = JS.NaN).
  { cbn [gaitSectionOf symmetryImprovement].
    change (firstHalf [g]) with (@nil Gait.Session).
    rewrite mean_nil. apply sub_nan. }
  split; [exact Hp |].
  split; [intros x; now apply postureAdvice_nan_trend |].
  split; [exact Hg |].
  intros x Hx. destruct (gaitAdvice_nan_trend _ [] x Hg Hx) as [H | []]. exact H.
Qed.

(** X17.  A generated report never has an empty recommendation list.  The
    sentence "Continue maintaining good biomechanical patterns" is only
    ever the sole recommendation; it is what a report gets when its type
    is none of posture, gait and combined (such a type is accepted, both
    parts are left out) and when there is no record to analyse. *)
Theorem report_recommendations_never_empty (clock : Clock) (args : GenArgs)
  (postureTable : list Posture.Session) (gaitTable : list Gait.Session) :
  recommendations (composeReport clock args postureTable gaitTable) <> []
  /\ (In keepGoing (recommendations (composeReport clock args postureTable gaitTable)) ->
      recommendations (composeReport clock args postureTable gaitTable) = [keepGoing])
  /\ (wantsPosture (g_type args) = false -> wantsGait (g_type args) = false ->
      posturePart (composeReport clock args postureTable gaitTable) = NotRequested
      /\ gaitPart (composeReport clock args postureTable gaitTable) = NotRequested
      /\ recommendations (composeReport clock args postureTable gaitTable) = [keepGoing])
  /\ (recentPosture postureTable = [] -> recentGait gaitTable = [] ->
      recommendations (composeReport clock args postureTable gaitTable) = [keepGoing]).
Proof.
  cbn [composeReport recommendations posturePart gaitPart].
  set (p := posturePartOf (g_type args) postureTable).
  set (g := gaitPartOf (g_type args) gaitTable).
  assert (Hno : forall r2,
            r2 = match g with
                 | Analysed s => gaitAdvice s
                                   match p with Analysed s' => postureAdvice s' [] | _ => [] end
                 | _ => match p with Analysed s' => postureAdvice s' [] | _ => [] end
                 end ->
            ~ In keepGoing r2).
  { intros r2 -> Hin.
    assert (Hp : forall s', ~ In keepGoing (postureAdvice s' [])).
    { intros s' H. apply postureAdvice_messages in H as [H | []].
      cbn in H. unfold keepGoing, postureDeclining, postureImproving in H.
      intuition discriminate. }
    destruct g as [| | sg].
    - destruct p; [contradiction | contradiction | now apply (Hp a)].
    - destruct p; [contradiction | contradiction | now apply (Hp a)].
    - apply gaitAdvice_messages in Hin as [H | H].
      + cbn in H. unfold keepGoing, gaitDeclining, gaitImproving in H.
        intuition discriminate.
      + destruct p; [contradiction | contradiction | now apply (Hp a)]. }
  unfold adviceOf. cbv zeta.
  specialize (Hno _ eq_refl).
  set (r2 := match g with
             | Analysed s => gaitAdvice s
                               match p with Analysed s' => postureAdvice s' [] | _ => [] end
             | _ => match p with Analysed s' => postureAdvice s' [] | _ => [] end
             end) in *.
  split.
  { destruct r2; cbn; discriminate. }
  split.
  { destruct r2 as [| m ms]; cbn [List.length Nat.eqb]; [reflexivity |].
    intros Hin. contradiction. }
  split.
  { intros Hp Hg. subst p g r2. unfold posturePartOf, gaitPartOf.
    rewrite Hp, Hg. repeat split. }
  intros Hp Hg. subst p g r2. unfold posturePartOf, gaitPartOf.
  rewrite Hp, Hg.
  destruct (wantsPosture (g_type args)), (wantsGait (g_type args)); reflexivity.
Qed.

End ReportAdvice.

(** ** Counter tables *)

Section CounterTables.
Import Reports.

Lemma own_cons (k a : string) (w : Obj.value) (m : Obj.object) :
  Obj.own k ((a, w) :: m) = if a =? k then Some w else Obj.own k m.
Proof. unfold Obj.own. cbn. now destruct (a =? k). Qed.

Lemma own_key (k : string) (m : Obj.object) :
  In k (map fst m) <-> Obj.own k m <> None.
Proof.
  induction m as [| [a w] m IH]; [cbn; tauto |].
  rewrite own_cons. cbn [map fst In].
  destruct (String.eqb_spec a k) as [-> | Hne]; [intuition discriminate |].
  rewrite <- IH. tauto.
Qed.



Lemma set_keys (k : string) (v : Obj.value) (m : Obj.object) :
  map fst (Obj.set k v m)
  = if existsb (fun a => a =? k) (map fst m) then map fst m else map fst m ++ [k].
Proof.
  induction m as [| [a w] m IH]; cbn [Obj.set map fst existsb app]; [reflexivity |].
  destruct (a =? k) eqn:E; cbn [map fst orb]; [reflexivity |].
  rewrite IH. now destruct (existsb _ (map fst m)).
Qed.

Lemma existsb_key (k : string) (keys : list string) :
  existsb (fun a => a =? k) keys = true <-> In k keys.
Proof.
  rewrite existsb_exists. split.
  - intros (a & Ha & E). apply String.eqb_eq in E. now subst.
  - intros H. exists k. split; [assumption | apply String.eqb_refl].
Qed.

Lemma set_In_keys (k k0 : string) (v : Obj.value) (m : Obj.object) :
  In k0 (map fst (Obj.set k v m)) <-> k0 = k \/ In k0 (map fst m).
Proof.
  rewrite set_keys. destruct (existsb _ (map fst m)) eqn:E.
  - apply existsb_key in E. split; [tauto | intros [-> | H]; assumption].
  - rewrite in_app_iff. cbn. intuition congruence.
Qed.

Lemma set_NoDup (k : string) (v : Obj.value) (m : Obj.object) :
  NoDup (map fst m) -> NoDup (map fst (Obj.set k v m)).
Proof.
  intros H. rewrite set_keys. destruct (existsb _ (map fst m)) eqn:E; [assumption |].
  assert (Hk : ~ In k (map fst m)).
  { intros Hin. apply existsb_key in Hin. congruence. }
  clear E. induction (map fst m) as [| a keys IH]; cbn [app].
  - constructor; [intros [] | constructor].
  - inversion H as [| ? ? Hnin Hnd]; subst. constructor.
    + rewrite in_app_iff. cbn. intros [Hin | [E | []]]; [tauto |].
      apply Hk. now left.
    + apply IH; [assumption |]. intros Hin. apply Hk. now right.
Qed.

Lemma bump_In_keys (k k0 : string) (m : Obj.object) :
  In k0 (map fst (Obj.bump k m)) -> k0 = k \/ In k0 (map fst m).
Proof.
  unfold Obj.bump. destruct (k =? "__proto__"); [now right |]. apply set_In_keys.
Qed.

Lemma bump_NoDup (k : string) (m : Obj.object) :
  NoDup (map fst m) -> NoDup (map fst (Obj.bump k m)).
Proof.
  unfold Obj.bump. destruct (k =? "__proto__"); [trivial | apply set_NoDup].
Qed.

Lemma own_bump (k k' : string) (m : Obj.object) :
  Obj.own k (Obj.bump k' m)
  = if (k' =? k) && negb (k' =? "__proto__") then Some (Obj.next k' m)
    else Obj.own k m.
Proof.
  unfold Obj.bump. destruct (k' =? "__proto__").
  - now rewrite andb_false_r.
  - rewrite own_set, andb_true_r. reflexivity.
Qed.

Lemma set_sum (k : string) (v : Obj.value) (m : Obj.object) :
  (list_sum (map countOf (Obj.set k v m))
   + match Obj.own k m with Some (Obj.Count n) => n | _ => 0 end
   = list_sum (map countOf m) + countOf (k, v))%nat.
Proof.
  induction m as [| [a w] m IH]; cbn [Obj.set map].
  - cbn. lia.
  - rewrite own_cons. destruct (a =? k); cbn [map]; rewrite !list_sum_cons.
    + replace (countOf (a, v)) with (countOf (k, v)) by reflexivity.
      destruct w as [c |];
        [change (countOf (a, Obj.Count c)) with c
        | change (countOf (a, Obj.Text)) with 0%nat]; lia.
    + lia.
Qed.

Lemma bump_sum (k : string) (m : Obj.object) (n : nat) :
  plainKey k = true -> lookupCount k m = Some n ->
  list_sum (map countOf (Obj.bump k m)) = S (list_sum (map countOf m)).
Proof.
  intros Hplain Hn. unfold Obj.bump.
  destruct (String.eqb_spec k "__proto__") as [-> | _]; [discriminate Hplain |].
  pose proof (set_sum k (Obj.next k m) m) as H.
  unfold lookupCount in Hn. unfold Obj.next in *.
  unfold plainKey in Hplain. apply negb_true_iff in Hplain. rewrite Hplain in *.
  destruct (Obj.own k m) as [[c |] |]; try discriminate Hn;
    unfold countOf in H at 3; cbn [snd] in H; lia.
Qed.








Section Tallies.
Context {A : Type} (keyOf : A -> option string).

Let tally (l : list A) (acc : Obj.object) : Obj.object :=
  fold_left (fun acc s => match keyOf s with
                          | Some p => Obj.bump p acc
                          | None => acc
                          end) l acc.

Let carries (k : string) (s : A) : bool :=
  match keyOf s with
  | Some p => p =? k
  | None => false
  end.

Lemma tally_NoDup (l : list A) (acc : Obj.object) :
  NoDup (map fst acc) -> NoDup (map fst (tally l acc)).
Proof.
  unfold tally. revert acc.
  induction l as [| s l IH]; intros acc H; cbn [fold_left]; [assumption |].
  apply IH. destruct (keyOf s); [now apply bump_NoDup | assumption].
Qed.

Lemma tally_proto (l : list A) (acc : Obj.object) :
  Obj.own "__proto__" (tally l acc) = Obj.own "__proto__" acc.
Proof.
  unfold tally. revert acc.
  induction l as [| s l IH]; intros acc; cbn [fold_left]; [reflexivity |].
  rewrite IH. destruct (keyOf s) as [p |]; [| reflexivity].
  rewrite own_bump. destruct (String.eqb_spec p "__proto__") as [-> | Hne].
  - reflexivity.
  - destruct (String.eqb_spec p "__proto__"); [contradiction | reflexivity].
Qed.

Lemma tally_keys (k : string) (l : list A) (acc : Obj.object) :
  In k (map fst (tally l acc)) ->
  In k (map fst acc) \/ exists s, In s l /\ keyOf s = Some k.
Proof.
  unfold tally. revert acc.
  induction l as [| s l IH]; intros acc H; cbn [fold_left] in H; [now left |].
  destruct (IH _ H) as [Hacc | (s' & Hs' & Hk)].
  - destruct (keyOf s) as [p |] eqn:Ep; [| now left].
    apply bump_In_keys in Hacc as [-> | Hacc]; [| now left].
    right. exists s. split; [now left | assumption].
  - right. exists s'. split; [now right | assumption].
Qed.

Lemma tally_inherited (k : string) (l : list A) (acc : Obj.object) :
  Obj.inherited k = true -> k <> "__proto__" ->
  Obj.own k acc = None \/ Obj.own k acc = Some Obj.Text ->
  Obj.own k (tally l acc)
  = match Obj.own k acc with
    | Some _ => Some Obj.Text
    | None => if (howMany (carries k) l =? 0)%nat then None else Some Obj.Text
    end.
Proof.
  intros Hin Hproto. unfold tally. revert acc.
  induction l as [| s l IH]; intros acc Hacc; cbn [fold_left].
  - destruct Hacc as [-> | ->]; reflexivity.
  - rewrite howMany_cons. unfold carries at 1.
    destruct (keyOf s) as [p |]; [| now rewrite IH].
    assert (Hnext : Obj.own k (Obj.bump p acc)
                    = if p =? k then Some Obj.Text else Obj.own k acc).
    { rewrite own_bump. destruct (String.eqb_spec p k) as [-> | Hne]; [| reflexivity].
      destruct (String.eqb_spec k "__proto__"); [contradiction |].
      cbn [andb negb]. unfold Obj.next. rewrite Hin.
      destruct Hacc as [-> | ->]; reflexivity. }
    rewrite IH.
    + rewrite Hnext. destruct (p =? k); [| reflexivity].
      destruct Hacc as [-> | ->]; reflexivity.
    + rewrite Hnext. destruct (p =? k); [now right | assumption].
Qed.


Lemma tally_sum (l : list A) (acc : Obj.object) :
  (forall k, plainKey k = true -> exists n, lookupCount k acc = Some n) ->
  (forall s p, In s l -> keyOf s = Some p -> plainKey p = true) ->
  list_sum (map countOf (tally l acc))
  = (list_sum (map countOf acc)
     + howMany (fun s => match keyOf s with Some _ => true | None => false end) l)%nat.
Proof.
  unfold tally. revert acc.
  induction l as [| s l IH]; intros acc Hacc Hplain; cbn [fold_left].
  - unfold howMany. cbn. lia.
  - rewrite howMany_cons. destruct (keyOf s) as [p |] eqn:Ep.
    + assert (Hp : plainKey p = true) by (apply (Hplain s p); [now left | assumption]).
      destruct (Hacc p Hp) as [n Hn].
      rewrite IH.
      * rewrite (bump_sum p acc n Hp Hn). lia.
      * intros k Hk. destruct (Hacc k Hk) as [n' Hn'].
        eexists. apply (lookupCount_bump k p acc n' Hk Hn').
      * intros s' p' Hs'. apply Hplain. now right.
    + rewrite IH; [lia | assumption |].
      intros s' p' Hs'. apply Hplain. now right.
Qed.



End Tallies.






(** Positions that are not word-like: an array index is listed before the
    keys created earlier, so it wins a tie; [__proto__] is never counted;
    under [constructor] the table holds a string. *)
Example positions_that_are_not_words :
  dominantSittingPosition
    (postureSectionOf (MoreInputs.seated [Some "straight"; Some "7"])) = "7"
  /\ dominantSittingPosition
       (postureSectionOf (MoreInputs.seated [Some "straight"; Some "seven"]))
     = "straight"
  /\ sittingPositions
       (postureSectionOf (MoreInputs.seated [Some "__proto__"; Some "__proto__"])) = []
  /\ dominantSittingPosition
       (postureSectionOf (MoreInputs.seated [Some "__proto__"; Some "__proto__"]))
     = "unknown"
  /\ sittingPositions
       (postureSectionOf (MoreInputs.seated [Some "constructor"; Some "constructor"]))
     = [("constructor", Obj.Text)].
Proof. vm_compute. repeat split. Qed.

(** X19.  The [sittingPositionStats] object that [getPostureStats] builds,
    for a non-empty set of collected records (how the database encodes
    the returned object is outside the model).  Under a plain, non-empty
    position it holds the number of collected records with that position;
    records without a position, or with the empty string, are not
    counted; the keys are distinct.  Positions that name a property of
    [Object.prototype] are not counted: [__proto__] never becomes a key,
    and any other such name that occurs holds a string.  When every
    position is plain the counts add up to the number of records that
    have a non-empty position. *)
Theorem sitting_position_stats_count (clock : Clock) (table : list Posture.Session) :
  PostureStats.collect table <> [] ->
  let stats := PostureStats.sittingPositionStats
                 (PostureStats.advancedStats (PostureStats.getPostureStats clock table)) in
  let all := PostureStats.collect table in
  let occurrences :=
    fun k => howMany (fun s => match Posture.sittingPosition s with
                               | Some p => p =? k
                               | None => false
                               end) all in
  (forall k, plainKey k = true -> k <> EmptyString ->
     lookupCount k stats = Some (occurrences k))
  /\ Obj.own EmptyString stats = None
  /\ NoDup (map fst stats)
  /\ Obj.own "__proto__" stats = None
  /\ (forall k, plainKey k = false -> k <> "__proto__" ->
        Obj.own k stats = if (occurrences k =? 0)%nat then None else Some Obj.Text)
  /\ ((forall s p, In s all -> Posture.sittingPosition s = Some p -> plainKey p = true) ->
      list_sum (map countOf stats)
      = howMany (fun s => match Posture.sittingPosition s with
                          | Some p => negb (p =? EmptyString)
                          | None => false
                          end) all).
Proof.
  intros Hne. cbv zeta. unfold PostureStats.getPostureStats, PostureStats.statsOf.
  destruct (PostureStats.collect table) as [| s0 l] eqn:E; [now contradiction Hne |].
  cbn [List.length Nat.eqb PostureStats.advancedStats PostureStats.sittingPositionStats].
  set (keyOf := fun s : Posture.Session =>
                  PostureStats.nonEmptyString (Posture.sittingPosition s)).
  assert (Hcarry : forall k, k <> EmptyString ->
            howMany (fun s => match keyOf s with Some p => p =? k | None => false end)
                    (s0 :: l)
            = howMany (fun s => match Posture.sittingPosition s with
                                | Some p => p =? k
                                | None => false
                                end) (s0 :: l)).
  { intros k Hk. apply howMany_ext. intros s. unfold keyOf, PostureStats.nonEmptyString.
    destruct (Posture.sittingPosition s) as [p |]; [| reflexivity].
    destruct p as [| c p]; cbn [String.length Nat.eqb]; [| reflexivity].
    destruct (String.eqb_spec EmptyString k); [congruence | reflexivity]. }
  split.
  { intros k Hk Hnonempty. now apply sittingPositionStats_count. }
  split.
  { destruct (Obj.own EmptyString (PostureStats.sittingPositionStatsOf (s0 :: l)))
      as [v |] eqn:Eo; [exfalso | reflexivity].
    assert (Hin : In EmptyString
                     (map fst (PostureStats.sittingPositionStatsOf (s0 :: l)))).
    { apply own_key. congruence. }
    destruct (tally_keys keyOf EmptyString (s0 :: l) [] Hin) as [[] | (s & _ & Hk)].
    unfold keyOf, PostureStats.nonEmptyString in Hk.
    destruct (Posture.sittingPosition s) as [p |]; [| discriminate Hk].
    destruct p; cbn in Hk; discriminate Hk. }
  split; [apply (tally_NoDup keyOf (s0 :: l) []); constructor |].
  split; [exact (tally_proto keyOf (s0 :: l) []) |].
  split.
  { intros k Hk Hproto. apply negb_false_iff in Hk.
    assert (Hk0 : k <> EmptyString) by (intros ->; discriminate Hk).
    rewrite <- (Hcarry k Hk0).
    exact (tally_inherited keyOf k (s0 :: l) [] Hk Hproto (or_introl eq_refl)). }
  intros Hplain.
  etransitivity.
  { apply (tally_sum keyOf (s0 :: l) [] (fun k _ => ex_intro _ 0%nat eq_refl)).
    intros s p Hs Hk. unfold keyOf, PostureStats.nonEmptyString in Hk.
    destruct (Posture.sittingPosition s) as [q |] eqn:Eq; [| discriminate Hk].
    destruct (String.length q =? 0)%nat; [discriminate Hk |].
    injection Hk as <-. now apply (Hplain s q). }
  cbn [map list_sum Nat.add]. apply howMany_ext. intros s.
  unfold keyOf, PostureStats.nonEmptyString.
  destruct (Posture.sittingPosition s) as [p |]; [| reflexivity].
  destruct p; reflexivity.
Qed.

(** Witness of X19. *)
Lemma sitting_position_stats_count_witness :
  PostureStats.collect
    (MoreInputs.seated [Some "hunchback"; None; Some "hunchback"; Some EmptyString]) <> []
  /\ PostureStats.sittingPositionStats
       (PostureStats.advancedStats
          (PostureStats.getPostureStats (frozen Inputs.now)
             (MoreInputs.seated [Some "hunchback"; None; Some "hunchback"; Some EmptyString])))
     = [("hunchback", Obj.Count 2)]
  /\ lookupCount "hunchback"
       (PostureStats.sittingPositionStats
          (PostureStats.advancedStats
             (PostureStats.getPostureStats (frozen Inputs.now)
                (MoreInputs.seated [Some "hunchback"; None; Some "hunchback"; Some EmptyString]))))
     = Some 2%nat.
Proof.
  assert (Hne : PostureStats.collect
                  (MoreInputs.seated [Some "hunchback"; None; Some "hunchback"; Some EmptyString])
                <> []) by discriminate.
  split; [exact Hne |]. split; [reflexivity |].
  rewrite (proj1 (sitting_position_stats_count (frozen Inputs.now) _ Hne) "hunchback"
             eq_refl ltac:(discriminate)).
  reflexivity.
Defined.

End CounterTables.

(** ** The newest entry of the weekly trend *)

Section NewestEntry.

Lemma filter_all_false {A : Type} (p : A -> bool) (l : list A) :
  (forall x, In x l -> p x = false) -> filter p l = [].
Proof. apply filter_none. Qed.

Lemma not_in_last_window (clock : Clock) (ts : Z) :
  (ts < clock 7%nat)%Z -> inDay clock 0 ts = false.
Proof.
  intros H. unfold inDay, dayStart. cbn [Nat.sub Z.of_nat].
  apply andb_false_iff. left. apply Z.leb_gt. lia.
Qed.

(** X20.  The last of the seven trend entries covers the 24 hours that
    start at the moment of the query: when every collected record was
    written before that moment, the entry is 0 in both aggregators,
    whatever was recorded today. *)
Theorem newest_trend_entry_is_zero (clock : Clock)
  (postureTable : list Posture.Session) (gaitTable : list Gait.Session) :
  PostureStats.collect postureTable <> [] ->
  GaitStats.collect gaitTable <> [] ->
  (forall s, In s (PostureStats.collect postureTable) ->
     (Posture.timestamp s < clock 7%nat)%Z) ->
  (forall s, In s (GaitStats.collect gaitTable) ->
     (Gait.timestamp s < clock 7%nat)%Z) ->
  nth_error (PostureStats.weeklyTrend (PostureStats.getPostureStats clock postureTable)) 6
  = Some {| PostureStats.date := clock 7%nat; PostureStats.score := lit 0 |}
  /\ nth_error (GaitStats.weeklyTrend (GaitStats.getGaitStats clock gaitTable)) 6
     = Some {| GaitStats.date := clock 7%nat; GaitStats.symmetry := lit 0 |}.
Proof.
  intros Hp Hg Hpast Hgpast. split.
  - rewrite (posture_trend_nonempty clock _ Hp). cbn [loopIndices map nth_error].
    unfold PostureStats.trendEntry. f_equal. f_equal.
    + unfold dayStart. cbn [Nat.sub Z.of_nat]. lia.
    + unfold PostureStats.daySessions. rewrite filter_all_false; [reflexivity |].
      intros s Hs. apply not_in_last_window, Hpast.
      unfold PostureStats.recentSessions in Hs. now apply filter_In in Hs as [Hs _].
  - rewrite (gait_trend_nonempty clock _ Hg). cbn [loopIndices map nth_error].
    unfold GaitStats.trendEntry. f_equal. f_equal.
    + unfold dayStart. cbn [Nat.sub Z.of_nat]. lia.
    + unfold GaitStats.daySessions. rewrite filter_all_false; [reflexivity |].
      intros s Hs. apply not_in_last_window, Hgpast.
      unfold GaitStats.recentSessions in Hs. now apply filter_In in Hs as [Hs _].
Qed.

(** Witness of X20: the example weeks, whose newest records are half a
    day old. *)
Lemma newest_trend_entry_is_zero_witness :
  PostureStats.collect Inputs.postureWeek <> []
  /\ GaitStats.collect Inputs.gaitWeek <> []
  /\ option_map PostureStats.score
       (nth_error (PostureStats.weeklyTrend
                     (PostureStats.getPostureStats (frozen Inputs.now) Inputs.postureWeek)) 6)
     = Some (lit 0)
  /\ option_map GaitStats.symmetry
       (nth_error (GaitStats.weeklyTrend
                     (GaitStats.getGaitStats (frozen Inputs.now) Inputs.gaitWeek)) 6)
     = Some (lit 0).
Proof.
  assert (Hp : PostureStats.collect Inputs.postureWeek <> []) by discriminate.
  assert (Hg : GaitStats.collect Inputs.gaitWeek <> []) by discriminate.
  assert (Hpast : forall s, In s (PostureStats.collect Inputs.postureWeek) ->
                    (Posture.timestamp s < frozen Inputs.now 7%nat)%Z).
  { cbn. intros s [<- | [<- | [<- | [<- | []]]]]; vm_compute; reflexivity. }
  assert (Hgpast : forall s, In s (GaitStats.collect Inputs.gaitWeek) ->
                     (Gait.timestamp s < frozen Inputs.now 7%nat)%Z).
  { cbn. intros s [<- | [<- | [<- | []]]]; vm_compute; reflexivity. }
  destruct (newest_trend_entry_is_zero (frozen Inputs.now) Inputs.postureWeek
              Inputs.gaitWeek Hp Hg Hpast Hgpast) as [H1 H2].
  split; [exact Hp |]. split; [exact Hg |].
  rewrite H1, H2. split; reflexivity.
Defined.

End NewestEntry.

(** ** The dashboard totals *)

Section DashboardTotals.
Import Dashboard.

Lemma fold_max_ge (l : list Z) (a : Z) :
  (a <= fold_left Z.max l a)%Z
  /\ forall x, In x l -> (x <= fold_left Z.max l a)%Z.
Proof.
  revert a. induction l as [| y l IH]; intros a; cbn [fold_left].
  - split; [lia | intros x []].
  - destruct (IH (Z.max a y)) as [H1 H2]. split; [lia |].
    intros x [<- | Hx]; [lia | auto].
Qed.

Lemma fold_max_in (l : list Z) (a : Z) :
  fold_left Z.max l a = a \/ In (fold_left Z.max l a) l.
Proof.
  revert a. induction l as [| y l IH]; intros a; cbn [fold_left]; [now left |].
  destruct (IH (Z.max a y)) as [H | H]; [| right; now right].
  rewrite H. destruct (Z.max_spec a y) as [[_ ->] | [_ ->]];
    [right; now left | now left].
Qed.

Lemma latest_ge (l : list Z) (x : Z) : In x l -> (x <= latest l)%Z.
Proof.
  destruct l as [| t rest]; [intros [] |]. cbn [latest].
  destruct (fold_max_ge rest t) as [H1 H2]. intros [<- | Hx]; auto.
Qed.

Lemma latest_in (l : list Z) : l <> [] -> In (latest l) l.
Proof.
  destruct l as [| t rest]; [intros H; now contradiction H |]. intros _.
  cbn [latest]. destruct (fold_max_in rest t) as [-> | H]; [now left | now right].
Qed.

Lemma gait_totalSessions_length clock (l : list Gait.Session) :
  GaitStats.totalSessions (GaitStats.statsOf clock l) = List.length l.
Proof. unfold GaitStats.statsOf. destruct l; reflexivity. Qed.

Lemma filter_length_le {A : Type} (p : A -> bool) (l : list A) :
  (List.length (filter p l) <= List.length l)%nat.
Proof. induction l as [| x l IH]; cbn; [lia |]. destruct (p x); cbn; lia. Qed.

(** X21.  The dashboard totals agree with the two aggregators, the recent
    counts never exceed the totals, and [lastActivity] is at least every
    collected timestamp; it is the timestamp of a collected session, or 0
    (which it is when nothing is collected). *)
Theorem dashboard_totals (clock clock' : Clock)
  (postureTable : list Posture.Session) (gaitTable : list Gait.Session)
  (reportTable : list Reports.Report) :
  let d := getDashboardStats clock postureTable gaitTable reportTable in
  totalSessions d = (totalPostureSessions d + totalGaitSessions d)%nat
  /\ totalPostureSessions d
     = PostureStats.totalSessions (PostureStats.getPostureStats clock' postureTable)
  /\ totalGaitSessions d
     = GaitStats.totalSessions (GaitStats.getGaitStats clock' gaitTable)
  /\ recentPostureSessions d
     = List.length (PostureStats.recentSessions clock (PostureStats.collect postureTable))
  /\ (recentPostureSessions d <= totalPostureSessions d)%nat
  /\ (recentGaitSessions d <= totalGaitSessions d)%nat
  /\ (forall s, In s (PostureStats.collect postureTable) ->
        (Posture.timestamp s <= lastActivity d)%Z)
  /\ (forall s, In s (GaitStats.collect gaitTable) ->
        (Gait.timestamp s <= lastActivity d)%Z)
  /\ (lastActivity d = 0%Z
      \/ (exists s, In s (PostureStats.collect postureTable)
                    /\ Posture.timestamp s = lastActivity d)
      \/ (exists s, In s (GaitStats.collect gaitTable)
                    /\ Gait.timestamp s = lastActivity d))
  /\ (PostureStats.collect postureTable = [] -> GaitStats.collect gaitTable = [] ->
      lastActivity d = 0%Z).
Proof.
  cbv zeta. unfold getDashboardStats.
  cbn [totalSessions totalPostureSessions totalGaitSessions recentPostureSessions
         recentGaitSessions lastActivity].
  split; [reflexivity |].
  split.
  { unfold PostureStats.getPostureStats. now rewrite totalSessions_length. }
  split.
  { unfold GaitStats.getGaitStats. now rewrite gait_totalSessions_length. }
  split; [reflexivity |].
  split; [apply filter_length_le |]. split; [apply filter_length_le |].
  split.
  { intros s Hs.
    pose proof (latest_ge _ _ (in_map Posture.timestamp _ _ Hs)). lia. }
  split.
  { intros s Hs.
    pose proof (latest_ge _ _ (in_map Gait.timestamp _ _ Hs)). lia. }
  split.
  { set (lp := map Posture.timestamp (PostureStats.collect postureTable)).
    set (lg := map Gait.timestamp (GaitStats.collect gaitTable)).
    destruct (Z.max_spec (latest lp) (latest lg)) as [[_ E] | [_ E]]; rewrite E.
    - destruct lg as [| t rest] eqn:El; [now left |].
      right. right.
      assert (Hin : In (latest (t :: rest)) lg).
      { rewrite El. apply latest_in. discriminate. }
      apply in_map_iff in Hin as (s & Hs & Hin). now exists s.
    - destruct lp as [| t rest] eqn:El; [now left |].
      right. left.
      assert (Hin : In (latest (t :: rest)) lp).
      { rewrite El. apply latest_in. discriminate. }
      apply in_map_iff in Hin as (s & Hs & Hin). now exists s. }
  intros -> ->. reflexivity.
Qed.

End DashboardTotals.

(** ** The camera client's score *)

Section ClientScore.
Import Client.

Lemma lt_le (x y : number) : JS.lt x y = true -> JS.le x y = true.
Proof.
  unfold JS.lt, JS.le, SFltb, SFleb.
  destruct (SFcompare x y) as [[| |] |]; intros H; try discriminate; reflexivity.
Qed.

(** [Math.max(0, Math.min(100, x))] is [NaN], or lies between 0 and 100. *)
Lemma clamp_range (x : number) :
  let r := max (lit 0) (min (lit 100) x) in
  r = JS.NaN \/ (JS.le (lit 0) r = true /\ JS.le r (lit 100) = true).
Proof.
  cbv zeta.
  remember (lit 100) as h eqn:Eh. remember (lit 0) as z eqn:Ez.
  vm_compute in Eh. vm_compute in Ez. subst h z.
  destruct x as [s | s | | s m e].
  - right. destruct s; vm_compute; split; reflexivity.
  - right. destruct s; vm_compute; split; reflexivity.
  - left. reflexivity.
  - right. cbv beta iota delta [min].
    destruct (JS.lt (S754_finite s m e) _) eqn:L1.
    + cbv beta iota delta [max].
      destruct (JS.lt _ (S754_finite s m e)) eqn:L2.
      * split; apply lt_le; assumption.
      * vm_compute; split; reflexivity.
    + vm_compute; split; reflexivity.
Qed.

(** X22.  The client's posture score is never below 0 or above 100: it is
    [NaN] or lies in that range, whatever the measurements; and it is
    exactly 100 when no penalty applies. *)
Theorem client_score_is_clamped
  (forwardHead shoulderTilt spineAlignment headTilt : number)
  (sittingPosition : string) :
  let score := calculatePostureScore forwardHead shoulderTilt spineAlignment
                 headTilt sittingPosition in
  (score = JS.NaN
   \/ (JS.le (lit 0) score = true /\ JS.le score (lit 100) = true))
  /\ (JS.gt forwardHead (lit 10) = false -> JS.gt shoulderTilt (lit 5) = false ->
      JS.lt spineAlignment (lit 80) = false -> JS.gt headTilt (lit 5) = false ->
      (sittingPosition =? "hunchback") = false ->
      (sittingPosition =? "reclined") = false ->
      score = lit 100).
Proof.
  cbv zeta. split.
  - unfold calculatePostureScore. cbv zeta. apply clamp_range.
  - intros H1 H2 H3 H4 H5 H6. unfold calculatePostureScore. cbv zeta.
    rewrite H1, H2, H3, H4, H5, H6. cbv beta iota delta [deduct].
    vm_compute. reflexivity.
Qed.

End ClientScore.

(** ** The canned chat replies *)

Section ChatReplies.
Import Chat.
Variable toLowerCase : string -> string.
Variable today : string.

Lemma orb3_of_orb5 (a b c d e : bool) :
  a || b || c || d || e = false -> a || b || c = false.
Proof. destruct a, b, c; cbn; intros H; try discriminate; reflexivity. Qed.

Lemma orb3_of_orb4 (a b c d : bool) :
  a || b || c || d = false -> a || b || c = false.
Proof. destruct a, b, c; cbn; intros H; try discriminate; reflexivity. Qed.

Ltac next_branch :=
  match goal with
  | |- context [if ?c then _ else _] => destruct c eqn:?
  end.

(** Once the enhanced generator has declined a message, the posture and
    gait branches of the plain generator cannot fire. *)
Lemma fallback_after_enhanced (userMessage : string)
  (postureStats : option PostureStats.Stats) (gaitStats : option GaitStats.Stats) :
  let message := toLowerCase userMessage in
  includes message "posture" || includes message "forward head"
    || includes message "sitting" || includes message "wrong position"
    || includes message "back" = false ->
  includes message "gait" || includes message "walking"
    || includes message "symmetry" || includes message "balance" = false ->
  In (template (generateFallbackResponse toLowerCase userMessage postureStats gaitStats))
     [6; 7; 8; 9; 10]%nat.
Proof.
  cbv zeta. intros Hp Hg. unfold generateFallbackResponse. cbv zeta.
  rewrite (orb3_of_orb5 _ _ _ _ _ Hp), (orb3_of_orb4 _ _ _ _ Hg).
  repeat next_branch; cbn; tauto.
Qed.

(** X23.  Through [generateComprehensiveBiomechanicsResponse], and
    through [generateEnhancedFallbackResponse], the posture-tips and
    gait-tips texts of [generateFallbackResponse] are never returned, and
    the text chosen depends on the message only, not on the statistics. *)
Theorem chat_tips_are_unreachable (userMessage : string)
  (postureStats : option PostureStats.Stats) (gaitStats : option GaitStats.Stats) :
  let full := generateComprehensiveBiomechanicsResponse toLowerCase today userMessage in
  let enhanced := generateEnhancedFallbackResponse toLowerCase userMessage in
  (forall x, full postureStats gaitStats <> PostureTips x)
  /\ (forall x, full postureStats gaitStats <> GaitTips x)
  /\ (forall x, enhanced postureStats gaitStats <> PostureTips x)
  /\ (forall x, enhanced postureStats gaitStats <> GaitTips x)
  /\ (forall postureStats' gaitStats',
        template (full postureStats' gaitStats')
        = template (full postureStats gaitStats)).
Proof.
  cbv zeta.
  assert (He : forall p g,
             In (template (generateEnhancedFallbackResponse toLowerCase userMessage p g))
                [2; 3; 6; 7; 8; 9; 10]%nat).
  { intros p g. unfold generateEnhancedFallbackResponse. cbv zeta.
    destruct (_ || includes _ "back") eqn:Hp; [cbn; tauto |].
    destruct (_ || includes _ "balance") eqn:Hg; [cbn; tauto |].
    pose proof (fallback_after_enhanced userMessage p g Hp Hg) as H.
    cbn in H |- *. tauto. }
  assert (Hf : forall p g,
             In (template (generateComprehensiveBiomechanicsResponse
                             toLowerCase today userMessage p g))
                [0; 1; 2; 3; 6; 7; 8; 9; 10]%nat).
  { intros p g. unfold generateComprehensiveBiomechanicsResponse. cbv zeta.
    destruct (_ || includes _ "today"); [cbn; tauto |].
    destruct (_ || includes _ "hey"); [cbn; tauto |].
    pose proof (He p g) as H. cbn in H |- *. tauto. }
  assert (Hne : forall r k l, In (template r) l -> ~ In k l ->
                  forall r', template r' = k -> r <> r').
  { intros r k l Hin Hk r' Hr' ->. now rewrite Hr' in Hin. }
  split.
  { intros x. apply (Hne _ 4%nat _ (Hf _ _)); [cbn; lia | reflexivity]. }
  split.
  { intros x. apply (Hne _ 5%nat _ (Hf _ _)); [cbn; lia | reflexivity]. }
  split.
  { intros x. apply (Hne _ 4%nat _ (He _ _)); [cbn; lia | reflexivity]. }
  split.
  { intros x. apply (Hne _ 5%nat _ (He _ _)); [cbn; lia | reflexivity]. }
  intros p' g'.
  unfold generateComprehensiveBiomechanicsResponse, generateEnhancedFallbackResponse,
    generateFallbackResponse. cbv zeta.
  destruct (_ || includes _ "today"); [reflexivity |].
  destruct (_ || includes _ "hey"); [reflexivity |].
  destruct (_ || includes _ "back") eqn:Hp; [reflexivity |].
  destruct (_ || includes _ "balance") eqn:Hg; [reflexivity |].
  rewrite (orb3_of_orb5 _ _ _ _ _ Hp), (orb3_of_orb4 _ _ _ _ Hg).
  repeat next_branch; reflexivity.
Qed.

End ChatReplies.

(** Called on its own, the plain generator does reach the posture tips;
    and a message merely containing "hi" or "time" is answered by the
    greeting or the date, before its subject is looked at. *)
Example chat_examples :
  Chat.generateFallbackResponse Chat.asciiLower "How is my Posture?" None None
  = Chat.PostureTips None
  /\ Chat.generateComprehensiveBiomechanicsResponse Chat.asciiLower "Monday"
       "Is this posture fine?" None None
     = Chat.Greeting None None
  /\ Chat.generateComprehensiveBiomechanicsResponse Chat.asciiLower "Monday"
       "My back hurts sometimes" None None
     = Chat.TodayIs "Monday"
  /\ Chat.generateComprehensiveBiomechanicsResponse Chat.asciiLower "Monday"
       "My lower back aches" None None
     = Chat.PostureAnalysis None.
Proof. vm_compute. repeat split. Qed.

(** ** The user profile *)

Section ProfileUpsert.
Import Store Profile.

Lemma given_given {A : Type} (a s : option A) : given a (given a s) = given a s.
Proof. destruct a; reflexivity. Qed.

Lemma given_self {A : Type} (a : option A) : given a a = a.
Proof. destruct a; reflexivity. Qed.

Lemma patched_idem (args : Args) (p : UserProfile) :
  patched args (patched args p) = patched args p.
Proof.
  unfold patched; cbn. rewrite !given_given.
  destruct (a_preferences args); reflexivity.
Qed.

Lemma patched_created (args : Args) : patched args (created args) = created args.
Proof.
  unfold patched, created; cbn. rewrite !given_self.
  destruct (a_preferences args); reflexivity.
Qed.

Lemma patched_given (args : Args) (p : UserProfile) :
  (forall v, a_height args = Some v -> height (patched args p) = Some v)
  /\ (forall v, a_weight args = Some v -> weight (patched args p) = Some v)
  /\ (forall v, a_age args = Some v -> age (patched args p) = Some v)
  /\ (forall v, a_activityLevel args = Some v ->
        activityLevel (patched args p) = Some v)
  /\ (forall v, a_medicalConditions args = Some v ->
        medicalConditions (patched args p) = Some v)
  /\ (forall v, a_goals args = Some v -> goals (patched args p) = Some v)
  /\ (forall v, a_preferences args = Some v -> preferences (patched args p) = v).
Proof. cbn. repeat split; intros v ->; reflexivity. Qed.

Lemma map_fixed {A : Type} (f : A -> A) (l : list A) :
  (forall x, In x l -> f x = x) -> map f l = l.
Proof.
  intros H. induction l as [| x l IH]; cbn; [reflexivity |].
  rewrite H by now left. f_equal. apply IH. intros y Hy. apply H. now right.
Qed.

Lemma ofUser_patch (args : Args) (id : nat) (t : Table UserProfile) :
  ofUser (patch t id (patched args))
  = map (fun d => if (_id d =? id)%nat
                  then {| _id := _id d; value := patched args (value d) |}
                  else d) (ofUser t).
Proof.
  unfold ofUser, patch. cbn [docs].
  induction (docs t) as [| d l IH]; cbn [map filter]; [reflexivity |].
  destruct (_id d =? id)%nat eqn:Hid; cbn [value userId patched].
  - destruct (userId (value d) =? Posture.anonymous); [| exact IH].
    cbn [map]. rewrite Hid. now f_equal.
  - destruct (userId (value d) =? Posture.anonymous); [| exact IH].
    cbn [map]. rewrite Hid. now f_equal.
Qed.

Lemma patch_wellFormed {A : Type} (t : Table A) (id : nat) (f : A -> A) :
  wellFormed t -> wellFormed (patch t id f).
Proof.
  intros [Hnd Hlt]. unfold wellFormed, patch. cbn [docs nextId].
  assert (Hids : forall l : list (Doc A),
             map _id (map (fun d => if (_id d =? id)%nat
                                    then {| _id := _id d; value := f (value d) |}
                                    else d) l) = map _id l).
  { induction l as [| d l IH]; cbn; [reflexivity |].
    rewrite IH. destruct (_id d =? id)%nat; reflexivity. }
  split.
  - now rewrite Hids.
  - apply Forall_map. eapply Forall_impl; [| exact Hlt].
    intros d Hd. cbn beta. destruct (_id d =? id)%nat; exact Hd.
Qed.

Lemma patch_patch (args : Args) (id : nat) (t : Table UserProfile) :
  patch (patch t id (patched args)) id (patched args) = patch t id (patched args).
Proof.
  unfold patch. cbn [docs nextId]. f_equal. rewrite map_map.
  apply map_ext. intros d.
  destruct (_id d =? id)%nat eqn:Hid; cbn [_id value]; rewrite Hid; [| reflexivity].
  now rewrite patched_idem.
Qed.

(** X24.  [updateUserProfile] is an upsert.  On a table with at most one
    profile of the user it returns the id of the user's profile, which is
    then the only one and is what [getUserProfile] answers; an argument
    that is passed is stored, one that is not keeps the stored value (the
    preferences default to light mode, notifications on, metric units on
    creation only); repeating the call changes nothing; the profiles of
    other users are left alone. *)
Theorem updateUserProfile_is_an_upsert (args : Args) (t : Table UserProfile) :
  wellFormed t ->
  (List.length (ofUser t) <= 1)%nat ->
  exists id t' p,
    updateUserProfile args t = Returned (id, t')
    /\ wellFormed t'
    /\ getUserProfile t' = Returned (Some {| _id := id; value := p |})
    /\ ofUser t' = [{| _id := id; value := p |}]
    /\ match ofUser t with
       | [] => id = nextId t /\ p = created args
       | d :: _ => id = _id d /\ p = patched args (value d)
       end
    /\ (forall v, a_height args = Some v -> height p = Some v)
    /\ (forall v, a_weight args = Some v -> weight p = Some v)
    /\ (forall v, a_age args = Some v -> age p = Some v)
    /\ (forall v, a_activityLevel args = Some v -> activityLevel p = Some v)
    /\ (forall v, a_medicalConditions args = Some v -> medicalConditions p = Some v)
    /\ (forall v, a_goals args = Some v -> goals p = Some v)
    /\ (forall v, a_preferences args = Some v -> preferences p = v)
    /\ updateUserProfile args t' = Returned (id, t')
    /\ (forall d, In d (docs t) -> userId (value d) <> Posture.anonymous ->
          In d (docs t')).
Proof.
  intros Hwf Hone.
  destruct (ofUser t) as [| d [| d' rest]] eqn:Hof; [| | cbn in Hone; lia].
  - (* no profile yet: insert *)
    exists (nextId t), (snd (insert t (created args))), (created args).
    assert (Hof' : ofUser (snd (insert t (created args)))
                   = [{| _id := nextId t; value := created args |}]).
    { unfold ofUser in *. cbn [insert snd docs]. rewrite filter_app, Hof. reflexivity. }
    assert (Hg : patched args (created args) = created args) by apply patched_created.
    split; [unfold updateUserProfile; now rewrite Hof |].
    split; [now apply insert_wellFormed |].
    split; [unfold getUserProfile; now rewrite Hof' |].
    split; [exact Hof' |].
    split; [split; reflexivity |].
    destruct (patched_given args (created args)) as (G1 & G2 & G3 & G4 & G5 & G6 & G7).
    rewrite Hg in G1, G2, G3, G4, G5, G6, G7.
    do 7 (split; [assumption |]).
    split.
    + unfold updateUserProfile. rewrite Hof'. cbn [unique _id]. do 2 f_equal.
      unfold patch, insert. cbn [snd docs nextId]. f_equal.
      rewrite map_app. cbn [map _id value]. rewrite Nat.eqb_refl, Hg. f_equal.
      apply map_fixed. intros x Hx. destruct Hwf as [_ Hlt].
      rewrite Forall_forall in Hlt. specialize (Hlt x Hx).
      destruct (Nat.eqb_spec (_id x) (nextId t)); [lia | reflexivity].
    + intros x Hx _. cbn [insert snd docs]. apply in_or_app. now left.
  - (* one profile: patch *)
    exists (_id d), (patch t (_id d) (patched args)), (patched args (value d)).
    assert (Hof' : ofUser (patch t (_id d) (patched args))
                   = [{| _id := _id d; value := patched args (value d) |}]).
    { rewrite ofUser_patch, Hof. cbn [map]. now rewrite Nat.eqb_refl. }
    split; [unfold updateUserProfile; now rewrite Hof |].
    split; [now apply patch_wellFormed |].
    split; [unfold getUserProfile; now rewrite Hof' |].
    split; [exact Hof' |].
    split; [split; reflexivity |].
    destruct (patched_given args (value d)) as (G1 & G2 & G3 & G4 & G5 & G6 & G7).
    do 7 (split; [assumption |]).
    split.
    + unfold updateUserProfile. rewrite Hof'. cbn [unique _id].
      now rewrite patch_patch.
    + intros x Hx Hother. unfold patch. cbn [docs].
      apply in_map_iff. exists x. split; [| exact Hx].
      destruct (Nat.eqb_spec (_id x) (_id d)) as [E | E]; [| reflexivity].
      exfalso. apply Hother.
      assert (Hd : In d (ofUser t)) by (rewrite Hof; now left).
      unfold ofUser in Hd. apply filter_In in Hd as [Hd Hu].
      destruct Hwf as [Hnd _].
      rewrite (same_id_same_doc _ x d Hnd Hx Hd E).
      now apply String.eqb_eq.
Qed.

End ProfileUpsert.

(** Witness of X24: the first update on a table that holds another user's
    profile creates the profile under the next id. *)
Lemma updateUserProfile_is_an_upsert_witness :
  exists t' p,
    Profile.updateUserProfile MoreInputs.profileArgs MoreInputs.profileTable
    = Store.Returned (1%nat, t')
    /\ Profile.getUserProfile t'
       = Store.Returned (Some {| Store._id := 1%nat; Store.value := p |})
    /\ Profile.height p = Some (lit 172).
Proof.
  assert (Hwf : Store.wellFormed MoreInputs.profileTable).
  { split; cbn.
    - constructor; [intros [] | constructor].
    - constructor; [apply Nat.lt_0_1 | constructor]. }
  assert (Hone : (List.length (Profile.ofUser MoreInputs.profileTable) <= 1)%nat)
    by (vm_compute; apply Nat.le_0_1).
  destruct (updateUserProfile_is_an_upsert MoreInputs.profileArgs
              MoreInputs.profileTable Hwf Hone)
    as (id & t' & p & H1 & _ & H3 & _ & H5 & H6 & _).
  cbn in H5. destruct H5 as [-> _].
  exists t', p. split; [exact H1 |]. split; [exact H3 |].
  apply H6. reflexivity.
Defined.

(** With two profiles of the user in the table, both handlers throw. *)
Example profile_handlers_throw_on_duplicates (args : Profile.Args)
  (p q : Profile.UserProfile) :
  Profile.userId p = Posture.anonymous -> Profile.userId q = Posture.anonymous ->
  let t := snd (Store.insert (snd (Store.insert Store.empty p)) q) in
  Profile.getUserProfile t = Store.Thrown Profile.uniqueError
  /\ Profile.updateUserProfile args t = Store.Thrown Profile.uniqueError.
Proof.
  intros Hp Hq. cbv zeta.
  unfold Profile.getUserProfile, Profile.updateUserProfile, Profile.ofUser.
  cbn [Store.insert Store.empty snd Store.docs Store.nextId app filter Store.value].
  rewrite Hp, Hq. cbn. split; reflexivity.
Qed.

(** ** Posture analysis with the subject's data *)

Section SubjectAnalysis.
Import Store Subject.
Variable toLowerCase : string -> string.

Lemma pushIf_In (c : bool) (msg x : string) (l : list string) :
  In x (Reports.pushIf c msg l) <-> In x l \/ (c = true /\ x = msg).
Proof.
  unfold Reports.pushIf. destruct c.
  - rewrite in_app_iff. cbn. intuition congruence.
  - intuition congruence.
Qed.

(** Comparison with a positive finite number is monotone in it. *)
Lemma le_lower (mb ma : positive) (eb ea : Z) (x : number) :
  JS.le (S754_finite false mb eb) (S754_finite false ma ea) = true ->
  JS.le (S754_finite false ma ea) x = true ->
  JS.le (S754_finite false mb eb) x = true.
Proof.
  unfold JS.le, SFleb.
  destruct x as [s | s | | s m e]; cbn [SFcompare]; try (intros _ H; exact H).
  destruct s; [intros _ H; exact H |].
  change (Pcompare mb ma Eq) with (Pos.compare mb ma).
  change (Pcompare ma m Eq) with (Pos.compare ma m).
  change (Pcompare mb m Eq) with (Pos.compare mb m).
  destruct (Z.compare_spec eb ea) as [Eba | Lba | Gba];
    destruct (Z.compare_spec ea e) as [Eae | Lae | Gae];
    destruct (Z.compare_spec eb e) as [Ebe | Lbe | Gbe];
    try lia; try (intros; reflexivity); try (intros; discriminate).
  destruct (Pos.compare_spec mb ma); destruct (Pos.compare_spec ma m);
    destruct (Pos.compare_spec mb m);
    try lia; try (intros; reflexivity); try (intros; discriminate).
Qed.

Lemma ge_60_of_80 (x : number) :
  JS.ge x (lit 80) = true -> JS.ge x (lit 60) = true.
Proof.
  unfold JS.ge. change (SFleb ?a ?b) with (JS.le a b).
  remember (lit 80) as a eqn:Ea. remember (lit 60) as b eqn:Eb.
  vm_compute in Ea, Eb. subst a b. apply le_lower. vm_compute. reflexivity.
Qed.

Lemma ge_40_of_60 (x : number) :
  JS.ge x (lit 60) = true -> JS.ge x (lit 40) = true.
Proof.
  unfold JS.ge. change (SFleb ?a ?b) with (JS.le a b).
  remember (lit 60) as a eqn:Ea. remember (lit 40) as b eqn:Eb.
  vm_compute in Ea, Eb. subst a b. apply le_lower. vm_compute. reflexivity.
Qed.

Lemma riskOf_spec (score : number) :
  (riskOf score = "low" <-> JS.ge score (lit 80) = true)
  /\ (riskOf score = "critical" <-> JS.ge score (lit 40) = false).
Proof.
  unfold riskOf.
  pose proof (ge_60_of_80 score) as H86. pose proof (ge_40_of_60 score) as H64.
  destruct (JS.ge score (lit 80)), (JS.ge score (lit 60)), (JS.ge score (lit 40));
    try (specialize (H86 eq_refl)); try (specialize (H64 eq_refl));
    try discriminate; split; split; intros H; try reflexivity; try discriminate.
Qed.

(** X25.  [analyzePostureWithSubjectData] pushes onto a name that is
    declared nowhere in two places, so it throws a ReferenceError exactly
    when the shoulders are tilted by more than 5 and the subject is older
    than 40, or the subject is sedentary.  When it returns, the normalised
    score is [NaN] or lies between 0 and 100, the risk level is 'low' from
    80 up and 'critical' below 40 (and for [NaN]), and of the five
    equipment suggestions only the two that do not depend on a sedentary
    subject can appear. *)
Theorem subject_posture_analysis (postureData : PostureData) (subject : SubjectData) :
  let tilt := JS.orZero (d_shoulderTilt postureData) in
  let throws :=
    (JS.gt (JS.abs tilt) (lit 5) && JS.gt (age subject) (lit 40))
    || isSedentary (activityLevel subject) in
  match analyzePostureWithSubjectData toLowerCase postureData subject with
  | Thrown message => message = referenceError /\ throws = true
  | Returned r =>
      throws = false
      /\ (normalizedPostureScore r = JS.NaN
          \/ (JS.le (lit 0) (normalizedPostureScore r) = true
              /\ JS.le (normalizedPostureScore r) (lit 100) = true))
      /\ (riskLevel r = "low" <-> JS.ge (normalizedPostureScore r) (lit 80) = true)
      /\ (riskLevel r = "critical"
          <-> JS.ge (normalizedPostureScore r) (lit 40) = false)
      /\ (forall e, In e (equipmentSuggestions r) ->
            e = antiFatigueMat \/ e = specialEquipment)
      /\ (In antiFatigueMat (equipmentSuggestions r)
          <-> JS.gt (age subject) (lit 50) = true)
      /\ (In specialEquipment (equipmentSuggestions r)
          <-> backOrSpine toLowerCase (medicalConditions subject) = true)
  end.
Proof.
  cbv zeta. unfold analyzePostureWithSubjectData. cbv zeta.
  set (score := Client.max (lit 0) (Client.min (lit 100) _)).
  destruct (JS.gt (JS.abs (JS.orZero (d_shoulderTilt postureData))) (lit 5)
            && JS.gt (age subject) (lit 40)) eqn:Ht.
  { split; reflexivity. }
  destruct (isSedentary (activityLevel subject)) eqn:Hs.
  { split; reflexivity. }
  cbn [normalizedPostureScore riskLevel equipmentSuggestions orb].
  rewrite !andb_false_r.
  split; [reflexivity |].
  split; [apply clamp_range |].
  destruct (riskOf_spec score) as [Hlow Hcrit].
  split; [exact Hlow |]. split; [exact Hcrit |].
  split.
  { intros e He. rewrite !pushIf_In in He.
    destruct He as [[[[[] | [? _]] | [? _]] | [_ ->]] | [_ ->]];
      try discriminate; [now left | now right]. }
  split.
  { rewrite !pushIf_In. split.
    - intros [[[[[] | [? _]] | [? _]] | [H _]] | [_ H]];
        try discriminate; exact H.
    - intros H. left. right. split; [exact H | reflexivity]. }
  rewrite !pushIf_In. split.
  - intros [[[[[] | [? _]] | [? _]] | [_ H]] | [H _]];
      try discriminate; exact H.
  - intros H. right. split; [exact H | reflexivity].
Qed.

End SubjectAnalysis.
